(** * signalk-meteoblue: forecast decision and prediction engine

    A shallow embedding of [src/index.ts].  JavaScript numbers are read as
    real numbers (the unit converters are "total over real-number domains"),
    epoch milliseconds and array indices as integers, JavaScript objects as
    association lists in insertion order, and the host (clock, network,
    message bus) as an explicit world that every effectful function threads. *)

From Stdlib Require Import Reals Lra Lia ZArith List String Ascii Bool DecimalString.
Import ListNotations.

Local Open Scope string_scope.

(** ** JavaScript values and objects *)

Inductive JsValue : Type :=
| JUndefined
| JNull
| JBool (b : bool)
| JNum (x : R)
| JNaN
| JStr (s : string).

(** An object keeps its own string keys in insertion order. *)
Definition Obj := list (string * JsValue).

Fixpoint obj_get (k : string) (o : Obj) : JsValue :=
  match o with
  | [] => JUndefined
  | (k', v) :: o' => if (k' =? k) then v else obj_get k o'
  end.

(** [o[k] = v]: overwrite in place when the key exists, append otherwise. *)
Fixpoint obj_set (k : string) (v : JsValue) (o : Obj) : Obj :=
  match o with
  | [] => [(k, v)]
  | entry :: o' =>
      if (fst entry =? k) then (k, v) :: o' else entry :: obj_set k v o'
  end.

Definition obj_keys (o : Obj) : list string := map fst o.

(** [String.prototype.includes]. *)
Fixpoint includes (sub s : string) : bool :=
  prefix sub s ||
  match s with
  | EmptyString => false
  | String _ s' => includes sub s'
  end.

(** [Math.round]: nearest integer, halves towards plus infinity. *)
Definition Math_round (x : R) : Z := Zfloor (x + / 2).

(** [Math.atan2] on the reals. *)
Definition Math_atan2 (y x : R) : R :=
  if Rlt_dec 0 x then atan (y / x)
  else if Rlt_dec x 0 then
    (if Rle_dec 0 y then atan (y / x) + PI else atan (y / x) - PI)
  else if Rlt_dec 0 y then PI / 2
  else if Rlt_dec y 0 then - (PI / 2)
  else 0.

(** Truthiness, [||] and [&&]. *)
Definition truthy (v : JsValue) : bool :=
  match v with
  | JUndefined | JNull | JNaN => false
  | JBool b => b
  | JNum x => if Req_dec_T x 0 then false else true
  | JStr s => negb (s =? "")
  end.

Definition js_or (a b : JsValue) : JsValue := if truthy a then a else b.
Definition js_and (a b : JsValue) : JsValue := if truthy a then b else a.

(** ** The JavaScript runtime the plugin runs on

    The local time zone (milliseconds east of UTC, taken as constant), the
    [Date] parser (None is an Invalid Date), the [Date] printers and the
    number/string conversions (None is NaN) are the engine's, not the
    plugin's. *)

Record JsRuntime : Type := {
  tzOffset : Z;
  Date_parse : string -> option Z;
  Date_toISOString : Z -> string;
  Date_toLocaleString : Z -> string;
  Number_toString : R -> string;
  String_toNumber : string -> option R
}.

(** Proleptic Gregorian calendar, days counted from 1970-01-01. *)
Definition civil_from_days (z0 : Z) : Z * Z * Z :=
  let z := (z0 + 719468)%Z in
  let era := (z / 146097)%Z in
  let doe := (z - era * 146097)%Z in
  let yoe := ((doe - doe / 1460 + doe / 36524 - doe / 146096) / 365)%Z in
  let y := (yoe + era * 400)%Z in
  let doy := (doe - (365 * yoe + yoe / 4 - yoe / 100))%Z in
  let mp := ((5 * doy + 2) / 153)%Z in
  let d := (doy - (153 * mp + 2) / 5 + 1)%Z in
  let m := (if (mp <? 10)%Z then mp + 3 else mp - 9)%Z in
  ((if (m <=? 2)%Z then y + 1 else y)%Z, m, d).

Definition days_from_civil (y0 m d : Z) : Z :=
  let y := (if (m <=? 2)%Z then y0 - 1 else y0)%Z in
  let era := (y / 400)%Z in
  let yoe := (y - era * 400)%Z in
  let doy := ((153 * (if (2 <? m)%Z then m - 3 else m + 9) + 2) / 5 + d - 1)%Z in
  let doe := (yoe * 365 + yoe / 4 - yoe / 100 + doy)%Z in
  (era * 146097 + doe - 719468)%Z.

Definition msPerHour : Z := 3600000.
Definition msPerDay : Z := 86400000.

Section Runtime.

Variable rt : JsRuntime.

Definition localTime (t : Z) : Z := (t + tzOffset rt)%Z.

Definition getFullYear (t : Z) : Z :=
  let '(y, _, _) := civil_from_days (localTime t / msPerDay) in y.

(** Months are numbered from 0. *)
Definition getMonth (t : Z) : Z :=
  let '(_, m, _) := civil_from_days (localTime t / msPerDay) in (m - 1)%Z.

Definition getDate (t : Z) : Z :=
  let '(_, _, d) := civil_from_days (localTime t / msPerDay) in d.

Definition getHours (t : Z) : Z := ((localTime t mod msPerDay) / msPerHour)%Z.

(** [new Date(year, month, date, hours, 0, 0, 0)], local time. *)
Definition Date_local (y m d h : Z) : Z :=
  (days_from_civil y (m + 1) d * msPerDay + h * msPerHour - tzOffset rt)%Z.

(** The wall clock truncated to the hour, as both hourly paths compute it. *)
Definition currentHourOf (now : Z) : Z :=
  Date_local (getFullYear now) (getMonth now) (getDate now) (getHours now).

(** ** Unit converters *)

Definition degToRad (degrees : R) : R := (degrees * (PI / 180))%R.
Definition celsiusToKelvin (celsius : R) : R := (celsius + 273.15)%R.
Definition mbToPA (mb : R) : R := (mb * 100)%R.
Definition mmToM (mm : R) : R := (mm / 1000)%R.
Definition percentToRatio (percent : R) : R := (percent / 100)%R.

(** ** Douglas sea state descriptions *)

Definition douglasSimpleDescriptions (n : Z) : option string :=
  match n with
  | 0%Z => Some "Calm"
  | 1%Z => Some "Calm"
  | 2%Z => Some "Smooth"
  | 3%Z => Some "Slight"
  | 4%Z => Some "Moderate"
  | 5%Z => Some "Rough"
  | 6%Z => Some "Very rough"
  | 7%Z => Some "High"
  | 8%Z => Some "Very high"
  | 9%Z => Some "Phenomenal"
  | _ => None
  end.

Definition douglasVerboseDescriptions (n : Z) : option string :=
  match n with
  | 0%Z => Some "Calm (0m) - Sea like a mirror"
  | 1%Z => Some "Calm (0-0.1m) - Ripples with appearance of scales, no foam crests"
  | 2%Z => Some "Smooth (0.1-0.5m) - Small wavelets, crests of glassy appearance, not breaking"
  | 3%Z => Some "Slight (0.5-1.25m) - Large wavelets, crests begin to break, scattered whitecaps"
  | 4%Z => Some "Moderate (1.25-2.5m) - Small waves becoming longer, numerous whitecaps"
  | 5%Z => Some "Rough (2.5-4m) - Moderate waves, many whitecaps, some spray"
  | 6%Z => Some "Very rough (4-6m) - Large waves, whitecaps everywhere, more spray"
  | 7%Z => Some "High (6-9m) - Sea heaps up, white foam streaks off breakers"
  | 8%Z => Some "Very high (9-14m) - Moderately high waves, crests break into spindrift"
  | 9%Z => Some "Phenomenal (>14m) - High waves, dense foam, sea completely white with driving spray"
  | _ => None
  end.

(** [table[key] || fallback] on a table of strings. *)
Definition lookup_or (entry : option string) (fallback : string) : string :=
  match entry with
  | Some s => if (s =? "") then fallback else s
  | None => fallback
  end.

Definition douglasSeaStateSimple (scale : R) : string :=
  lookup_or (douglasSimpleDescriptions (Math_round scale)) "Unknown".

Definition douglasSeaStateVerbose (scale : R) : string :=
  lookup_or (douglasVerboseDescriptions (Math_round scale))
            ("Unknown (" ++ Number_toString rt scale ++ ")").

End Runtime.

(** ** Configuration, positions and session state

    The record types are read off the object literals of [index.ts]: the
    configuration built in [plugin.start], the session [state], and the
    positions made from navigation updates. *)

Record PluginConfig : Type := {
  meteoblueApiKey : string;
  forecastInterval : R;
  altitude : R;
  enablePositionSubscription : bool;
  maxForecastHours : Z;
  maxForecastDays : Z;
  enableBasic1h : bool;
  enableBasicDay : bool;
  enableWind1h : bool;
  enableWindDay : bool;
  enableSea1h : bool;
  enableSeaDay : bool;
  enableSolar1h : bool;
  enableSolarDay : bool;
  enableTrend1h : bool;
  enableClouds1h : bool;
  enableCloudsDay : bool;
  enableAutoMovingForecast : bool;
  movingSpeedThreshold : R
}.

Record Position : Type := {
  latitude : R;
  longitude : R;
  timestamp : Z
}.

(** [lastForecastUpdate] is a number of epoch milliseconds, 0 when no cycle
    has completed yet; timers are kept as opaque handles. *)
Record PluginState : Type := {
  forecastIntervalTimer : option nat;
  accountCheckIntervalTimer : option nat;
  currentConfig : option PluginConfig;
  currentPosition : option Position;
  currentHeading : option R;
  currentSOG : option R;
  lastForecastUpdate : Z;
  lastAccountCheck : Z;
  forecastEnabled : bool;
  accountInfo : option Obj;
  movingForecastEngaged : bool
}.

Definition set_movingForecastEngaged (b : bool) (st : PluginState) : PluginState :=
  {| forecastIntervalTimer := forecastIntervalTimer st;
     accountCheckIntervalTimer := accountCheckIntervalTimer st;
     currentConfig := currentConfig st;
     currentPosition := currentPosition st;
     currentHeading := currentHeading st;
     currentSOG := currentSOG st;
     lastForecastUpdate := lastForecastUpdate st;
     lastAccountCheck := lastAccountCheck st;
     forecastEnabled := forecastEnabled st;
     accountInfo := accountInfo st;
     movingForecastEngaged := b |}.

Definition set_lastForecastUpdate (t : Z) (st : PluginState) : PluginState :=
  {| forecastIntervalTimer := forecastIntervalTimer st;
     accountCheckIntervalTimer := accountCheckIntervalTimer st;
     currentConfig := currentConfig st;
     currentPosition := currentPosition st;
     currentHeading := currentHeading st;
     currentSOG := currentSOG st;
     lastForecastUpdate := t;
     lastAccountCheck := lastAccountCheck st;
     forecastEnabled := forecastEnabled st;
     accountInfo := accountInfo st;
     movingForecastEngaged := movingForecastEngaged st |}.

Definition set_currentPosition (p : option Position) (st : PluginState) : PluginState :=
  {| forecastIntervalTimer := forecastIntervalTimer st;
     accountCheckIntervalTimer := accountCheckIntervalTimer st;
     currentConfig := currentConfig st;
     currentPosition := p;
     currentHeading := currentHeading st;
     currentSOG := currentSOG st;
     lastForecastUpdate := lastForecastUpdate st;
     lastAccountCheck := lastAccountCheck st;
     forecastEnabled := forecastEnabled st;
     accountInfo := accountInfo st;
     movingForecastEngaged := movingForecastEngaged st |}.

(** ** Position prediction *)

(** [new Date(x)] keeps the integral part of [x]. *)
Definition Date_ofNumber (x : R) : Z :=
  if Rle_dec 0 x then Zfloor x else Zceil x.

Definition calculateFuturePosition
    (currentPos : Position) (headingRad sogMps hoursAhead : R) : Position :=
  let distanceMeters := (sogMps * hoursAhead * 3600)%R in
  let earthRadius := 6371000%R in
  let lat1 := degToRad (latitude currentPos) in
  let lon1 := degToRad (longitude currentPos) in
  let lat2 :=
    asin (sin lat1 * cos (distanceMeters / earthRadius) +
          cos lat1 * sin (distanceMeters / earthRadius) * cos headingRad)%R in
  let lon2 :=
    (lon1 +
     Math_atan2
       (sin headingRad * sin (distanceMeters / earthRadius) * cos lat1)
       (cos (distanceMeters / earthRadius) - sin lat1 * sin lat2))%R in
  {| latitude := (lat2 * (180 / PI))%R;
     longitude := (lon2 * (180 / PI))%R;
     timestamp :=
       Date_ofNumber (IZR (timestamp currentPos) + hoursAhead * 3600000)%R |}.

Definition isVesselMoving (sogMps thresholdKnots : R) : bool :=
  let thresholdMps := (thresholdKnots * 0.514444)%R in
  if Rlt_dec thresholdMps sogMps then true else false.

(** ** Update trigger *)

Definition shouldUpdateForecast
    (st : PluginState) (now : Z) (position : Position) : bool :=
  match currentPosition st with
  | None => true
  | Some cur =>
      if (lastForecastUpdate st =? 0)%Z then true
      else
        let timeSinceUpdate := (now - lastForecastUpdate st)%Z in
        let updateIntervalMs :=
          (match currentConfig st with
           | Some c => forecastInterval c
           | None => 120
           end * 60 * 1000)%R in
        if Rle_dec updateIntervalMs (IZR timeSinceUpdate) then true
        else
          let lat1 := latitude cur in
          let lon1 := longitude cur in
          let lat2 := latitude position in
          let lon2 := longitude position in
          let R0 := 6371000%R in
          let dLat := degToRad (lat2 - lat1) in
          let dLon := degToRad (lon2 - lon1) in
          let a :=
            (sin (dLat / 2) * sin (dLat / 2) +
             cos (degToRad lat1) * cos (degToRad lat2) *
             sin (dLon / 2) * sin (dLon / 2))%R in
          let c := (2 * Math_atan2 (sqrt a) (sqrt (1 - a)))%R in
          let distance := (R0 * c)%R in
          if Rlt_dec 9260 distance then true else false
  end.

(** ** Package field classifier *)

Definition getEnabledPackages (config : PluginConfig) : list string :=
  (if enableBasic1h config then ["basic-1h"] else []) ++
  (if enableBasicDay config then ["basic-day"] else []) ++
  (if enableWind1h config then ["wind-1h"] else []) ++
  (if enableWindDay config then ["wind-day"] else []) ++
  (if enableSea1h config then ["sea-1h"] else []) ++
  (if enableSeaDay config then ["sea-day"] else []) ++
  (if enableSolar1h config then ["solar-1h"] else []) ++
  (if enableSolarDay config then ["solar-day"] else []) ++
  (if enableTrend1h config then ["trend-1h"] else []) ++
  (if enableClouds1h config then ["clouds-1h"] else []) ++
  (if enableCloudsDay config then ["clouds-day"] else []).

Definition getHourlyPackageFields (packageType : string) : list string :=
  if packageType =? "basic" then
    ["temperature"; "windspeed"; "winddirection"; "precipitation";
     "pictocode"; "relativehumidity"; "sealevelpressure";
     "surfaceairpressure"; "uvindex"; "felttemperature";
     "precipitation_probability"; "isdaylight"; "rainspot";
     "convective_precipitation"; "snowfraction"; "visibility"; "dewpoint";
     "dewpointtemperature"]
  else if packageType =? "wind" then
    ["windspeed"; "winddirection"; "gust"; "windspeed_80m";
     "winddirection_80m"; "airdensity"; "surfaceairpressure";
     "sealevelpressure"]
  else if packageType =? "sea" then
    ["seasurfacetemperature"; "significantwaveheight"; "surfwave_height";
     "windwave_height"; "swell_significantheight"; "mean_waveperiod";
     "windwave_meanperiod"; "swell_meanperiod"; "windwave_peakwaveperiod";
     "swell_peakwaveperiod"; "mean_wavedirection"; "windwave_direction";
     "swell_meandirection"; "douglas_seastate"; "wavesteepness";
     "currentvelocity_u"; "currentvelocity_v"; "salinity"]
  else if packageType =? "solar" then
    ["uvindex"; "sunshine_duration"; "isdaylight"; "solarradiation";
     "extraterrestrial_solar_radiation"; "irradiance_direct_normal";
     "irradiance_diffuse_horizontal"; "irradiance_global_horizontal"]
  else if packageType =? "trend" then
    ["temperature"; "precipitation"; "windspeed"; "winddirection";
     "pressure_trend"; "temperature_trend"; "windspeed_trend";
     "sealevelpressure_trend"]
  else if packageType =? "clouds" then
    ["cloudcover"; "total_cloud_cover"; "low_cloud_cover";
     "mid_cloud_cover"; "high_cloud_cover"; "cloud_base_height";
     "cloud_top_height"]
  else [].

Definition getDailyPackageFields (packageType : string) : list string :=
  if packageType =? "basic" then
    ["temperature_max"; "temperature_min"; "temperature_mean";
     "windspeed_max"; "windspeed_min"; "windspeed_mean"; "winddirection";
     "precipitation"; "pictocode"; "relativehumidity_max";
     "relativehumidity_min"; "relativehumidity_mean";
     "sealevelpressure_max"; "sealevelpressure_min";
     "sealevelpressure_mean"; "uvindex"; "felttemperature_max";
     "felttemperature_min"; "felttemperature_mean";
     "precipitation_probability"; "precipitation_hours"; "snowfraction";
     "rainspot"; "visibility_mean"; "dewpoint_max"; "dewpoint_min";
     "dewpoint_mean"]
  else if packageType =? "wind" then
    ["windspeed_max"; "windspeed_min"; "windspeed_mean"; "winddirection";
     "sealevelpressure_max"; "sealevelpressure_min";
     "sealevelpressure_mean"]
  else if packageType =? "sea" then
    ["temperature_max"; "temperature_min"]
  else if packageType =? "solar" then
    ["uvindex"; "sunshine_duration"; "solarradiation_max";
     "solarradiation_mean"; "irradiance_direct_normal_max";
     "irradiance_diffuse_horizontal_max";
     "irradiance_global_horizontal_max"]
  else if packageType =? "trend" then
    ["temperature_max"; "temperature_min"; "precipitation";
     "windspeed_max"; "winddirection"]
  else if packageType =? "clouds" then
    ["cloudcover_max"; "cloudcover_min"; "cloudcover_mean";
     "total_cloud_cover_max"; "total_cloud_cover_min";
     "total_cloud_cover_mean"; "low_cloud_cover_mean";
     "mid_cloud_cover_mean"; "high_cloud_cover_mean"]
  else [].

(** ** Provider frames and the per-package processors *)

(** One provider series: the [time] array (absent when missing or not an
    array) and the parallel value arrays, a JSON null being [None]. *)
Record Frame : Type := {
  fr_time : option (list string);
  fr_cols : list (string * list (option R))
}.

Fixpoint assoc {A : Type} (k : string) (l : list (string * A)) : option A :=
  match l with
  | [] => None
  | (k', v) :: l' => if (k' =? k) then Some v else assoc k l'
  end.

(** [data[field]?.[dataIndex]], with undefined and null both [None]. *)
Definition frame_value (data : Frame) (field : string) (dataIndex : nat)
  : option R :=
  match assoc field (fr_cols data) with
  | Some col =>
      match nth_error col dataIndex with
      | Some (Some v) => Some v
      | _ => None
      end
  | None => None
  end.

(** Index of the first element satisfying [p], counted from [i]. *)
Fixpoint firstIndexFrom {A : Type} (p : A -> bool) (l : list A) (i : nat)
  : option nat :=
  match l with
  | [] => None
  | x :: l' => if p x then Some i else firstIndexFrom p l' (S i)
  end.

Definition daysOfWeek : list string :=
  ["Sunday"; "Monday"; "Tuesday"; "Wednesday"; "Thursday"; "Friday";
   "Saturday"].

Section Processors.

Variable rt : JsRuntime.

(** Comparisons of [new Date(s)] with a time value; an Invalid Date
    compares false. *)
Definition date_ge (t : Z) (s : string) : bool :=
  match Date_parse rt s with Some u => (t <=? u)%Z | None => false end.
Definition date_gt (t : Z) (s : string) : bool :=
  match Date_parse rt s with Some u => (t <? u)%Z | None => false end.
Definition date_lt (t : Z) (s : string) : bool :=
  match Date_parse rt s with Some u => (u <? t)%Z | None => false end.

(** The unit conversion applied to one extracted value, the body of the
    [allowedFields.forEach] callback (the same text in the hourly and the
    daily processor). *)
Definition convertField (field : string) (value : R) (forecast : Obj) : Obj :=
  if includes "temperature" field || (field =? "felttemperature") then
    obj_set field (JNum (celsiusToKelvin value)) forecast
  else if includes "direction" field || (field =? "winddirection") then
    obj_set field (JNum (degToRad value)) forecast
  else if (field =? "precipitation") || (field =? "convective_precipitation") then
    obj_set field (JNum (mmToM value)) forecast
  else if includes "pressure" field || (field =? "sealevelpressure") then
    obj_set field (JNum (mbToPA value)) forecast
  else if includes "humidity" field || includes "cloudcover" field then
    obj_set field (JNum (percentToRatio value)) forecast
  else if includes "precipitation_probability" field then
    obj_set field (JNum (percentToRatio value)) forecast
  else if field =? "douglas_seastate" then
    obj_set "douglas_seastate_verbose"
      (JStr (douglasSeaStateVerbose rt value))
      (obj_set "douglas_seastate_description"
         (JStr (douglasSeaStateSimple value))
         (obj_set field (JNum value) forecast))
  else
    obj_set field (JNum value) forecast.

Definition extractField (data : Frame) (dataIndex : nat)
    (forecast : Obj) (field : string) : Obj :=
  match frame_value data field dataIndex with
  | Some value => convertField field value forecast
  | None => forecast
  end.

(** The two searches for the first row to emit. *)
Definition hourlyStartIndex (now : Z) (time : list string) : nat :=
  let currentHour := currentHourOf rt now in
  let startIndex :=
    match firstIndexFrom (date_ge currentHour) time 0 with
    | Some i => i
    | None => 0%nat
    end in
  match startIndex, time with
  | O, first :: _ =>
      if date_lt currentHour first then
        match firstIndexFrom (date_gt now) time 0 with
        | Some i => i
        | None => startIndex
        end
      else startIndex
  | _, _ => startIndex
  end.

Definition relativeHourOf (now : Z) (stamp : string) : JsValue :=
  match Date_parse rt stamp with
  | Some t => JNum (IZR (Math_round (IZR (t - now) / (1000 * 60 * 60))))
  | None => JNaN
  end.

Definition hourlyRecord (data : Frame) (now : Z) (allowedFields : list string)
    (dataIndex : nat) (stamp : string) : Obj :=
  fold_left (extractField data dataIndex) allowedFields
    [("timestamp", JStr stamp); ("relativeHour", relativeHourOf now stamp)].

Definition processHourlyForecastForPackage
    (now : Z) (data : option Frame) (maxHours : Z) (packageType : string)
  : list Obj :=
  match data with
  | None => []
  | Some d =>
      match fr_time d with
      | None => []
      | Some time =>
          let allowedFields := getHourlyPackageFields packageType in
          let startIndex := hourlyStartIndex now time in
          let count :=
            Z.min (Z.of_nat (List.length time) - Z.of_nat startIndex) maxHours in
          map (fun i =>
                 let dataIndex := (startIndex + i)%nat in
                 hourlyRecord d now allowedFields dataIndex
                   (nth dataIndex time ""))
              (seq 0 (Z.to_nat count))
      end
  end.

(** [getDay]: 1970-01-01 was a Thursday. *)
Definition getDay (t : Z) : Z := ((localTime rt t / msPerDay + 4) mod 7)%Z.

Definition dayOfWeekOf (stamp : string) : JsValue :=
  match Date_parse rt stamp with
  | Some t =>
      match nth_error daysOfWeek (Z.to_nat (getDay t)) with
      | Some s => JStr s
      | None => JUndefined
      end
  | None => JUndefined
  end.

Definition dailyRecord (data : Frame) (allowedFields : list string)
    (i : nat) (stamp : string) : Obj :=
  fold_left (extractField data i) allowedFields
    [("date", JStr stamp); ("dayOfWeek", dayOfWeekOf stamp)].

Definition processDailyForecastForPackage
    (data : option Frame) (maxDays : Z) (packageType : string) : list Obj :=
  match data with
  | None => []
  | Some d =>
      match fr_time d with
      | None => []
      | Some time =>
          let count := Z.min (Z.of_nat (List.length time)) maxDays in
          let allowedFields := getDailyPackageFields packageType in
          map (fun i => dailyRecord d allowedFields i (nth i time ""))
              (seq 0 (Z.to_nat count))
      end
  end.

End Processors.

(** ** Weather-query adapter: reshaping a stored record *)

Definition pictocodeDescriptions : list (string * string) :=
  [("1", "Clear"); ("2", "Clear"); ("3", "Clear");
   ("4", "Mostly Clear"); ("5", "Mostly Clear"); ("6", "Mostly Clear");
   ("7", "Partly Cloudy"); ("8", "Partly Cloudy"); ("9", "Partly Cloudy");
   ("10", "Partly Cloudy"); ("11", "Partly Cloudy"); ("12", "Partly Cloudy");
   ("13", "Hazy"); ("14", "Hazy"); ("15", "Hazy");
   ("16", "Foggy"); ("17", "Foggy"); ("18", "Foggy");
   ("19", "Mostly Cloudy"); ("20", "Mostly Cloudy"); ("21", "Mostly Cloudy");
   ("22", "Cloudy"); ("23", "Rainy"); ("24", "Snow"); ("25", "Heavy Rain");
   ("26", "Heavy Snow"); ("27", "Thunderstorms"); ("28", "Thunderstorms");
   ("29", "Snow Storm"); ("30", "Thunderstorms"); ("31", "Showers");
   ("32", "Snow Showers"); ("33", "Light Rain"); ("34", "Light Snow");
   ("35", "Wintry Mix")].

Definition pictocodeLongDescriptions : list (string * string) :=
  [("1", "Clear, cloudless sky");
   ("2", "Clear, few cirrus");
   ("3", "Clear with cirrus");
   ("4", "Clear with few low clouds");
   ("5", "Clear with few low clouds and few cirrus");
   ("6", "Clear with few low clouds and cirrus");
   ("7", "Partly cloudy");
   ("8", "Partly cloudy and few cirrus");
   ("9", "Partly cloudy and cirrus");
   ("10", "Mixed with some thunderstorm clouds possible");
   ("11", "Mixed with few cirrus and some thunderstorm clouds possible");
   ("12", "Mixed with cirrus and some thunderstorm clouds possible");
   ("13", "Clear but hazy");
   ("14", "Clear but hazy with few cirrus");
   ("15", "Clear but hazy with cirrus");
   ("16", "Fog or low stratus clouds");
   ("17", "Fog or low stratus clouds with few cirrus");
   ("18", "Fog or low stratus clouds with cirrus");
   ("19", "Mostly cloudy");
   ("20", "Mostly cloudy and few cirrus");
   ("21", "Mostly cloudy and cirrus");
   ("22", "Overcast");
   ("23", "Overcast with rain");
   ("24", "Overcast with snow");
   ("25", "Overcast with heavy rain");
   ("26", "Overcast with heavy snow");
   ("27", "Rain, thunderstorms likely");
   ("28", "Light rain, thunderstorms likely");
   ("29", "Storm with heavy snow");
   ("30", "Heavy rain, thunderstorms likely");
   ("31", "Mixed with showers");
   ("32", "Mixed with snow showers");
   ("33", "Overcast with light rain");
   ("34", "Overcast with light snow");
   ("35", "Overcast with mixture of snow and rain")].

(** The five groupings of the external schema, with the header fields. *)
Record WeatherData : Type := {
  wd_date : JsValue;
  wd_type : string;
  wd_description : string;
  wd_longDescription : string;
  wd_icon : JsValue;
  wd_outside : Obj;
  wd_wind : Obj;
  wd_water : Obj;
  wd_sun : Obj;
  wd_current : Obj
}.

Definition set_wd_type (t : string) (w : WeatherData) : WeatherData :=
  {| wd_date := wd_date w;
     wd_type := t;
     wd_description := wd_description w;
     wd_longDescription := wd_longDescription w;
     wd_icon := wd_icon w;
     wd_outside := wd_outside w;
     wd_wind := wd_wind w;
     wd_water := wd_water w;
     wd_sun := wd_sun w;
     wd_current := wd_current w |}.

Inductive WeatherForecastType : Type := daily | point.

Definition type_name (t : WeatherForecastType) : string :=
  match t with daily => "daily" | point => "point" end.

(** [s.padStart(2, "0")]. *)
Definition padStart2 (s : string) : string :=
  match String.length s with
  | O => "00"
  | S O => "0" ++ s
  | _ => s
  end.

Section Adapter.

Variable rt : JsRuntime.

Definition ToNumber (v : JsValue) : option R :=
  match v with
  | JUndefined => None
  | JNull => Some 0%R
  | JBool b => Some (if b then 1%R else 0%R)
  | JNum x => Some x
  | JNaN => None
  | JStr s => String_toNumber rt s
  end.

Definition ofNumber (o : option R) : JsValue :=
  match o with Some x => JNum x | None => JNaN end.

(** [v.toString()]; nothing on undefined and null, where it throws. *)
Definition js_toString (v : JsValue) : option string :=
  match v with
  | JUndefined | JNull => None
  | JBool b => Some (if b then "true" else "false")
  | JNum x => Some (Number_toString rt x)
  | JNaN => Some "NaN"
  | JStr s => Some s
  end.

(** The property key a value indexes a table with. *)
Definition ToPropertyKey (v : JsValue) : string :=
  match v with
  | JUndefined => "undefined"
  | JNull => "null"
  | _ => match js_toString v with Some s => s | None => "" end
  end.

(** [v ** 2], [a + b] on numbers, [Math.sqrt], [Math.atan2], [v > 0],
    [v < 0] and [v === 1]. *)
Definition js_square (v : JsValue) : JsValue :=
  ofNumber (option_map (fun x => (x * x)%R) (ToNumber v)).

Definition js_add (a b : JsValue) : JsValue :=
  match ToNumber a, ToNumber b with
  | Some x, Some y => JNum (x + y)
  | _, _ => JNaN
  end.

Definition js_sqrt (v : JsValue) : JsValue :=
  match ToNumber v with
  | Some x => if Rlt_dec x 0 then JNaN else JNum (sqrt x)
  | None => JNaN
  end.

Definition js_atan2 (y x : JsValue) : JsValue :=
  match ToNumber y, ToNumber x with
  | Some a, Some b => JNum (Math_atan2 a b)
  | _, _ => JNaN
  end.

Definition js_gt0 (v : JsValue) : bool :=
  match ToNumber v with
  | Some x => if Rlt_dec 0 x then true else false
  | None => false
  end.

Definition js_lt0 (v : JsValue) : bool :=
  match ToNumber v with
  | Some x => if Rlt_dec x 0 then true else false
  | None => false
  end.

Definition js_is1 (v : JsValue) : bool :=
  match v with
  | JNum x => if Req_dec_T x 1 then true else false
  | _ => false
  end.

Definition getWeatherDescription (pictocode : JsValue) (fallback : string)
  : string :=
  match pictocode with
  | JUndefined => fallback
  | _ => lookup_or (assoc (ToPropertyKey pictocode) pictocodeDescriptions)
                   fallback
  end.

Definition getWeatherLongDescription (pictocode : JsValue) (fallback : string)
  : string :=
  match pictocode with
  | JUndefined => fallback
  | _ => lookup_or (assoc (ToPropertyKey pictocode) pictocodeLongDescriptions)
                   fallback
  end.

(** The icon file name; [None] when [pictocode.toString()] throws. *)
Definition getWeatherIcon (pictocode isDaylight : JsValue) : option JsValue :=
  match pictocode with
  | JUndefined => Some JUndefined
  | _ =>
      match js_toString pictocode with
      | None => None
      | Some text =>
          let paddedCode := padStart2 text in
          let dayNight :=
            match isDaylight with
            | JBool true => "day"
            | _ => if js_is1 isDaylight then "day" else "night"
            end in
          Some (JStr (paddedCode ++ "_" ++ dayNight ++ ".svg"))
      end
  end.

Definition currentSpeed (forecastData : Obj) : JsValue :=
  js_sqrt
    (js_add
       (js_square (js_or (obj_get "currentvelocity_u" forecastData) (JNum 0)))
       (js_square (js_or (obj_get "currentvelocity_v" forecastData) (JNum 0)))).

Definition currentDirection (forecastData : Obj) : JsValue :=
  if truthy (js_and (obj_get "currentvelocity_u" forecastData)
                    (obj_get "currentvelocity_v" forecastData))
  then js_atan2 (obj_get "currentvelocity_v" forecastData)
                (obj_get "currentvelocity_u" forecastData)
  else JUndefined.

Definition pressureTendencyOf (forecastData : Obj) : JsValue :=
  let trend := js_or (obj_get "pressure_trend" forecastData)
                     (obj_get "sealevelpressure_trend" forecastData) in
  if truthy trend then
    if js_gt0 trend then JStr "increasing"
    else if js_lt0 trend then JStr "decreasing"
    else JStr "steady"
  else JUndefined.

Definition convertToWeatherAPIObservation (now : Z) (forecastData : Obj)
  : option WeatherData :=
  let fd := fun k => obj_get k forecastData in
  match getWeatherIcon (fd "pictocode") (fd "isdaylight") with
  | None => None
  | Some icon =>
      Some
        {| wd_date := js_or (fd "timestamp") (JStr (Date_toISOString rt now));
           wd_type := "observation";
           wd_description :=
             getWeatherDescription (fd "pictocode") "Meteoblue weather";
           wd_longDescription :=
             getWeatherLongDescription (fd "pictocode")
               "Meteoblue weather forecast";
           wd_icon := icon;
           wd_outside :=
             [("temperature", fd "temperature");
              ("pressure", fd "sealevelpressure");
              ("relativeHumidity", fd "relativehumidity");
              ("uvIndex", fd "uvindex");
              ("cloudCover", fd "cloudcover");
              ("precipitationVolume", fd "precipitation");
              ("feelsLikeTemperature", fd "felttemperature");
              ("horizontalVisibility", fd "visibility");
              ("dewPointTemperature",
               js_or (fd "dewpoint") (fd "dewpointtemperature"));
              ("precipitationProbability", fd "precipitation_probability");
              ("pressureTendency", pressureTendencyOf forecastData);
              ("solarRadiation", fd "solarradiation");
              ("directNormalIrradiance", fd "irradiance_direct_normal");
              ("diffuseHorizontalIrradiance",
               fd "irradiance_diffuse_horizontal");
              ("globalHorizontalIrradiance",
               fd "irradiance_global_horizontal");
              ("extraterrestrialSolarRadiation",
               fd "extraterrestrial_solar_radiation");
              ("totalCloudCover", fd "total_cloud_cover");
              ("lowCloudCover", fd "low_cloud_cover");
              ("midCloudCover", fd "mid_cloud_cover");
              ("highCloudCover", fd "high_cloud_cover");
              ("cloudBaseHeight", fd "cloud_base_height");
              ("cloudTopHeight", fd "cloud_top_height")];
           wd_wind :=
             [("speedTrue", fd "windspeed");
              ("directionTrue", fd "winddirection");
              ("gust", fd "gust");
              ("averageSpeed", fd "windspeed");
              ("gustDirectionTrue", fd "gustdirection")];
           wd_water :=
             [("temperature", fd "seasurfacetemperature");
              ("waveSignificantHeight", fd "significantwaveheight");
              ("wavePeriod", fd "mean_waveperiod");
              ("waveDirection", fd "mean_wavedirection");
              ("swellHeight", fd "swell_significantheight");
              ("swellPeriod", fd "swell_meanperiod");
              ("swellDirection", fd "swell_meandirection");
              ("surfaceCurrentSpeed", currentSpeed forecastData);
              ("surfaceCurrentDirection", currentDirection forecastData);
              ("salinity", fd "salinity");
              ("seaState", fd "douglas_seastate");
              ("surfaceWaveHeight", fd "surfwave_height");
              ("windWaveHeight", fd "windwave_height");
              ("windWavePeriod", fd "windwave_meanperiod");
              ("windWaveDirection", fd "windwave_direction");
              ("swellPeakPeriod", fd "swell_peakwaveperiod");
              ("windWavePeakPeriod", fd "windwave_peakwaveperiod");
              ("waveSteepness", fd "wavesteepness")];
           wd_sun :=
             [("sunshineDuration", fd "sunshine_duration");
              ("isDaylight", JBool (js_is1 (fd "isdaylight")))];
           wd_current :=
             [("drift", currentSpeed forecastData);
              ("set", currentDirection forecastData)] |}
  end.

Definition convertToWeatherAPIForecast
    (now : Z) (forecastData : Obj) (type : WeatherForecastType)
  : option WeatherData :=
  let fd := fun k => obj_get k forecastData in
  match type with
  | daily =>
      match getWeatherIcon (fd "pictocode") (JBool true) with
      | None => None
      | Some icon =>
          Some
            {| wd_date :=
                 js_or (fd "timestamp") (JStr (Date_toISOString rt now));
               wd_type := "daily";
               wd_description :=
                 getWeatherDescription (fd "pictocode") "Meteoblue weather";
               wd_longDescription :=
                 getWeatherLongDescription (fd "pictocode")
                   "Meteoblue weather forecast";
               wd_icon := icon;
               wd_outside :=
                 [("temperature", fd "temperature_mean");
                  ("maxTemperature", fd "temperature_max");
                  ("minTemperature", fd "temperature_min");
                  ("feelsLikeTemperature", fd "felttemperature_mean");
                  ("pressure", fd "sealevelpressure_mean");
                  ("relativeHumidity", fd "relativehumidity_mean");
                  ("uvIndex", fd "uvindex");
                  ("precipitationVolume", fd "precipitation");
                  ("dewPointTemperature", fd "dewpoint_mean");
                  ("horizontalVisibility", fd "visibility_mean");
                  ("precipitationProbability",
                   fd "precipitation_probability");
                  ("cloudCover", fd "cloudcover_mean");
                  ("totalCloudCover", fd "total_cloud_cover_mean");
                  ("lowCloudCover", fd "low_cloud_cover_mean");
                  ("midCloudCover", fd "mid_cloud_cover_mean");
                  ("highCloudCover", fd "high_cloud_cover_mean");
                  ("solarRadiation", fd "solarradiation_mean");
                  ("directNormalIrradiance",
                   fd "irradiance_direct_normal_max");
                  ("diffuseHorizontalIrradiance",
                   fd "irradiance_diffuse_horizontal_max");
                  ("globalHorizontalIrradiance",
                   fd "irradiance_global_horizontal_max")];
               wd_wind :=
                 [("speedTrue", fd "windspeed_max");
                  ("directionTrue", fd "winddirection");
                  ("averageSpeed", fd "windspeed_mean")];
               wd_water :=
                 [("temperature", fd "seasurfacetemperature_mean");
                  ("surfaceCurrentSpeed", currentSpeed forecastData);
                  ("surfaceCurrentDirection",
                   currentDirection forecastData)];
               wd_sun := [("sunshineDuration", fd "sunshine_duration")];
               wd_current :=
                 [("drift", currentSpeed forecastData);
                  ("set", currentDirection forecastData)] |}
      end
  | point =>
      option_map (set_wd_type (type_name point))
                 (convertToWeatherAPIObservation now forecastData)
  end.

End Adapter.

(** ** The host: clock, network and message bus *)

Inductive DeltaValue : Type :=
| DVal (v : JsValue)
| DPosition (lat lon : JsValue).

Record PutResult : Type := {
  pr_state : string;
  pr_statusCode : option Z
}.

Inductive Event : Type :=
| EvFetch (url : string)
| EvDelta (source : string) (stamp : JsValue)
          (values : list (string * DeltaValue))
| EvError (msg : string)
| EvStatus (msg : string)
| EvCallback (result : PutResult).

Record MeteoblueResponse : Type := {
  metadata : JsValue;
  data_1h : option Frame;
  data_day : option Frame
}.

(** What one [fetch] brings back: a rejected promise, or a response whose
    body parses ([Some]) or not. *)
Record HttpResponse : Type := {
  ok : bool;
  status : nat;
  statusText : string;
  body : option MeteoblueResponse
}.

Inductive FetchResult : Type :=
| NetworkError (msg : string)
| Http (response : HttpResponse).

Record FetchReply : Type := {
  elapsed : Z;
  result : FetchResult
}.

(** The world a cycle runs in: the wall clock, the replies the network
    will give to the coming requests, and everything done so far. *)
Record World : Type := {
  w_clock : Z;
  w_net : list FetchReply;
  w_log : list Event
}.

Definition emit (e : Event) (w : World) : World :=
  {| w_clock := w_clock w; w_net := w_net w; w_log := (w_log w ++ [e])%list |}.

Definition sleep (ms : Z) (w : World) : World :=
  {| w_clock := (w_clock w + ms)%Z; w_net := w_net w; w_log := w_log w |}.

(** A computation over the session state and the world that returns or
    throws an error message. *)
Inductive Outcome (A : Type) : Type :=
| Returned (a : A) (st : PluginState) (w : World)
| Thrown (msg : string) (st : PluginState) (w : World).
Arguments Returned {A} a st w.
Arguments Thrown {A} msg st w.

Definition M (A : Type) : Type := PluginState -> World -> Outcome A.

Definition ret {A : Type} (a : A) : M A := fun st w => Returned a st w.

Definition throw {A : Type} (msg : string) : M A := fun st w => Thrown msg st w.

Definition bind {A B : Type} (m : M A) (k : A -> M B) : M B :=
  fun st w =>
    match m st w with
    | Returned a st' w' => k a st' w'
    | Thrown msg st' w' => Thrown msg st' w'
    end.

Notation "x <- m ;; k" := (bind m (fun x => k))
  (at level 61, m at next level, right associativity).
Notation "m ;;; k" := (bind m (fun _ => k))
  (at level 61, right associativity).

Definition tell (e : Event) : M unit := fun st w => Returned tt st (emit e w).

Definition getClock : M Z := fun st w => Returned (w_clock w) st w.

Definition getState : M PluginState := fun st w => Returned st st w.

Definition modify (f : PluginState -> PluginState) : M unit :=
  fun st w => Returned tt (f st) w.

Definition delay (ms : Z) : M unit := fun st w => Returned tt st (sleep ms w).

(** [await fetch(url)]. *)
Definition fetch (url : string) : M HttpResponse :=
  fun st w =>
    let w1 := emit (EvFetch url) w in
    match w_net w1 with
    | [] => Thrown "network unreachable" st w1
    | r :: rest =>
        let w2 := {| w_clock := (w_clock w1 + elapsed r)%Z;
                     w_net := rest;
                     w_log := w_log w1 |} in
        match result r with
        | NetworkError msg => Thrown msg st w2
        | Http response => Returned response st w2
        end
    end.

(** [await response.json()]. *)
Definition json (response : HttpResponse) : M MeteoblueResponse :=
  match body response with
  | Some data => ret data
  | None => throw "invalid json response body"
  end.

Fixpoint forEachM {A : Type} (f : A -> M unit) (l : list A) : M unit :=
  match l with
  | [] => ret tt
  | x :: l' => f x ;;; forEachM f l'
  end.

Fixpoint foldM {A S : Type} (f : S -> A -> M S) (l : list A) (s : S) : M S :=
  match l with
  | [] => ret s
  | x :: l' => s' <- f s x ;; foldM f l' s'
  end.

Definition string_of_nat (n : nat) : string :=
  DecimalString.NilZero.string_of_uint (Nat.to_uint n).

(** [Array.prototype.join]. *)
Fixpoint join (sep : string) (l : list string) : string :=
  match l with
  | [] => ""
  | [x] => x
  | x :: l' => x ++ sep ++ join sep l'
  end.

(** [s.replace(sub, rep)]: the first occurrence only. *)
Fixpoint replace (sub rep s : string) : string :=
  if prefix sub s then
    rep ++ substring (String.length sub) (String.length s - String.length sub) s
  else
    match s with
    | EmptyString => s
    | String c s' => String c (replace sub rep s')
    end.

Definition getSourceLabel (packageType : string) : string :=
  "meteoblue-" ++ packageType ++ "-api".

(** [record[k] = v] on a record of arrays. *)
Fixpoint assoc_set {A : Type} (k : string) (v : A) (l : list (string * A))
  : list (string * A) :=
  match l with
  | [] => [(k, v)]
  | entry :: l' =>
      if (fst entry =? k) then (k, v) :: l' else entry :: assoc_set k v l'
  end.

(** [record[k].push(x)]; the key is there, the arrays are initialised
    before the first push. *)
Fixpoint assoc_push {A : Type} (k : string) (x : A)
    (l : list (string * list A)) : list (string * list A) :=
  match l with
  | [] => []
  | (k', xs) :: l' =>
      if (k' =? k) then (k', (xs ++ [x])%list) :: l' else (k', xs) :: assoc_push k x l'
  end.

Definition is_undefined (v : JsValue) : bool :=
  match v with JUndefined => true | _ => false end.




Section Engine.

Variable rt : JsRuntime.

Definition meteoblueUrl (lat lon : R) (config : PluginConfig) : string :=
  let packageStr := join "_" (getEnabledPackages config) in
  "https://my.meteoblue.com/packages/" ++ packageStr ++ "?" ++
  "apikey=" ++ meteoblueApiKey config ++ "&" ++
  "lat=" ++ Number_toString rt lat ++ "&" ++
  "lon=" ++ Number_toString rt lon ++ "&" ++
  "asl=" ++ Number_toString rt (altitude config) ++ "&" ++
  "format=json".

Definition buildMeteoblueUrl (lat lon : R) (config : PluginConfig) : M string :=
  match getEnabledPackages config with
  | [] => throw "No Meteoblue packages enabled in configuration"
  | _ => ret (meteoblueUrl lat lon config)
  end.

(** One delta per record; the bus metadata that goes with each path is
    left out. *)
Definition forecastDelta (granularity skipped : string) (st : PluginState)
    (sourceLabel : string) (stamp : JsValue) (index : nat) (forecast : Obj)
  : Event :=
  let prefix :=
    "environment.outside.meteoblue.forecast." ++ granularity ++ "." in
  let values :=
    map (fun kv => (prefix ++ fst kv ++ "." ++ string_of_nat index,
                    DVal (snd kv)))
        (filter (fun kv => negb (fst kv =? skipped)) forecast) in
  let forecastLat :=
    js_or (obj_get "predictedLatitude" forecast)
          (match currentPosition st with
           | Some p => JNum (latitude p)
           | None => JUndefined
           end) in
  let forecastLon :=
    js_or (obj_get "predictedLongitude" forecast)
          (match currentPosition st with
           | Some p => JNum (longitude p)
           | None => JUndefined
           end) in
  let values' :=
    if negb (is_undefined forecastLat) && negb (is_undefined forecastLon) then
      List.app values
        [(prefix ++ "forecastPosition." ++ string_of_nat index,
          DPosition forecastLat forecastLon)]
    else values in
  EvDelta sourceLabel stamp values'.

Definition publishHourlyForecasts (forecasts : list Obj) (packageType : string)
  : M unit :=
  let sourceLabel := getSourceLabel packageType in
  forEachM
    (fun '(index, forecast) =>
       st <- getState ;;
       tell (forecastDelta "hourly" "timestamp" st sourceLabel
               (obj_get "timestamp" forecast) index forecast))
    (combine (seq 0 (List.length forecasts)) forecasts).

Definition publishDailyForecasts (forecasts : list Obj) (packageType : string)
  : M unit :=
  let sourceLabel := getSourceLabel packageType in
  forEachM
    (fun '(index, forecast) =>
       st <- getState ;;
       now <- getClock ;;
       tell (forecastDelta "daily" "date" st sourceLabel
               (JStr (Date_toISOString rt now)) index forecast))
    (combine (seq 0 (List.length forecasts)) forecasts).

Definition httpError (response : HttpResponse) : string :=
  "HTTP " ++ string_of_nat (status response) ++ ": " ++ statusText response.

(** The [try] block of [fetchForecast]. *)
Definition fetchForecastBody (position : option Position)
    (config : PluginConfig) : M unit :=
  pos <- match position with
         | Some p => ret p
         | None => throw "Cannot read properties of null (reading 'latitude')"
         end ;;
  url <- buildMeteoblueUrl (latitude pos) (longitude pos) config ;;
  response <- fetch url ;;
  if negb (ok response) then throw (httpError response)
  else
    data <- json response ;;
    let enabledPackages := getEnabledPackages config in
    now <- getClock ;;
    tell (EvDelta (getSourceLabel "metadata")
            (JStr (Date_toISOString rt now))
            [("environment.outside.meteoblue.system.metadata",
              DVal (metadata data))]) ;;;
    match data_1h data with
    | Some _ =>
        forEachM
          (fun packageName =>
             let packageType := replace "-1h" "" packageName in
             publishHourlyForecasts
               (processHourlyForecastForPackage rt now (data_1h data)
                  (maxForecastHours config) packageType)
               packageType)
          (filter (includes "-1h") enabledPackages)
    | None => ret tt
    end ;;;
    match data_day data with
    | Some _ =>
        forEachM
          (fun packageName =>
             let packageType := replace "-day" "" packageName in
             publishDailyForecasts
               (processDailyForecastForPackage rt (data_day data)
                  (maxForecastDays config) packageType)
               packageType)
          (filter (includes "-day") enabledPackages)
    | None => ret tt
    end ;;;
    done <- getClock ;;
    modify (set_lastForecastUpdate done) ;;;
    modify (set_currentPosition (Some pos)) ;;;
    tell (EvStatus ("Last updated: " ++ Date_toLocaleString rt done)).

Definition fetchForecast (position : option Position) (config : PluginConfig)
  : M unit :=
  if meteoblueApiKey config =? "" then
    tell (EvError "Meteoblue API key not configured")
  else
    fun st w =>
      match fetchForecastBody position config st w with
      | Returned _ st' w' => Returned tt st' w'
      | Thrown errorMsg st' w' =>
          (tell (EvError ("Failed to fetch forecast: " ++ errorMsg)) ;;;
           tell (EvStatus ("Error: " ++ errorMsg)) ;;;
           now <- getClock ;;
           modify (set_lastForecastUpdate now)) st' w'
      end.

(** Calendar match of two instants: year, month, day and hour. *)
Definition sameCalendarHour (a b : Z) : bool :=
  (getFullYear rt a =? getFullYear rt b)%Z &&
  (getMonth rt a =? getMonth rt b)%Z &&
  (getDate rt a =? getDate rt b)%Z &&
  (getHours rt a =? getHours rt b)%Z.

Definition matchesTargetTime (targetTime : Z) (forecast : Obj) : bool :=
  match obj_get "timestamp" forecast with
  | JStr stamp =>
      match Date_parse rt stamp with
      | Some forecastTime => sameCalendarHour forecastTime targetTime
      | None => false
      end
  | _ => false
  end.

(** What one package gets for one target hour: the processed series is
    searched for the target time, and a found record is tagged with the
    predicted position. *)
Definition targetForecastFor (now : Z) (data : option Frame)
    (totalHoursNeeded targetTime : Z) (predictedPos : Position)
    (packageType : string) : option Obj :=
  let allForecasts :=
    processHourlyForecastForPackage rt now data totalHoursNeeded packageType in
  match find (matchesTargetTime targetTime) allForecasts with
  | Some targetForecast =>
      Some (obj_set "vesselMoving" (JBool true)
              (obj_set "predictedLongitude" (JNum (longitude predictedPos))
                 (obj_set "predictedLatitude" (JNum (latitude predictedPos))
                    targetForecast)))
  | None => None
  end.

Definition AllHourly := list (string * list Obj).

(** One turn of the per-hour loop. *)
Definition movingHour (config : PluginConfig) (pos : Position)
    (heading sog : R) (currentHour : Z) (enabledHourlyPackages : list string)
    (allHourlyForecasts : AllHourly) (hour : nat) : M AllHourly :=
  let predictedPos :=
    calculateFuturePosition pos heading sog (IZR (Z.of_nat hour)) in
  let targetTime := (currentHour + Z.of_nat hour * 3600000)%Z in
  let hoursFromMidnight := getHours rt targetTime in
  let totalHoursNeeded := (hoursFromMidnight + 1 + 2)%Z in
  url <- buildMeteoblueUrl (latitude predictedPos) (longitude predictedPos)
           config ;;
  response <- fetch url ;;
  if negb (ok response) then throw (httpError response)
  else
    data <- json response ;;
    now <- getClock ;;
    let collected :=
      match data_1h data with
      | Some d =>
          match fr_time d with
          | Some _ =>
              fold_left
                (fun acc packageName =>
                   let packageType := replace "-1h" "" packageName in
                   match targetForecastFor now (data_1h data)
                           totalHoursNeeded targetTime predictedPos
                           packageType with
                   | Some hourForecast =>
                       assoc_push packageType hourForecast acc
                   | None => acc
                   end)
                enabledHourlyPackages allHourlyForecasts
          | None => allHourlyForecasts
          end
      | None => allHourlyForecasts
      end in
    (if (Z.of_nat hour <? maxForecastHours config - 1)%Z
     then delay 100 else ret tt) ;;;
    ret collected.

(** The [try] block of [fetchForecastForMovingVessel]. *)
Definition movingBody (config : PluginConfig) (pos : Position)
    (heading sog : R) : M unit :=
  let enabledHourlyPackages :=
    filter (includes "-1h") (getEnabledPackages config) in
  let initial : AllHourly :=
    fold_left (fun acc packageName =>
                 assoc_set (replace "-1h" "" packageName) [] acc)
              enabledHourlyPackages [] in
  now <- getClock ;;
  let currentHour := currentHourOf rt now in
  allHourlyForecasts <-
    foldM (movingHour config pos heading sog currentHour
             enabledHourlyPackages)
          (seq 0 (Z.to_nat (maxForecastHours config))) initial ;;
  forEachM
    (fun '(packageType, forecasts) =>
       match forecasts with
       | [] => ret tt
       | _ => publishHourlyForecasts forecasts packageType
       end)
    allHourlyForecasts ;;;
  dailyUrl <- buildMeteoblueUrl (latitude pos) (longitude pos) config ;;
  dailyResponse <- fetch dailyUrl ;;
  (if ok dailyResponse then
     dailyData <- json dailyResponse ;;
     match data_day dailyData with
     | Some _ =>
         forEachM
           (fun packageName =>
              let packageType := replace "-day" "" packageName in
              publishDailyForecasts
                (processDailyForecastForPackage rt (data_day dailyData)
                   (maxForecastDays config) packageType)
                packageType)
           (filter (includes "-day") (getEnabledPackages config))
     | None => ret tt
     end
   else ret tt) ;;;
  done <- getClock ;;
  modify (set_lastForecastUpdate done) ;;;
  modify (set_currentPosition (Some pos)).

(** [!x] on an optional number: null and 0 are falsy. *)
Definition number_falsy (x : option R) : bool :=
  match x with
  | Some v => if Req_dec_T v 0 then true else false
  | None => true
  end.

Definition fetchForecastForMovingVessel (config : PluginConfig) : M unit :=
  fun st w =>
    match currentPosition st, currentHeading st, currentSOG st with
    | Some pos, Some heading, Some sog =>
        if number_falsy (Some heading) || number_falsy (Some sog) ||
           negb (isVesselMoving sog (movingSpeedThreshold config)) ||
           negb (movingForecastEngaged st)
        then fetchForecast (currentPosition st) config st w
        else
          match movingBody config pos heading sog st w with
          | Returned _ st' w' => Returned tt st' w'
          | Thrown errorMsg st' w' =>
              (tell (EvError ("Failed to fetch position-specific forecasts: "
                              ++ errorMsg)) ;;;
               cur <- getState ;;
               fetchForecast (currentPosition cur) config) st' w'
          end
    | _, _, _ => fetchForecast (currentPosition st) config st w
    end.





End Engine.

(** ** A concrete runtime for the worked examples

    Time stamps in the provider's hourly format, ["YYYY-MM-DD hh:mm"], are
    read as local time, the date-only stamps of the daily series,
    ["YYYY-MM-DD"], as midnight UTC, as the JavaScript engine reads them;
    numbers are printed with six decimals unless they are integers. *)

Definition digitOf (c : ascii) : option Z :=
  let n := Z.of_nat (nat_of_ascii c) in
  if ((48 <=? n) && (n <=? 57))%Z then Some (n - 48)%Z else None.

Fixpoint digitsValue (acc : Z) (s : string) : option Z :=
  match s with
  | EmptyString => Some acc
  | String c s' =>
      match digitOf c with
      | Some d => digitsValue (acc * 10 + d)%Z s'
      | None => None
      end
  end.

Definition numberAt (start len : nat) (s : string) : option Z :=
  let part := substring start len s in
  if (String.length part =? len)%nat then digitsValue 0 part else None.

Definition parseProviderTime (tz : Z) (s : string) : option Z :=
  match numberAt 0 4 s, numberAt 5 2 s, numberAt 8 2 s,
        numberAt 11 2 s, numberAt 14 2 s with
  | Some y, Some m, Some d, Some h, Some mi =>
      if (String.length s =? 16)%nat &&
         (substring 4 1 s =? "-") && (substring 7 1 s =? "-") &&
         (substring 10 1 s =? " ") && (substring 13 1 s =? ":") &&
         ((1 <=? m) && (m <=? 12) && (1 <=? d) && (d <=? 31) &&
          (h <=? 23) && (mi <=? 59))%Z
      then Some (days_from_civil y m d * msPerDay + h * msPerHour
                 + mi * 60000 - tz)%Z
      else None
  | _, _, _, _, _ => None
  end.

Definition parseDateOnly (s : string) : option Z :=
  match numberAt 0 4 s, numberAt 5 2 s, numberAt 8 2 s with
  | Some y, Some m, Some d =>
      if (substring 4 1 s =? "-") && (substring 7 1 s =? "-") &&
         ((1 <=? m) && (m <=? 12) && (1 <=? d) && (d <=? 31))%Z
      then Some (days_from_civil y m d * msPerDay)%Z
      else None
  | _, _, _ => None
  end.

Definition parseTimeStamp (tz : Z) (s : string) : option Z :=
  if (String.length s =? 10)%nat then parseDateOnly s
  else parseProviderTime tz s.

Definition showZ (n : Z) : string :=
  DecimalString.NilZero.string_of_int (Z.to_int n).

Definition pad (width : nat) (n : Z) : string :=
  let text := showZ n in
  concat "" (repeat "0" (width - String.length text)) ++ text.

Definition showUTC (sep tail : string) (t : Z) : string :=
  let '(y, m, d) := civil_from_days (t / msPerDay) in
  let r := (t mod msPerDay)%Z in
  pad 4 y ++ "-" ++ pad 2 m ++ "-" ++ pad 2 d ++ sep ++
  pad 2 (r / msPerHour) ++ ":" ++ pad 2 (r mod msPerHour / 60000) ++ ":" ++
  pad 2 (r mod 60000 / 1000) ++ tail.

Definition showNumber (x : R) : string :=
  let m := Rabs x in
  let n := Zfloor m in
  (if Rlt_dec x 0 then "-" else "") ++ showZ n ++
  (if Req_dec_T m (IZR n) then ""
   else "." ++ pad 6 (Zfloor ((m - IZR n) * 1000000))).

Definition readNumber (s : string) : option R :=
  option_map IZR (digitsValue 0 s).

Definition sampleRuntime (tz : Z) : JsRuntime :=
  {| tzOffset := tz;
     Date_parse := parseTimeStamp tz;
     Date_toISOString := fun t =>
       showUTC "T" ("." ++ pad 3 (t mod 1000) ++ "Z") t;
     Date_toLocaleString := fun t => showUTC " " "" (t + tz);
     Number_toString := showNumber;
     String_toNumber := readNumber |}.

Definition utc : JsRuntime := sampleRuntime 0.

(** 2024-01-15 10:30 UTC. *)
Definition sampleNow : Z := 1705314600000.

(** ** Reading the forecasts back from the data store

    [app.getSelfPath (path)] is the host's.  The store is taken as the
    [value] of the node at each path, [JUndefined] where there is no node
    or the node has no value: the plugin tests [data && data.value !==
    undefined] and nothing else. *)

Definition Store : Type := string -> JsValue.

Definition storePath (granularity field : string) (i : nat) : string :=
  "environment.outside.meteoblue.forecast." ++ granularity ++ "." ++
  field ++ "." ++ string_of_nat i.

Definition hasValue (store : Store) (path : string) : bool :=
  negb (is_undefined (store path)).

Definition hourlyTestFields : list string :=
  ["temperature"; "windspeed"; "seasurfacetemperature"; "uvindex"].

Definition dailyTestFields : list string :=
  ["temperature_max"; "windspeed_max"; "uvindex"].

Definition hasDataForIndex (store : Store) (granularity : string)
    (testFields : list string) (i : nat) : bool :=
  existsb (fun testField => hasValue store (storePath granularity testField i))
          testFields.

(** The counting loop: [forecastCount] after the indices from [i] on have
    been looked at, at most [limit] of them, every index below [i] having
    had data. *)
Fixpoint countForecasts (hasData : nat -> bool) (i limit : nat) : nat :=
  match limit with
  | O => i
  | S limit' => if hasData i then countForecasts hasData (S i) limit' else i
  end.

(** [[...new Set (l)]]: the first occurrence of each element, in order. *)
Definition uniq (l : list string) : list string :=
  fold_left (fun seen x =>
               if existsb (String.eqb x) seen then seen
               else (seen ++ [x])%list)
            l [].

Definition enabledHourlyFields (config : option PluginConfig) : list string :=
  uniq
    match config with
    | Some c =>
        ((if enableBasic1h c then getHourlyPackageFields "basic" else []) ++
         (if enableWind1h c then getHourlyPackageFields "wind" else []) ++
         (if enableSea1h c then getHourlyPackageFields "sea" else []) ++
         (if enableSolar1h c then getHourlyPackageFields "solar" else []) ++
         (if enableClouds1h c then getHourlyPackageFields "clouds" else []) ++
         (if enableTrend1h c then getHourlyPackageFields "trend" else []))%list
    | None => []
    end.

Definition enabledDailyFields (config : option PluginConfig) : list string :=
  uniq
    match config with
    | Some c =>
        ((if enableBasicDay c then getDailyPackageFields "basic" else []) ++
         (if enableWindDay c then getDailyPackageFields "wind" else []) ++
         (if enableSeaDay c then getDailyPackageFields "sea" else []) ++
         (if enableSolarDay c then getDailyPackageFields "solar" else []) ++
         (if enableCloudsDay c then getDailyPackageFields "clouds" else []))%list
    | None => []
    end.

(** The record read back for the index [i]: the fields that have a value. *)
Definition readStoredRecord (store : Store) (granularity : string)
    (fields : list string) (i : nat) : Obj :=
  fold_left
    (fun forecastData field =>
       let value := store (storePath granularity field i) in
       if is_undefined value then forecastData
       else obj_set field value forecastData)
    fields [].

(** [if (!forecastData.timestamp) forecastData.timestamp = generated]. *)
Definition withTimestamp (generated : string) (forecastData : Obj) : Obj :=
  if truthy (obj_get "timestamp" forecastData) then forecastData
  else obj_set "timestamp" (JStr generated) forecastData.

(** [s.split (c)[0]]. *)
Fixpoint beforeChar (c : ascii) (s : string) : string :=
  match s with
  | EmptyString => EmptyString
  | String a s' => if Ascii.eqb a c then EmptyString
                   else String a (beforeChar c s')
  end.

(** The message of the TypeError of [null.toString ()]. *)
Definition nullToStringMessage : string :=
  "Cannot read properties of null (reading 'toString')".

Section StoreScan.

Variable rt : JsRuntime.

(** [date.setHours (date.getHours () + i); date.toISOString ()] and
    [date.setDate (date.getDate () + i); date.toISOString ().split ("T")[0]],
    the local time zone having a constant offset. *)
Definition generatedHourStamp (now : Z) (i : nat) : string :=
  Date_toISOString rt (now + Z.of_nat i * msPerHour).

Definition generatedDayStamp (now : Z) (i : nat) : string :=
  beforeChar "T" (Date_toISOString rt (now + Z.of_nat i * msPerDay)).

(** The reshaping loop; the flag tells that reshaping threw, which ends the
    loop with the forecasts pushed so far. *)
Fixpoint reshapeStored (store : Store) (granularity : string)
    (fields : list string) (generated : nat -> string)
    (type : WeatherForecastType) (now : Z) (indices : list nat)
    (forecasts : list WeatherData) : list WeatherData * bool :=
  match indices with
  | [] => (forecasts, false)
  | i :: rest =>
      let forecastData := readStoredRecord store granularity fields i in
      match obj_keys forecastData with
      | [] =>
          reshapeStored store granularity fields generated type now rest
            forecasts
      | _ =>
          match convertToWeatherAPIForecast rt now
                  (withTimestamp (generated i) forecastData) type with
          | Some weatherData =>
              reshapeStored store granularity fields generated type now rest
                (forecasts ++ [weatherData])%list
          | None => (forecasts, true)
          end
      end
  end.

(** The body the two readers share (the source has the text twice). *)
Definition forecastsFromSignalK (store : Store) (granularity : string)
    (testFields fields : list string) (generated : nat -> string)
    (type : WeatherForecastType) (now maxCount : Z)
  : list WeatherData * bool :=
  if negb (hasDataForIndex store granularity testFields 0) then ([], false)
  else
    let forecastCount :=
      countForecasts (hasDataForIndex store granularity testFields) 0
        (Z.to_nat (maxCount + 10)) in
    let actualCount := Z.min (Z.of_nat forecastCount) maxCount in
    reshapeStored store granularity fields generated type now
      (seq 0 (Z.to_nat actualCount)) [].

Definition getHourlyForecastsFromSignalK (store : Store) (maxCount : Z)
  : M (list WeatherData) :=
  st <- getState ;;
  now <- getClock ;;
  let '(forecasts, thrown) :=
    forecastsFromSignalK store "hourly" hourlyTestFields
      (enabledHourlyFields (currentConfig st)) (generatedHourStamp now)
      point now maxCount in
  (if thrown
   then tell (EvError ("Error reading hourly forecasts from SignalK: " ++
                       nullToStringMessage))
   else ret tt) ;;;
  ret forecasts.

Definition getDailyForecastsFromSignalK (store : Store) (maxCount : Z)
  : M (list WeatherData) :=
  st <- getState ;;
  now <- getClock ;;
  let '(forecasts, thrown) :=
    forecastsFromSignalK store "daily" dailyTestFields
      (enabledDailyFields (currentConfig st)) (generatedDayStamp now)
      daily now maxCount in
  (if thrown
   then tell (EvError ("Error reading daily forecasts from SignalK: " ++
                       nullToStringMessage))
   else ret tt) ;;;
  ret forecasts.

(** [a || b] on counts: 0 is falsy. *)
Definition count_or (a b : Z) : Z := if (a =? 0)%Z then b else a.

(** [weatherProvider.methods.getForecasts]; [options?.maxCount] is [None]
    when there are no options or no count.  Nothing in its [try] block
    throws, the readers catching their own errors. *)
Definition getForecasts (store : Store) (position : Position)
    (type : WeatherForecastType) (optionsMaxCount : option Z)
  : M (list WeatherData) :=
  st <- getState ;;
  let defaultCount :=
    match type with
    | daily =>
        count_or (match currentConfig st with
                  | Some c => maxForecastDays c
                  | None => 0%Z
                  end) 10
    | point =>
        count_or (match currentConfig st with
                  | Some c => maxForecastHours c
                  | None => 0%Z
                  end) 72
    end in
  let maxCount :=
    count_or (match optionsMaxCount with Some n => n | None => 0%Z end)
             defaultCount in
  match currentConfig st with
  | None => ret []
  | Some config =>
      let hasEnabledPackages :=
        match type with
        | daily =>
            enableBasicDay config || enableWindDay config ||
            enableSeaDay config || enableSolarDay config ||
            enableCloudsDay config
        | point =>
            enableBasic1h config || enableWind1h config ||
            enableSea1h config || enableSolar1h config ||
            enableClouds1h config || enableTrend1h config
        end in
      if negb hasEnabledPackages then ret []
      else
        match type with
        | daily => getDailyForecastsFromSignalK store maxCount
        | point => getHourlyForecastsFromSignalK store maxCount
        end
  end.

End StoreScan.

(** ** Navigation updates

    The values of one delta of the navigation subscription.  A value is a
    number, an object with numeric coordinates, a falsy value (null,
    undefined) or any other value that is neither a number nor an object;
    NaN and objects without numeric coordinates are left out, the position
    and the session state holding real numbers. *)

Inductive NavValue : Type :=
| NavNumber (x : R)
| NavPosition (lat lon : R)
| NavNull
| NavOther.

Record NavUpdate : Type := {
  nu_path : string;
  nu_value : NavValue
}.

Definition set_currentHeading (h : option R) (st : PluginState) : PluginState :=
  {| forecastIntervalTimer := forecastIntervalTimer st;
     accountCheckIntervalTimer := accountCheckIntervalTimer st;
     currentConfig := currentConfig st;
     currentPosition := currentPosition st;
     currentHeading := h;
     currentSOG := currentSOG st;
     lastForecastUpdate := lastForecastUpdate st;
     lastAccountCheck := lastAccountCheck st;
     forecastEnabled := forecastEnabled st;
     accountInfo := accountInfo st;
     movingForecastEngaged := movingForecastEngaged st |}.

Definition set_currentSOG (s : option R) (st : PluginState) : PluginState :=
  {| forecastIntervalTimer := forecastIntervalTimer st;
     accountCheckIntervalTimer := accountCheckIntervalTimer st;
     currentConfig := currentConfig st;
     currentPosition := currentPosition st;
     currentHeading := currentHeading st;
     currentSOG := s;
     lastForecastUpdate := lastForecastUpdate st;
     lastAccountCheck := lastAccountCheck st;
     forecastEnabled := forecastEnabled st;
     accountInfo := accountInfo st;
     movingForecastEngaged := movingForecastEngaged st |}.

Section Navigation.

Variable rt : JsRuntime.

Definition engagedDelta (now : Z) (engaged : bool) : Event :=
  EvDelta (getSourceLabel "control") (JStr (Date_toISOString rt now))
    [("commands.meteoblue.engaged", DVal (JBool engaged))].

(** The body of [updates.forEach]: [positionUpdate] is the variable the
    callback assigns. *)
Definition navigationUpdate (positionUpdate : option NavUpdate)
    (update : NavUpdate) : M (option NavUpdate) :=
  if nu_path update =? "navigation.position" then ret (Some update)
  else
    match nu_path update =? "navigation.headingTrue", nu_value update with
    | true, NavNumber value =>
        modify (set_currentHeading (Some value)) ;;;
        ret positionUpdate
    | _, _ =>
        match nu_path update =? "navigation.speedOverGround",
              nu_value update with
        | true, NavNumber value =>
            modify (set_currentSOG (Some value)) ;;;
            st <- getState ;;
            (match currentConfig st with
             | Some config =>
                 if enableAutoMovingForecast config &&
                    isVesselMoving value (movingSpeedThreshold config) &&
                    negb (movingForecastEngaged st)
                 then
                   modify (set_movingForecastEngaged true) ;;;
                   now <- getClock ;;
                   st' <- getState ;;
                   tell (engagedDelta now (movingForecastEngaged st'))
                 else ret tt
             | None => ret tt
             end) ;;;
            ret positionUpdate
        | _, _ => ret positionUpdate
        end
    end.

(** What the handler does with the position of the delta. *)
Definition positionReceived (lat lon : R) : M unit :=
  now <- getClock ;;
  let position := {| latitude := lat; longitude := lon; timestamp := now |} in
  st <- getState ;;
  (match currentPosition st with
   | None => modify (set_currentPosition (Some position))
   | Some _ => ret tt
   end) ;;;
  st <- getState ;;
  match currentConfig st with
  | Some config =>
      if shouldUpdateForecast st now position then
        match currentHeading st, currentSOG st with
        | Some _, Some sog =>
            if isVesselMoving sog (movingSpeedThreshold config) &&
               movingForecastEngaged st
            then fetchForecastForMovingVessel rt config
            else fetchForecast rt (Some position) config
        | _, _ => fetchForecast rt (Some position) config
        end
      else ret tt
  | None => ret tt
  end.

(** The delta callback of [subscribeToPosition], on the [values] of the
    first update of the delta.  The source starts the cycle without
    awaiting it; here the cycle runs to its end before the callback
    returns. *)
Definition navigationDelta (updates : list NavUpdate) : M unit :=
  fun st w =>
    match (positionUpdate <- foldM navigationUpdate updates None ;;
           match positionUpdate with
           | Some update =>
               match nu_value update with
               | NavPosition lat lon => positionReceived lat lon
               | _ => ret tt
               end
           | None => ret tt
           end) st w with
    | Returned _ st' w' => Returned tt st' w'
    | Thrown errorMsg st' w' =>
        tell (EvError ("Error processing position update: " ++ errorMsg))
          st' w'
    end.

End Navigation.

(** ** Account usage

    The reply of the usage endpoint is taken as an argument: a rejected
    request, or a response whose body is absent when it does not parse and
    whose [items] are absent when the body has no such array.  The items
    are as the source types them, with numbers for credits and counts; a
    field that is not there is [None]. *)

Record UsageItem : Type := {
  request_credits : option R;
  request_count : option R;
  request_type : option string;
  request_date : option string
}.

Inductive AccountReply : Type :=
| AccountRejected (errorMsg : string)
| AccountResponse (ok : bool) (status : nat) (statusText : string)
                  (body : option (option (list UsageItem))).

(** The value of [notifications.meteoblue.apiUsage]. *)
Record Notification : Type := {
  n_method : list string;
  n_state : string;
  n_message : string;
  n_timestamp : string
}.

Definition set_accountInfo (info : option Obj) (st : PluginState) : PluginState :=
  {| forecastIntervalTimer := forecastIntervalTimer st;
     accountCheckIntervalTimer := accountCheckIntervalTimer st;
     currentConfig := currentConfig st;
     currentPosition := currentPosition st;
     currentHeading := currentHeading st;
     currentSOG := currentSOG st;
     lastForecastUpdate := lastForecastUpdate st;
     lastAccountCheck := lastAccountCheck st;
     forecastEnabled := forecastEnabled st;
     accountInfo := info;
     movingForecastEngaged := movingForecastEngaged st |}.

(** [x || 0] on an optional number. *)
Definition number_or_0 (x : option R) : R :=
  match x with Some v => v | None => 0%R end.

Definition estimatedMonthlyLimit : R := 500000%R.

Definition totalCreditsUsed (items : list UsageItem) : R :=
  fold_left (fun total item => (total + number_or_0 (request_credits item))%R)
            items 0%R.

(** [earliestDate] and [latestDate] after the items. *)
Definition earliestDate (items : list UsageItem) : string :=
  fold_left
    (fun earliest item =>
       match request_date item with
       | Some date =>
           if (date =? "") then earliest
           else if (earliest =? "") || String.ltb date earliest then date
                else earliest
       | None => earliest
       end)
    items "".

Definition latestDate (items : list UsageItem) : string :=
  fold_left
    (fun latest item =>
       match request_date item with
       | Some date =>
           if (date =? "") then latest
           else if (latest =? "") || String.ltb latest date then date
                else latest
       | None => latest
       end)
    items "".

Section Account.

Variable rt : JsRuntime.

Definition accountUrl (config : PluginConfig) : string :=
  "https://my.meteoblue.com/account/usage?apikey=" ++ meteoblueApiKey config.

(** [fetchAccountInfo] after its request: the processed information, or the
    message of the error it logs before it returns null. *)
Definition fetchAccountInfo (now : Z) (reply : AccountReply) : Obj + string :=
  match reply with
  | AccountRejected errorMsg => inr errorMsg
  | AccountResponse ok status statusText body =>
      if negb ok then
        inr ("HTTP " ++ string_of_nat status ++ ": " ++ statusText)
      else
        match body with
        | None => inr "invalid json response body"
        | Some data =>
            let items := match data with Some l => l | None => [] end in
            let used := totalCreditsUsed items in
            let remainingCredits := Rmax 0 (estimatedMonthlyLimit - used) in
            inl [("username", JStr "Unknown");
                 ("email", JStr "Unknown");
                 ("company", JStr "Unknown");
                 ("country", JStr "Unknown");
                 ("timezone", JStr "Unknown");
                 ("totalRequests", JNum estimatedMonthlyLimit);
                 ("usedRequests", JNum used);
                 ("remainingRequests", JNum remainingCredits);
                 ("usagePercentage",
                  if Rlt_dec 0 estimatedMonthlyLimit
                  then JNum (IZR (Math_round
                                    (used / estimatedMonthlyLimit * 100)))
                  else JNum 0);
                 ("periodStart", JStr (earliestDate items));
                 ("periodEnd", JStr (latestDate items));
                 ("status",
                  JStr (if Rlt_dec used estimatedMonthlyLimit
                        then "active" else "limit_exceeded"));
                 ("lastChecked", JStr (Date_toISOString rt now))]
        end
  end.

(** [v >= c] and [v < c] for a number [c]. *)
Definition js_ge (v : JsValue) (c : R) : bool :=
  match ToNumber rt v with
  | Some x => if Rle_dec c x then true else false
  | None => false
  end.

Definition js_lt (v : JsValue) (c : R) : bool :=
  match ToNumber rt v with
  | Some x => if Rlt_dec x c then true else false
  | None => false
  end.

(** The notification [checkApiLimits] publishes, if any. *)
Definition checkApiLimits (now : Z) (st : PluginState) (info : Obj)
  : option Notification :=
  let usagePercentage := obj_get "usagePercentage" info in
  let timestamp := Date_toISOString rt now in
  if js_ge usagePercentage 90 then
    Some {| n_method := ["visual"; "sound"];
            n_state := "alert";
            n_message :=
              "Meteoblue API usage critical: " ++
              ToPropertyKey rt usagePercentage ++ "% used (" ++
              ToPropertyKey rt (obj_get "remainingRequests" info) ++
              " requests remaining)";
            n_timestamp := timestamp |}
  else if js_ge usagePercentage 80 then
    Some {| n_method := ["visual"];
            n_state := "warn";
            n_message :=
              "Meteoblue API usage high: " ++
              ToPropertyKey rt usagePercentage ++ "% used (" ++
              ToPropertyKey rt (obj_get "remainingRequests" info) ++
              " requests remaining)";
            n_timestamp := timestamp |}
  else if js_lt usagePercentage 80 &&
          match accountInfo st with
          | Some stored => js_ge (obj_get "usagePercentage" stored) 80
          | None => false
          end
  then
    Some {| n_method := [];
            n_state := "normal";
            n_message :=
              "Meteoblue API usage normal: " ++
              ToPropertyKey rt usagePercentage ++ "% used";
            n_timestamp := timestamp |}
  else None.

(** The callback of the periodic account check once the reply is in: the
    new session state, the notification published and the error logged.
    The account delta that [publishAccountInfo] sends between the two steps
    carries the processed information as it is and is left out; so is the
    plugin status that the first check after the start sets as well. *)
Definition accountChecked (now : Z) (reply : AccountReply) (st : PluginState)
  : PluginState * option Notification * option string :=
  match fetchAccountInfo now reply with
  | inl info =>
      let st' := set_accountInfo (Some info) st in
      (st', checkApiLimits now st' info, None)
  | inr errorMsg =>
      (st, None, Some ("Failed to fetch account info: " ++ errorMsg))
  end.

End Account.

From Stdlib Require OrderedTypeEx.

(** ** Metadata of the published parameters

    The table is looked up by the parameter name; names that are properties
    of every object (["constructor"], ["toString"] and the like) are outside
    this model, the plugin passing the keys of its own records only. *)

Record ParameterMetadata : Type := {
  pm_units : option string;
  pm_displayName : string;
  pm_description : string
}.

Definition metadataMap : list (string * ParameterMetadata) :=
  [("temperature",
    {| pm_units := Some "K";
       pm_displayName := "Temperature";
       pm_description := "Air temperature forecast" |});
   ("felttemperature",
    {| pm_units := Some "K";
       pm_displayName := "Felt Temperature";
       pm_description := "Apparent air temperature forecast" |});
   ("seasurfacetemperature",
    {| pm_units := Some "K";
       pm_displayName := "Sea Surface Temperature";
       pm_description := "Sea surface temperature forecast" |});
   ("windspeed",
    {| pm_units := Some "m/s";
       pm_displayName := "Wind Speed";
       pm_description := "Wind speed forecast" |});
   ("gust",
    {| pm_units := Some "m/s";
       pm_displayName := "Wind Gust";
       pm_description := "Wind gust speed forecast" |});
   ("windspeed_80m",
    {| pm_units := Some "m/s";
       pm_displayName := "Wind Speed 80m";
       pm_description := "Wind speed at 80m altitude forecast" |});
   ("winddirection",
    {| pm_units := Some "rad";
       pm_displayName := "Wind Direction";
       pm_description := "Wind direction forecast" |});
   ("winddirection_80m",
    {| pm_units := Some "rad";
       pm_displayName := "Wind Direction 80m";
       pm_description := "Wind direction at 80m altitude forecast" |});
   ("sealevelpressure",
    {| pm_units := Some "Pa";
       pm_displayName := "Sea Level Pressure";
       pm_description := "Sea level atmospheric pressure forecast" |});
   ("surfaceairpressure",
    {| pm_units := Some "Pa";
       pm_displayName := "Surface Air Pressure";
       pm_description := "Surface atmospheric pressure forecast" |});
   ("relativehumidity",
    {| pm_units := Some "ratio";
       pm_displayName := "Relative Humidity";
       pm_description := "Relative humidity forecast (0-1)" |});
   ("precipitation",
    {| pm_units := Some "m";
       pm_displayName := "Precipitation";
       pm_description := "Precipitation amount forecast" |});
   ("convective_precipitation",
    {| pm_units := Some "m";
       pm_displayName := "Convective Precipitation";
       pm_description := "Convective precipitation amount forecast" |});
   ("precipitation_probability",
    {| pm_units := Some "ratio";
       pm_displayName := "Precipitation Probability";
       pm_description := "Precipitation probability forecast (0-1)" |});
   ("significantwaveheight",
    {| pm_units := Some "m";
       pm_displayName := "Significant Wave Height";
       pm_description := "Significant wave height forecast" |});
   ("windwave_height",
    {| pm_units := Some "m";
       pm_displayName := "Wind Wave Height";
       pm_description := "Wind generated wave height forecast" |});
   ("swell_significantheight",
    {| pm_units := Some "m";
       pm_displayName := "Swell Height";
       pm_description := "Swell wave height forecast" |});
   ("mean_waveperiod",
    {| pm_units := Some "s";
       pm_displayName := "Wave Period";
       pm_description := "Mean wave period forecast" |});
   ("windwave_meanperiod",
    {| pm_units := Some "s";
       pm_displayName := "Wind Wave Period";
       pm_description := "Wind wave period forecast" |});
   ("swell_meanperiod",
    {| pm_units := Some "s";
       pm_displayName := "Swell Period";
       pm_description := "Swell wave period forecast" |});
   ("mean_wavedirection",
    {| pm_units := Some "rad";
       pm_displayName := "Wave Direction";
       pm_description := "Mean wave direction forecast" |});
   ("windwave_direction",
    {| pm_units := Some "rad";
       pm_displayName := "Wind Wave Direction";
       pm_description := "Wind wave direction forecast" |});
   ("swell_meandirection",
    {| pm_units := Some "rad";
       pm_displayName := "Swell Direction";
       pm_description := "Swell wave direction forecast" |});
   ("currentvelocity_u",
    {| pm_units := Some "m/s";
       pm_displayName := "Current Velocity U";
       pm_description := "Ocean current velocity U component forecast" |});
   ("currentvelocity_v",
    {| pm_units := Some "m/s";
       pm_displayName := "Current Velocity V";
       pm_description := "Ocean current velocity V component forecast" |});
   ("airdensity",
    {| pm_units := Some "kg/m³";
       pm_displayName := "Air Density";
       pm_description := "Air density forecast" |});
   ("salinity",
    {| pm_units := Some "ratio";
       pm_displayName := "Salinity";
       pm_description := "Water salinity forecast" |});
   ("sunshine_duration",
    {| pm_units := Some "s";
       pm_displayName := "Sunshine Duration";
       pm_description := "Sunshine duration forecast" |});
   ("visibility",
    {| pm_units := Some "m";
       pm_displayName := "Visibility";
       pm_description := "Visibility distance forecast" |});
   ("uvindex",
    {| pm_units := None;
       pm_displayName := "UV Index";
       pm_description := "UV index forecast" |});
   ("pictocode",
    {| pm_units := None;
       pm_displayName := "Weather Code";
       pm_description := "Meteoblue weather pictogram code" |});
   ("douglas_seastate",
    {| pm_units := None;
       pm_displayName := "Douglas Sea State";
       pm_description := "Douglas sea state scale forecast" |});
   ("douglas_seastate_description",
    {| pm_units := None;
       pm_displayName := "Douglas Sea State Description";
       pm_description := "Douglas sea state scale description (simple)" |});
   ("douglas_seastate_verbose",
    {| pm_units := None;
       pm_displayName := "Douglas Sea State Verbose";
       pm_description := "Douglas sea state scale description with wave heights and conditions" |});
   ("isdaylight",
    {| pm_units := None;
       pm_displayName := "Is Daylight";
       pm_description := "Daylight indicator (0=night, 1=day)" |});
   ("snowfraction",
    {| pm_units := None;
       pm_displayName := "Snow Fraction";
       pm_description := "Snow fraction of precipitation (0-1)" |});
   ("rainspot",
    {| pm_units := None;
       pm_displayName := "Rain Spot";
       pm_description := "Local rain probability indicator" |});
   ("vesselMoving",
    {| pm_units := None;
       pm_displayName := "Vessel Moving";
       pm_description := "Indicates if vessel movement prediction is active" |});
   ("predictedLatitude",
    {| pm_units := Some "rad";
       pm_displayName := "Predicted Latitude";
       pm_description := "Predicted vessel latitude for this forecast hour" |});
   ("predictedLongitude",
    {| pm_units := Some "rad";
       pm_displayName := "Predicted Longitude";
       pm_description := "Predicted vessel longitude for this forecast hour" |});
   ("relativeHour",
    {| pm_units := Some "h";
       pm_displayName := "Relative Hour";
       pm_description := "Hours from current time" |});
   ("dayOfWeek",
    {| pm_units := Some "ratio";
       pm_displayName := "Day of Week";
       pm_description := "Day of the week name" |})].

Definition getParameterMetadata (parameterName : string) : ParameterMetadata :=
  match assoc parameterName metadataMap with
  | Some metadata => metadata
  | None =>
      let derived units description :=
        {| pm_units := Some units;
           pm_displayName := parameterName;
           pm_description := description |} in
      if includes "temperature" parameterName then
        derived "K" "Temperature forecast"
      else if includes "windspeed" parameterName ||
              includes "wind_speed" parameterName then
        derived "m/s" "Wind speed forecast"
      else if includes "pressure" parameterName then
        derived "Pa" "Pressure forecast"
      else if includes "humidity" parameterName then
        derived "ratio" "Humidity forecast (0-1)"
      else if parameterName =? "precipitation_hours" then
        derived "h" "Hours with precipitation"
      else if includes "precipitation" parameterName &&
              negb (includes "probability" parameterName) &&
              negb (includes "hours" parameterName) then
        derived "m" "Precipitation forecast"
      else if includes "probability" parameterName then
        derived "ratio" "Probability forecast (0-1)"
      else if includes "direction" parameterName then
        derived "rad" "Direction forecast"
      else if includes "visibility" parameterName then
        derived "m" "Visibility forecast"
      else if includes "uvindex" parameterName then
        derived "" "UV Index forecast"
      else
        derived "" (parameterName ++ " forecast parameter")
  end.

(** ** Worked inputs *)

Definition hourStamps (day : string) : list string :=
  map (fun h => day ++ " " ++ pad 2 (Z.of_nat h) ++ ":00") (seq 0 24).

(** A provider series that starts at local midnight: 48 hourly rows. *)
Definition midnightSeries : list string :=
  (hourStamps "2024-01-15" ++ hourStamps "2024-01-16")%list.

Definition midnightFrame : Frame :=
  {| fr_time := Some midnightSeries; fr_cols := [] |}.

(** A series that ended before the current hour (10:00). *)
Definition staleFrame : Frame :=
  {| fr_time := Some ["2024-01-15 08:00"; "2024-01-15 09:00"];
     fr_cols := [("temperature", [Some 10%R; Some 11%R])] |}.

(** Three rows from the current hour on, with an air temperature and a
    wave height array. *)
Definition mixedFrame : Frame :=
  {| fr_time :=
       Some ["2024-01-15 10:00"; "2024-01-15 11:00"; "2024-01-15 12:00"];
     fr_cols :=
       [("temperature", [Some 10%R; Some 11%R; Some 12%R]);
        ("significantwaveheight", [Some 1.5%R; Some 1.25%R; Some 2%R])] |}.

Definition sampleConfig : PluginConfig :=
  {| meteoblueApiKey := "key";
     forecastInterval := 120%R;
     altitude := 15%R;
     enablePositionSubscription := true;
     maxForecastHours := 72;
     maxForecastDays := 10;
     enableBasic1h := true;
     enableBasicDay := true;
     enableWind1h := true;
     enableWindDay := false;
     enableSea1h := true;
     enableSeaDay := false;
     enableSolar1h := false;
     enableSolarDay := false;
     enableTrend1h := false;
     enableClouds1h := false;
     enableCloudsDay := false;
     enableAutoMovingForecast := true;
     movingSpeedThreshold := 1%R |}.

Definition samplePosition : Position :=
  {| latitude := 41%R; longitude := (-72)%R; timestamp := sampleNow |}.

(** A vessel under way at 5 m/s on heading 1 rad, moving forecasts engaged,
    last cycle one minute ago. *)
Definition sampleState : PluginState :=
  {| forecastIntervalTimer := Some 1%nat;
     accountCheckIntervalTimer := Some 2%nat;
     currentConfig := Some sampleConfig;
     currentPosition := Some samplePosition;
     currentHeading := Some 1%R;
     currentSOG := Some 5%R;
     lastForecastUpdate := (sampleNow - 60000)%Z;
     lastAccountCheck := 0;
     forecastEnabled := true;
     accountInfo := None;
     movingForecastEngaged := true |}.


Definition okReply (data : MeteoblueResponse) : FetchReply :=
  {| elapsed := 250;
     result := Http {| ok := true; status := 200; statusText := "OK";
                       body := Some data |} |}.

Definition serverErrorReply : FetchReply :=
  {| elapsed := 250;
     result := Http {| ok := false; status := 503;
                       statusText := "Service Unavailable";
                       body := None |} |}.

Definition sampleWorld (replies : list FetchReply) : World :=
  {| w_clock := sampleNow; w_net := replies; w_log := [] |}.

(** A one-day moving cycle with the basic hourly package alone. *)
Definition dayConfig : PluginConfig :=
  {| meteoblueApiKey := "key";
     forecastInterval := 120%R;
     altitude := 15%R;
     enablePositionSubscription := true;
     maxForecastHours := 24;
     maxForecastDays := 10;
     enableBasic1h := true;
     enableBasicDay := false;
     enableWind1h := false;
     enableWindDay := false;
     enableSea1h := false;
     enableSeaDay := false;
     enableSolar1h := false;
     enableSolarDay := false;
     enableTrend1h := false;
     enableClouds1h := false;
     enableCloudsDay := false;
     enableAutoMovingForecast := true;
     movingSpeedThreshold := 1%R |}.

Definition midnightResponse : MeteoblueResponse :=
  {| metadata := JNull; data_1h := Some midnightFrame; data_day := None |}.

(** A configuration with a key and no package, and one with no key. *)
Definition noPackageConfig : PluginConfig :=
  {| meteoblueApiKey := "key";
     forecastInterval := 120%R;
     altitude := 15%R;
     enablePositionSubscription := true;
     maxForecastHours := 72;
     maxForecastDays := 10;
     enableBasic1h := false;
     enableBasicDay := false;
     enableWind1h := false;
     enableWindDay := false;
     enableSea1h := false;
     enableSeaDay := false;
     enableSolar1h := false;
     enableSolarDay := false;
     enableTrend1h := false;
     enableClouds1h := false;
     enableCloudsDay := false;
     enableAutoMovingForecast := true;
     movingSpeedThreshold := 1%R |}.

Definition noKeyConfig : PluginConfig :=
  {| meteoblueApiKey := "";
     forecastInterval := 120%R;
     altitude := 15%R;
     enablePositionSubscription := true;
     maxForecastHours := 72;
     maxForecastDays := 10;
     enableBasic1h := true;
     enableBasicDay := true;
     enableWind1h := true;
     enableWindDay := false;
     enableSea1h := true;
     enableSeaDay := false;
     enableSolar1h := false;
     enableSolarDay := false;
     enableTrend1h := false;
     enableClouds1h := false;
     enableCloudsDay := false;
     enableAutoMovingForecast := true;
     movingSpeedThreshold := 1%R |}.

(** The sample vessel heading due north. *)
Definition northboundState : PluginState :=
  {| forecastIntervalTimer := Some 1%nat;
     accountCheckIntervalTimer := Some 2%nat;
     currentConfig := Some sampleConfig;
     currentPosition := Some samplePosition;
     currentHeading := Some 0%R;
     currentSOG := Some 5%R;
     lastForecastUpdate := (sampleNow - 60000)%Z;
     lastAccountCheck := 0;
     forecastEnabled := true;
     accountInfo := None;
     movingForecastEngaged := true |}.

(** A fix ten miles north of the stored sample position. *)
Definition northPosition : Position :=
  {| latitude := 41.2%R; longitude := (-72)%R;
     timestamp := (sampleNow + 1000)%Z |}.


(** The target two hours ahead of the sample clock, predicted on the
    equator, and the record the basic package gets for it. *)
Definition noonTarget : Z := (currentHourOf utc sampleNow + 2 * 3600000)%Z.

Definition equatorPrediction : Position :=
  {| latitude := 0%R; longitude := (-30)%R; timestamp := noonTarget |}.

Definition noonForecast : Obj :=
  match targetForecastFor utc sampleNow (Some midnightFrame) 9 noonTarget
          equatorPrediction "basic" with
  | Some hourForecast => hourForecast
  | None => []
  end.

(** A store that holds the cloud cover of the first hour and nothing
    else. *)
Definition cloudsStore : Store :=
  fun path =>
    if path =? storePath "hourly" "cloudcover" 0 then JNum 0.5%R
    else JUndefined.

(** A store with an air temperature for the first two hours and a null
    weather code for the second. *)
Definition nullCodeStore : Store :=
  fun path =>
    if path =? storePath "hourly" "temperature" 0 then JNum 283.15%R
    else if path =? storePath "hourly" "temperature" 1 then JNum 284.15%R
    else if path =? storePath "hourly" "pictocode" 1 then JNull
    else JUndefined.

(** The sample vessel before the moving forecast is engaged, and a delta
    with its speed over ground. *)
Definition idleState : PluginState :=
  {| forecastIntervalTimer := Some 1%nat;
     accountCheckIntervalTimer := Some 2%nat;
     currentConfig := Some sampleConfig;
     currentPosition := Some samplePosition;
     currentHeading := Some 1%R;
     currentSOG := Some 0%R;
     lastForecastUpdate := (sampleNow - 60000)%Z;
     lastAccountCheck := 0;
     forecastEnabled := true;
     accountInfo := None;
     movingForecastEngaged := false |}.

Definition speedDelta : list NavUpdate :=
  [{| nu_path := "navigation.speedOverGround"; nu_value := NavNumber 5 |}].

(** A usage reply with 450000 credits spent in two days. *)
Definition heavyUsage : list UsageItem :=
  [{| request_credits := Some 250000%R; request_count := Some 40%R;
      request_type := Some "basic-1h"; request_date := Some "2024-01-14" |};
   {| request_credits := Some 200000%R; request_count := Some 30%R;
      request_type := Some "sea-1h"; request_date := Some "2024-01-15" |}].


(** Two rows of a daily series, Monday 15 and Tuesday 16 January 2024, and
    a runtime five hours west of UTC. *)
Definition dailyFrame : Frame :=
  {| fr_time := Some ["2024-01-15"; "2024-01-16"];
     fr_cols := [("temperature_max", [Some 10%R; Some 11%R])] |}.

Definition westRuntime : JsRuntime := sampleRuntime (-18000000).

(** ** Vocabulary of the statements *)

(** [sub] occurs somewhere in [s]. *)
Definition Contains (sub s : string) : Prop :=
  exists before after, s = (before ++ sub ++ after)%string.

(** [String.prototype.endsWith]. *)
Definition endsWith (suffix s : string) : bool :=
  let n := String.length suffix in
  let m := String.length s in
  (n <=? m)%nat && (substring (m - n) n s =? suffix).

(** The dispatch as the specification words it, in its order of
    precedence; the percent rule covers the names ending in "probability",
    and the sea state is stored unchanged with its two descriptions. *)
Definition documentedDispatch (rt : JsRuntime) (field : string) (value : R)
    (forecast : Obj) : Obj :=
  if includes "temperature" field then
    obj_set field (JNum (value + 273.15)) forecast
  else if includes "direction" field then
    obj_set field (JNum (value * (PI / 180))) forecast
  else if (field =? "precipitation") || (field =? "convective_precipitation")
  then obj_set field (JNum (value / 1000)) forecast
  else if includes "pressure" field then
    obj_set field (JNum (value * 100)) forecast
  else if includes "humidity" field || includes "cloudcover" field ||
          endsWith "probability" field
  then obj_set field (JNum (value / 100)) forecast
  else if field =? "douglas_seastate" then
    obj_set "douglas_seastate_verbose"
      (JStr (douglasSeaStateVerbose rt value))
      (obj_set "douglas_seastate_description"
         (JStr (douglasSeaStateSimple value))
         (obj_set field (JNum value) forecast))
  else obj_set field (JNum value) forecast.

(** The names the two processors hand to the dispatch: the fields of a
    package, hourly or daily. *)
Definition packageField (field : string) : Prop :=
  exists packageType,
    In field (getHourlyPackageFields packageType) \/
    In field (getDailyPackageFields packageType).

(** The interval between refreshes, in minutes: the configured one, 120
    without a configuration. *)
Definition intervalMinutes (st : PluginState) : R :=
  match currentConfig st with
  | Some c => forecastInterval c
  | None => 120%R
  end.

(** The haversine distance in metres between two positions, Earth radius
    6,371,000 m. *)
Definition haversineDistance (p1 p2 : Position) : R :=
  let dLat := degToRad (latitude p2 - latitude p1) in
  let dLon := degToRad (longitude p2 - longitude p1) in
  let a :=
    (sin (dLat / 2) * sin (dLat / 2) +
     cos (degToRad (latitude p1)) * cos (degToRad (latitude p2)) *
     sin (dLon / 2) * sin (dLon / 2))%R in
  (6371000 * (2 * Math_atan2 (sqrt a) (sqrt (1 - a))))%R.

(** The chord form of the same distance, [2 R asin (sqrt a)]. *)
Definition haversineChord (p1 p2 : Position) : R :=
  let dLat := degToRad (latitude p2 - latitude p1) in
  let dLon := degToRad (longitude p2 - longitude p1) in
  let a :=
    (sin (dLat / 2) * sin (dLat / 2) +
     cos (degToRad (latitude p1)) * cos (degToRad (latitude p2)) *
     sin (dLon / 2) * sin (dLon / 2))%R in
  (6371000 * (2 * asin (sqrt a)))%R.

(** A time stamp that parses to an instant at or after [t], resp. before
    [t]. *)
Definition atOrAfter (rt : JsRuntime) (t : Z) (stamp : string) : Prop :=
  exists u, Date_parse rt stamp = Some u /\ (t <= u)%Z.

Definition before (rt : JsRuntime) (t : Z) (stamp : string) : Prop :=
  exists u, Date_parse rt stamp = Some u /\ (u < t)%Z.

(** [start] is the first row of [time] at or after the current wall-clock
    hour; the rows before it lie in the past. *)
Definition firstCurrentRow (rt : JsRuntime) (now : Z) (time : list string)
    (start : nat) : Prop :=
  (start < List.length time)%nat /\
  atOrAfter rt (currentHourOf rt now) (nth start time "") /\
  forall j, (j < start)%nat ->
            before rt (currentHourOf rt now) (nth j time "").

(** Keys every hourly, resp. daily, record carries besides the package's
    fields, and the two descriptions derived from the sea state. *)
Definition hourlyHeader : list string := ["timestamp"; "relativeHour"].
Definition dailyHeader : list string := ["date"; "dayOfWeek"].
Definition seaStateDerived : list string :=
  ["douglas_seastate_description"; "douglas_seastate_verbose"].

(** A stored record lacks the field [k]. *)
Definition Absent (k : string) (o : Obj) : Prop := ~ In k (obj_keys o).

(** The groupings of the external schema. *)
Inductive Group : Type := Outside | Wind | Water | Sun | Current.

Definition grouping (g : Group) (w : WeatherData) : Obj :=
  match g with
  | Outside => wd_outside w
  | Wind => wd_wind w
  | Water => wd_water w
  | Sun => wd_sun w
  | Current => wd_current w
  end.

(** Output fields that are the copy of one stored field: grouping, output
    field, stored field. *)
Definition pointCopies : list (Group * string * string) :=
  [(Outside, "temperature", "temperature");
   (Outside, "pressure", "sealevelpressure");
   (Outside, "relativeHumidity", "relativehumidity");
   (Outside, "uvIndex", "uvindex");
   (Outside, "cloudCover", "cloudcover");
   (Outside, "precipitationVolume", "precipitation");
   (Outside, "feelsLikeTemperature", "felttemperature");
   (Outside, "horizontalVisibility", "visibility");
   (Outside, "precipitationProbability", "precipitation_probability");
   (Outside, "solarRadiation", "solarradiation");
   (Outside, "directNormalIrradiance", "irradiance_direct_normal");
   (Outside, "diffuseHorizontalIrradiance", "irradiance_diffuse_horizontal");
   (Outside, "globalHorizontalIrradiance", "irradiance_global_horizontal");
   (Outside, "extraterrestrialSolarRadiation",
    "extraterrestrial_solar_radiation");
   (Outside, "totalCloudCover", "total_cloud_cover");
   (Outside, "lowCloudCover", "low_cloud_cover");
   (Outside, "midCloudCover", "mid_cloud_cover");
   (Outside, "highCloudCover", "high_cloud_cover");
   (Outside, "cloudBaseHeight", "cloud_base_height");
   (Outside, "cloudTopHeight", "cloud_top_height");
   (Wind, "speedTrue", "windspeed");
   (Wind, "directionTrue", "winddirection");
   (Wind, "gust", "gust");
   (Wind, "averageSpeed", "windspeed");
   (Wind, "gustDirectionTrue", "gustdirection");
   (Water, "temperature", "seasurfacetemperature");
   (Water, "waveSignificantHeight", "significantwaveheight");
   (Water, "wavePeriod", "mean_waveperiod");
   (Water, "waveDirection", "mean_wavedirection");
   (Water, "swellHeight", "swell_significantheight");
   (Water, "swellPeriod", "swell_meanperiod");
   (Water, "swellDirection", "swell_meandirection");
   (Water, "salinity", "salinity");
   (Water, "seaState", "douglas_seastate");
   (Water, "surfaceWaveHeight", "surfwave_height");
   (Water, "windWaveHeight", "windwave_height");
   (Water, "windWavePeriod", "windwave_meanperiod");
   (Water, "windWaveDirection", "windwave_direction");
   (Water, "swellPeakPeriod", "swell_peakwaveperiod");
   (Water, "windWavePeakPeriod", "windwave_peakwaveperiod");
   (Water, "waveSteepness", "wavesteepness");
   (Sun, "sunshineDuration", "sunshine_duration")].

Definition dailyCopies : list (Group * string * string) :=
  [(Outside, "temperature", "temperature_mean");
   (Outside, "maxTemperature", "temperature_max");
   (Outside, "minTemperature", "temperature_min");
   (Outside, "feelsLikeTemperature", "felttemperature_mean");
   (Outside, "pressure", "sealevelpressure_mean");
   (Outside, "relativeHumidity", "relativehumidity_mean");
   (Outside, "uvIndex", "uvindex");
   (Outside, "precipitationVolume", "precipitation");
   (Outside, "dewPointTemperature", "dewpoint_mean");
   (Outside, "horizontalVisibility", "visibility_mean");
   (Outside, "precipitationProbability", "precipitation_probability");
   (Outside, "cloudCover", "cloudcover_mean");
   (Outside, "totalCloudCover", "total_cloud_cover_mean");
   (Outside, "lowCloudCover", "low_cloud_cover_mean");
   (Outside, "midCloudCover", "mid_cloud_cover_mean");
   (Outside, "highCloudCover", "high_cloud_cover_mean");
   (Outside, "solarRadiation", "solarradiation_mean");
   (Outside, "directNormalIrradiance", "irradiance_direct_normal_max");
   (Outside, "diffuseHorizontalIrradiance",
    "irradiance_diffuse_horizontal_max");
   (Outside, "globalHorizontalIrradiance",
    "irradiance_global_horizontal_max");
   (Wind, "speedTrue", "windspeed_max");
   (Wind, "directionTrue", "winddirection");
   (Wind, "averageSpeed", "windspeed_mean");
   (Water, "temperature", "seasurfacetemperature_mean");
   (Sun, "sunshineDuration", "sunshine_duration")].

Definition copiesOf (type : WeatherForecastType)
  : list (Group * string * string) :=
  match type with daily => dailyCopies | point => pointCopies end.

(** A small stored record: an air temperature only. *)
Definition temperatureOnly : Obj := [("temperature", JNum 283.15%R)].

(** What a finished cycle did: how many requests it sent and the time
    stamps of the deltas it published, in order. *)
Definition fetchCount (log : list Event) : nat :=
  List.length (filter (fun e => match e with EvFetch _ => true | _ => false end)
                      log).

Definition deltaStamps (log : list Event) : list JsValue :=
  flat_map (fun e => match e with EvDelta _ stamp _ => [stamp] | _ => [] end)
           log.

Definition cycleSummary {A : Type} (o : Outcome A)
  : option (nat * list JsValue) :=
  match o with
  | Returned _ _ w => Some (fetchCount (w_log w), deltaStamps (w_log w))
  | Thrown _ _ _ => None
  end.



Definition notFetch (e : Event) : Prop :=
  match e with EvFetch _ => False | _ => True end.


(** The world [w] with the events [evs] added. *)
Definition extend (w : World) (evs : list Event) : World :=
  {| w_clock := w_clock w; w_net := w_net w;
     w_log := (w_log w ++ evs)%list |}.

(** A computation that only publishes: it returns, leaves the session
    state, the clock and the network alone, and sends no request. *)
Definition Publishes (m : M unit) : Prop :=
  forall st w, exists evs,
    m st w = Returned tt st (extend w evs) /\ Forall notFetch evs.

(** The world after the reply [r] to a request for [url] came in. *)
Definition afterFetch (url : string) (r : FetchReply) (rest : list FetchReply)
    (w : World) : World :=
  {| w_clock := (w_clock w + elapsed r)%Z;
     w_net := rest;
     w_log := (w_log w ++ [EvFetch url])%list |}.

(** What the [catch] block of [fetchForecast] leaves behind. *)
Definition failed (rt : JsRuntime) (errorMsg : string) (st : PluginState)
    (w : World) : Outcome unit :=
  Returned tt (set_lastForecastUpdate (w_clock w) st)
    (extend w [EvError ("Failed to fetch forecast: " ++ errorMsg);
               EvStatus ("Error: " ++ errorMsg)]).

(** A computation that leaves the session state as it found it, whether it
    returns or throws. *)
Definition Keeps {A : Type} (m : M A) : Prop :=
  forall st w,
    match m st w with
    | Returned _ st' _ => st' = st
    | Thrown _ st' _ => st' = st
    end.

(** A computation that, when it returns, has recorded a completed cycle for
    [pos] at the clock of its end, and has changed nothing when it throws. *)
Definition RecordsCycle {A : Type} (pos : Position) (m : M A) : Prop :=
  forall st w,
    match m st w with
    | Returned _ st' w' =>
        st' = set_currentPosition (Some pos)
                (set_lastForecastUpdate (w_clock w') st)
    | Thrown _ st' _ => st' = st
    end.

(** The deltas [publishHourlyForecasts] sends for a list of records. *)
Definition hourlyDeltas (st : PluginState) (packageType : string)
    (forecasts : list Obj) : list Event :=
  map (fun entry =>
         forecastDelta "hourly" "timestamp" st (getSourceLabel packageType)
           (obj_get "timestamp" (snd entry)) (fst entry) (snd entry))
      (combine (seq 0 (List.length forecasts)) forecasts).

(** The position entry of a delta, if it has one. *)
Definition positionOf (e : Event) : option (JsValue * JsValue) :=
  match e with
  | EvDelta _ _ values =>
      match filter (fun pv => match snd pv with
                              | DPosition _ _ => true
                              | DVal _ => false
                              end) values with
      | (_, DPosition lat lon) :: _ => Some (lat, lon)
      | _ => None
      end
  | _ => None
  end.

Definition isDelta (e : Event) : bool :=
  match e with EvDelta _ _ _ => true | _ => false end.

(** A computation that, run in the state [st], returns with the state, the
    clock and the network as they were and has sent only events that
    satisfy [P]. *)
Definition Sends (st : PluginState) (P : Event -> Prop) (m : M unit) : Prop :=
  forall w, exists evs,
    m st w = Returned tt st (extend w evs) /\ Forall P evs.

(** A delta whose position entry is the coordinates of [p]. *)
Definition positionedAt (p : Position) (e : Event) : Prop :=
  positionOf e = Some (JNum (latitude p), JNum (longitude p)).

(** The request of a stationary cycle for [pos]. *)
Definition stationaryUrl (rt : JsRuntime) (config : PluginConfig)
    (pos : Position) : string :=
  meteoblueUrl rt (latitude pos) (longitude pos) config.

(** The deltas [publishDailyForecasts] sends at the time [now]. *)
Definition dailyDeltas (rt : JsRuntime) (st : PluginState) (now : Z)
    (packageType : string) (forecasts : list Obj) : list Event :=
  map (fun entry =>
         forecastDelta "daily" "date" st (getSourceLabel packageType)
           (JStr (Date_toISOString rt now)) (fst entry) (snd entry))
      (combine (seq 0 (List.length forecasts)) forecasts).

(** The forecast deltas of a stationary cycle whose reply [data] came in at
    [now]: the hourly packages in configuration order, then the daily ones,
    one delta per processed record. *)
Definition stationaryDeltas (rt : JsRuntime) (config : PluginConfig)
    (st : PluginState) (now : Z) (data : MeteoblueResponse) : list Event :=
  (match data_1h data with
   | Some _ =>
       flat_map
         (fun packageName =>
            let packageType := replace "-1h" "" packageName in
            hourlyDeltas st packageType
              (processHourlyForecastForPackage rt now (data_1h data)
                 (maxForecastHours config) packageType))
         (filter (includes "-1h") (getEnabledPackages config))
   | None => []
   end ++
   match data_day data with
   | Some _ =>
       flat_map
         (fun packageName =>
            let packageType := replace "-day" "" packageName in
            dailyDeltas rt st now packageType
              (processDailyForecastForPackage rt (data_day data)
                 (maxForecastDays config) packageType))
         (filter (includes "-day") (getEnabledPackages config))
   | None => []
   end)%list.

Definition metadataDelta (rt : JsRuntime) (now : Z)
    (data : MeteoblueResponse) : Event :=
  EvDelta (getSourceLabel "metadata") (JStr (Date_toISOString rt now))
    [("environment.outside.meteoblue.system.metadata", DVal (metadata data))].

(** A stored number, or a field that is not there. *)
Definition numberOrAbsent (o : option R) : JsValue :=
  match o with Some x => JNum x | None => JUndefined end.

(** The trend the adapter looks at: [pressure_trend] unless it is absent
    or 0, then [sealevelpressure_trend]. *)
Definition effectiveTrend (p s : option R) : option R :=
  match p with
  | Some x => if Req_dec_T x 0 then s else p
  | None => s
  end.

(** The count a forecast query is served with: the one asked for, or the
    configured maximum of the forecast type when none (or 0) is asked for,
    or 10 days and 72 hours when none is configured. *)
Definition effectiveMaxCount (st : PluginState) (type : WeatherForecastType)
    (optionsMaxCount : option Z) : Z :=
  let configured :=
    match currentConfig st, type with
    | Some c, daily => maxForecastDays c
    | Some c, point => maxForecastHours c
    | None, _ => 0%Z
    end in
  let fallback :=
    if (configured =? 0)%Z
    then match type with daily => 10%Z | point => 72%Z end
    else configured in
  match optionsMaxCount with
  | Some n => if (n =? 0)%Z then fallback else n
  | None => fallback
  end.

Definition granularityOf (type : WeatherForecastType) : string :=
  match type with daily => "daily" | point => "hourly" end.

Definition testFieldsOf (type : WeatherForecastType) : list string :=
  match type with daily => dailyTestFields | point => hourlyTestFields end.

(** The keys under which the forecasts of one package are published. *)
Definition publishedKeys (type : WeatherForecastType) (packageType : string)
  : list string :=
  match type with
  | point =>
      (getHourlyPackageFields packageType ++
       ["relativeHour"; "forecastPosition"; "predictedLatitude";
        "predictedLongitude"; "vesselMoving"])%list
  | daily =>
      (getDailyPackageFields packageType ++
       ["dayOfWeek"; "forecastPosition"])%list
  end.

(** The stamp a served forecast is dated with. *)
Definition generatedStamp (rt : JsRuntime) (type : WeatherForecastType)
    (now : Z) (i : nat) : string :=
  match type with
  | daily => generatedDayStamp rt now i
  | point => generatedHourStamp rt now i
  end.

Definition noFetchIn (log : list Event) : Prop := Forall notFetch log.

(** The fields a forecast query reads, and whether a package of the
    queried type is enabled. *)
Definition enabledFieldsOf (type : WeatherForecastType)
    (config : option PluginConfig) : list string :=
  match type with
  | daily => enabledDailyFields config
  | point => enabledHourlyFields config
  end.

Definition anyPackageOf (type : WeatherForecastType) (config : PluginConfig)
  : bool :=
  match type with
  | daily =>
      enableBasicDay config || enableWindDay config ||
      enableSeaDay config || enableSolarDay config || enableCloudsDay config
  | point =>
      enableBasic1h config || enableWind1h config || enableSea1h config ||
      enableSolar1h config || enableClouds1h config || enableTrend1h config
  end.

Definition readErrorOf (type : WeatherForecastType) : Event :=
  EvError ("Error reading " ++ granularityOf type ++
           " forecasts from SignalK: " ++ nullToStringMessage).

(** [st'] is [st] but for the two fields a forecast cycle writes. *)
Definition CycleOnly (st st' : PluginState) : Prop :=
  st' = set_currentPosition (currentPosition st')
          (set_lastForecastUpdate (lastForecastUpdate st') st).

(** What the navigation values of a delta may change: the configuration,
    the stored position and the time of the last cycle stay, and the
    engagement is not taken back. *)
Definition NavigationOnly (st st' : PluginState) : Prop :=
  currentConfig st' = currentConfig st /\
  currentPosition st' = currentPosition st /\
  lastForecastUpdate st' = lastForecastUpdate st /\
  (movingForecastEngaged st = true -> movingForecastEngaged st' = true).

(** The delta holds a speed over ground that auto-enables the moving
    forecast under the configuration of [st]. *)
Definition AutoEnabledBy (st : PluginState) (updates : list NavUpdate) : Prop :=
  exists config value,
    currentConfig st = Some config /\
    enableAutoMovingForecast config = true /\
    In {| nu_path := "navigation.speedOverGround";
          nu_value := NavNumber value |} updates /\
    isVesselMoving value (movingSpeedThreshold config) = true.

Definition positionUpdateOf (lat lon : R) : NavUpdate :=
  {| nu_path := "navigation.position"; nu_value := NavPosition lat lon |}.

(** The dates the usage items carry, and the order of date strings. *)
Definition datesOf (items : list UsageItem) : list string :=
  flat_map (fun item =>
              match request_date item with
              | Some date => if (date =? "") then [] else [date]
              | None => []
              end) items.

Definition dateLe (a b : string) : Prop := a = b \/ String.ltb a b = true.

(** The conversion the processors apply to a field, and its unit. *)
Inductive Conversion : Type :=
| ToKelvin | ToRadians | ToMetres | ToPascal | ToRatio | Unconverted.

Definition conversionOf (field : string) : Conversion :=
  if includes "temperature" field || (field =? "felttemperature") then ToKelvin
  else if includes "direction" field || (field =? "winddirection")
  then ToRadians
  else if (field =? "precipitation") || (field =? "convective_precipitation")
  then ToMetres
  else if includes "pressure" field || (field =? "sealevelpressure")
  then ToPascal
  else if includes "humidity" field || includes "cloudcover" field
  then ToRatio
  else if includes "precipitation_probability" field then ToRatio
  else Unconverted.

Definition applyConversion (c : Conversion) (value : R) : R :=
  match c with
  | ToKelvin => celsiusToKelvin value
  | ToRadians => degToRad value
  | ToMetres => mmToM value
  | ToPascal => mbToPA value
  | ToRatio => percentToRatio value
  | Unconverted => value
  end.

Definition unitOf (c : Conversion) : option string :=
  match c with
  | ToKelvin => Some "K"
  | ToRadians => Some "rad"
  | ToMetres => Some "m"
  | ToPascal => Some "Pa"
  | ToRatio => Some "ratio"
  | Unconverted => None
  end.

Definition option_string_eqb (a b : option string) : bool :=
  match a, b with
  | Some x, Some y => (x =? y)
  | None, None => true
  | _, _ => false
  end.

Definition isRatio (c : Conversion) : bool :=
  match c with ToRatio => true | _ => false end.

(** The label of a converted field names the unit it was converted to, or
    the field is one of the cloud cover fields, converted to a ratio, and
    the label is empty. *)
Definition labelAgrees (field : string) : bool :=
  match conversionOf field with
  | Unconverted => true
  | c =>
      option_string_eqb (pm_units (getParameterMetadata field)) (unitOf c) ||
      (includes "cloudcover" field && isRatio c &&
       option_string_eqb (pm_units (getParameterMetadata field)) (Some ""))
  end.

(** The name of the weekday of the day numbered [day] from 1970-01-01, a
    Thursday. *)
Definition weekdayOf (day : Z) : string :=
  nth (Z.to_nat ((day + 4) mod 7)) daysOfWeek "".

(** * Properties *)

Local Open Scope R_scope.

(** ** Strings, objects and rounding *)

Lemma prefix_app (sub s : string) :
  prefix sub s = true <-> exists after, s = (sub ++ after)%string.
Proof.
  revert s; induction sub as [|c sub IH]; intros s; simpl.
  - split; [intros _; now exists s | now destruct s].
  - destruct s as [|d s].
    + split; [discriminate | intros [after H]; discriminate].
    + simpl. destruct (Ascii.ascii_dec c d) as [->|Hcd].
      * rewrite IH. split; intros [after H]; exists after.
        -- now rewrite H.
        -- now injection H.
      * split; [discriminate|].
        intros [after H]. injection H as H1 _. congruence.
Qed.

Lemma includes_Contains (sub s : string) :
  includes sub s = true <-> Contains sub s.
Proof.
  induction s as [|c s IH]; cbn [includes].
  - rewrite orb_false_r, prefix_app. split.
    + intros [after H]. now exists ""%string, after.
    + intros [before [after H]].
      destruct before; simpl in H; [now exists after|discriminate].
  - rewrite orb_true_iff, prefix_app, IH. split.
    + intros [[after H]|[before [after H]]].
      * now exists ""%string, after.
      * exists (String c before), after. simpl. now rewrite H.
    + intros [before [after H]]. destruct before as [|d before]; simpl in H.
      * left. now exists after.
      * right. injection H as _ H. now exists before, after.
Qed.

Lemma includes_false (sub s : string) :
  includes sub s = false <-> ~ Contains sub s.
Proof.
  rewrite <- includes_Contains. destruct (includes sub s); split; congruence.
Qed.

Lemma obj_get_set_same (k : string) (v : JsValue) (o : Obj) :
  obj_get k (obj_set k v o) = v.
Proof.
  induction o as [|[k' v'] o IH]; simpl.
  - now rewrite String.eqb_refl.
  - destruct (k' =? k)%string eqn:E; simpl.
    + now rewrite String.eqb_refl.
    + now rewrite E.
Qed.

Lemma obj_get_set_other (k k' : string) (v : JsValue) (o : Obj) :
  k <> k' -> obj_get k' (obj_set k v o) = obj_get k' o.
Proof.
  intros Hk. induction o as [|[k0 v0] o IH]; simpl.
  - destruct (String.eqb_spec k k'); [contradiction|reflexivity].
  - destruct (String.eqb_spec k0 k) as [->|Hk0]; simpl.
    + destruct (String.eqb_spec k k'); [contradiction|reflexivity].
    + now rewrite IH.
Qed.

Lemma obj_keys_set (k : string) (v : JsValue) (o : Obj) (x : string) :
  In x (obj_keys (obj_set k v o)) <-> x = k \/ In x (obj_keys o).
Proof.
  unfold obj_keys. induction o as [|[k' v'] o IH]; simpl.
  - intuition.
  - destruct (String.eqb_spec k' k) as [->|Hk]; simpl.
    + intuition.
    + rewrite IH. intuition.
Qed.

Lemma Math_round_IZR (n : Z) : Math_round (IZR n) = n.
Proof.
  unfold Math_round. apply Zfloor_eq. lra.
Qed.

Lemma Math_round_bounds (x : R) :
  IZR (Math_round x) - / 2 <= x < IZR (Math_round x) + / 2.
Proof.
  unfold Math_round. pose proof (Zfloor_bound (x + / 2)). lra.
Qed.

(** ** Douglas sea state (C8) *)

Lemma rounds_to (x : R) (n : Z) :
  IZR n - / 2 <= x < IZR n + / 2 -> Math_round x = n.
Proof.
  intros H. unfold Math_round. apply Zfloor_eq. lra.
Qed.

Lemma douglasSimple_outside (n : Z) :
  (n < 0 \/ 9 < n)%Z -> douglasSimpleDescriptions n = None.
Proof.
  intros H. destruct n as [|p|p]; [lia| |reflexivity].
  do 4 (try destruct p as [p|p|]); try reflexivity; lia.
Qed.

Lemma douglasVerbose_outside (n : Z) :
  (n < 0 \/ 9 < n)%Z -> douglasVerboseDescriptions n = None.
Proof.
  intros H. destruct n as [|p|p]; [lia| |reflexivity].
  do 4 (try destruct p as [p|p|]); try reflexivity; lia.
Qed.

Lemma douglas_inside (rt : JsRuntime) (x : R) (n : Z) :
  Math_round x = n -> (0 <= n <= 9)%Z ->
  douglasSimpleDescriptions n = Some (douglasSeaStateSimple x) /\
  douglasVerboseDescriptions n = Some (douglasSeaStateVerbose rt x).
Proof.
  intros Hn Hr. unfold douglasSeaStateSimple, douglasSeaStateVerbose.
  rewrite Hn. clear Hn.
  destruct n as [|p|p]; [split; reflexivity| |lia].
  do 4 (try destruct p as [p|p|]); try (split; reflexivity); lia.
Qed.

(** C8: both description functions round their argument to the nearest
    integer [n] (halves upwards) and read their fixed table at [n]: for
    [n] in 0..9 the result is the table entry, for every other [n] it is the
    fallback, "Unknown" for the terse variant and "Unknown (<scale>)" for the
    verbose one; the terse description of 4 is "Moderate" and of 11 is
    "Unknown". *)
Theorem douglas_sea_state_lookup (rt : JsRuntime) (scale : R) (n : Z) :
  IZR n - / 2 <= scale < IZR n + / 2 ->
  ((0 <= n <= 9)%Z ->
   douglasSimpleDescriptions n = Some (douglasSeaStateSimple scale) /\
   douglasVerboseDescriptions n = Some (douglasSeaStateVerbose rt scale)) /\
  ((n < 0 \/ 9 < n)%Z ->
   douglasSeaStateSimple scale = "Unknown"%string /\
   douglasSeaStateVerbose rt scale =
     ("Unknown (" ++ Number_toString rt scale ++ ")")%string) /\
  douglasSeaStateSimple 4 = "Moderate"%string /\
  douglasSeaStateSimple 11 = "Unknown"%string.
Proof.
  intros Hround. apply rounds_to in Hround.
  split; [|split; [|split]].
  - intros Hr. now apply douglas_inside.
  - intros Hout. unfold douglasSeaStateSimple, douglasSeaStateVerbose.
    rewrite Hround, douglasSimple_outside, douglasVerbose_outside by exact Hout.
    split; reflexivity.
  - unfold douglasSeaStateSimple. now rewrite (Math_round_IZR 4).
  - unfold douglasSeaStateSimple. now rewrite (Math_round_IZR 11).
Qed.

Lemma douglas_sea_state_lookup_witness :
  (douglasSimpleDescriptions 4 = Some (douglasSeaStateSimple 4.25) /\
   douglasVerboseDescriptions 4 = Some (douglasSeaStateVerbose utc 4.25)) /\
  (douglasSeaStateSimple 10.5 = "Unknown"%string /\
   douglasSeaStateVerbose utc 10.5 =
     ("Unknown (" ++ Number_toString utc 10.5 ++ ")")%string).
Proof.
  split.
  - apply (douglas_sea_state_lookup utc 4.25 4); [lra|lia].
  - apply (douglas_sea_state_lookup utc 10.5 11); [lra|lia].
Defined.

(** ** Field-to-conversion dispatch (C1) *)

Lemma not_named (pattern field name : string) :
  ~ Contains pattern field -> includes pattern name = true ->
  (field =? name)%string = false.
Proof.
  intros Hno Hin. destruct (String.eqb_spec field name) as [->|]; [|reflexivity].
  exfalso. apply Hno. now apply includes_Contains.
Qed.

(** The code's chain on any name whatever, pattern by pattern: names
    containing "temperature" to Kelvin; else names containing "direction"
    to radians; else exactly "precipitation" or "convective_precipitation"
    to metres; else names containing "pressure" to pascal; else names
    containing "humidity", "cloudcover" or "precipitation_probability" to
    a ratio; "douglas_seastate" with its two descriptions; every other name
    unconverted. *)
Lemma convertField_by_pattern
    (rt : JsRuntime) (field : string) (value : R) (forecast : Obj) :
  let out := convertField rt field value forecast in
  (Contains "temperature" field ->
   out = obj_set field (JNum (value + 273.15)) forecast) /\
  (~ Contains "temperature" field -> Contains "direction" field ->
   out = obj_set field (JNum (value * (PI / 180))) forecast) /\
  (field = "precipitation"%string \/ field = "convective_precipitation"%string ->
   out = obj_set field (JNum (value / 1000)) forecast) /\
  (~ Contains "temperature" field -> ~ Contains "direction" field ->
   Contains "pressure" field ->
   out = obj_set field (JNum (value * 100)) forecast) /\
  (~ Contains "temperature" field -> ~ Contains "direction" field ->
   ~ Contains "pressure" field ->
   field <> "precipitation"%string ->
   field <> "convective_precipitation"%string ->
   Contains "humidity" field \/ Contains "cloudcover" field \/
   Contains "precipitation_probability" field ->
   out = obj_set field (JNum (value / 100)) forecast) /\
  (field = "douglas_seastate"%string ->
   out = obj_set "douglas_seastate_verbose"
           (JStr (douglasSeaStateVerbose rt value))
           (obj_set "douglas_seastate_description"
              (JStr (douglasSeaStateSimple value))
              (obj_set field (JNum value) forecast))) /\
  (~ Contains "temperature" field -> ~ Contains "direction" field ->
   ~ Contains "pressure" field -> ~ Contains "humidity" field ->
   ~ Contains "cloudcover" field ->
   ~ Contains "precipitation_probability" field ->
   field <> "precipitation"%string ->
   field <> "convective_precipitation"%string ->
   field <> "douglas_seastate"%string ->
   out = obj_set field (JNum value) forecast).
Proof.
  intros out. subst out. unfold convertField.
  repeat split.
  - intros Ht. apply includes_Contains in Ht. now rewrite Ht.
  - intros Ht Hd.
    rewrite (not_named _ _ "felttemperature" Ht eq_refl).
    apply includes_false in Ht. apply includes_Contains in Hd.
    now rewrite Ht, Hd.
  - intros [-> | ->]; reflexivity.
  - intros Ht Hd Hp.
    rewrite (not_named _ _ "felttemperature" Ht eq_refl).
    rewrite (not_named _ _ "winddirection" Hd eq_refl).
    apply includes_false in Ht, Hd. apply includes_Contains in Hp.
    rewrite Ht, Hd, Hp. simpl.
    destruct (field =? "precipitation")%string eqn:E1.
    { apply String.eqb_eq in E1. subst field. discriminate Hp. }
    destruct (field =? "convective_precipitation")%string eqn:E2.
    { apply String.eqb_eq in E2. subst field. discriminate Hp. }
    reflexivity.
  - intros Ht Hd Hp N1 N2 Hr.
    rewrite (not_named _ _ "felttemperature" Ht eq_refl).
    rewrite (not_named _ _ "winddirection" Hd eq_refl).
    rewrite (not_named _ _ "sealevelpressure" Hp eq_refl).
    apply includes_false in Ht, Hd, Hp.
    apply String.eqb_neq in N1, N2.
    rewrite Ht, Hd, Hp, N1, N2. simpl.
    destruct (includes "humidity" field) eqn:Eh; [reflexivity|].
    destruct (includes "cloudcover" field) eqn:Ec; [reflexivity|].
    simpl. destruct Hr as [Hr|[Hr|Hr]]; apply includes_Contains in Hr;
      try congruence.
    now rewrite Hr.
  - intros ->. reflexivity.
  - intros Ht Hd Hp Hh Hc Hpp N1 N2 N3.
    rewrite (not_named _ _ "felttemperature" Ht eq_refl).
    rewrite (not_named _ _ "winddirection" Hd eq_refl).
    rewrite (not_named _ _ "sealevelpressure" Hp eq_refl).
    apply includes_false in Ht, Hd, Hp, Hh, Hc, Hpp.
    apply String.eqb_neq in N1, N2, N3.
    now rewrite Ht, Hd, Hp, Hh, Hc, Hpp, N1, N2, N3.
Qed.

Ltac absent := apply includes_false; reflexivity.
Ltac present := apply includes_Contains; reflexivity.

(** A piece of a string cut out by [substring] occurs in it. *)
Lemma substring_Contains (n m : nat) (s : string) :
  Contains (substring n m s) s.
Proof.
  revert m s. induction n as [|n IH]; intros m s.
  - exists ""%string. cbn [append]. revert s.
    induction m as [|m IHm]; intros s.
    + destruct s; now (eexists; cbn [substring append]).
    + destruct s as [|c s]; [now exists ""%string|].
      destruct (IHm s) as [after H]. exists after.
      cbn [substring append]. now rewrite <- H.
  - destruct s as [|c s]; [now exists ""%string, ""%string|].
    destruct (IH m s) as [before [after H]].
    exists (String c before), after. cbn [substring append]. now rewrite <- H.
Qed.

Lemma endsWith_Contains (suffix s : string) :
  endsWith suffix s = true -> Contains suffix s.
Proof.
  unfold endsWith. intros H. apply andb_prop in H. destruct H as [_ H].
  apply String.eqb_eq in H. rewrite <- H. apply substring_Contains.
Qed.

Lemma append_assoc (a b c : string) :
  ((a ++ b) ++ c = a ++ (b ++ c))%string.
Proof.
  induction a as [|x a IH]; [reflexivity|]. cbn [append]. now rewrite IH.
Qed.

Lemma Contains_longer (pre sub post s : string) :
  Contains (pre ++ sub ++ post) s -> Contains sub s.
Proof.
  intros [before [after H]].
  exists (before ++ pre)%string, (post ++ after)%string.
  rewrite H. now rewrite !append_assoc.
Qed.

(** On a name that does not mention a probability the suffix test of the
    documented table and the test of the code both fail. *)
Lemma no_probability (field : string) :
  ~ Contains "probability" field ->
  includes "precipitation_probability" field = false /\
  endsWith "probability" field = false.
Proof.
  intros Hno. split.
  - apply includes_false. intros H. apply Hno.
    now apply (Contains_longer "precipitation_" "probability" "").
  - destruct (endsWith "probability" field) eqn:E; [|reflexivity].
    exfalso. apply Hno. now apply endsWith_Contains.
Qed.

(** C1: the dispatch is the documented one, in the documented order of
    precedence.  On every name a processor can hand to it, that is every
    field of a package, hourly or daily, and on every name at all that
    does not mention a probability, the record the code builds is the
    record the documented table gives: Kelvin for names containing
    "temperature"; else radians for names containing "direction"; else
    metres for "precipitation" and "convective_precipitation"; else pascal
    for names containing "pressure"; else a ratio for names containing
    "humidity" or "cloudcover" or ending in "probability";
    "douglas_seastate" unchanged with its two descriptions; every other
    name unconverted. *)
Theorem field_conversion_dispatch
    (rt : JsRuntime) (field : string) (value : R) (forecast : Obj) :
  packageField field \/ ~ Contains "probability" field ->
  convertField rt field value forecast =
    documentedDispatch rt field value forecast.
Proof.
  intros [[packageType Hfield]|Hno].
  - unfold getHourlyPackageFields, getDailyPackageFields in Hfield.
    destruct Hfield as [Hfield|Hfield];
      repeat match type of Hfield with
             | In _ (if ?c then _ else _) => destruct c
             end;
      cbn [In] in Hfield;
      repeat (destruct Hfield as [<-|Hfield]; [reflexivity|]);
      contradiction.
  - destruct (no_probability field Hno) as [Hpp Hend].
    unfold convertField, documentedDispatch, celsiusToKelvin, degToRad,
      mmToM, mbToPA, percentToRatio.
    rewrite Hpp, Hend, !orb_false_r.
    destruct (includes "temperature" field) eqn:Et; [reflexivity|].
    apply includes_false in Et.
    rewrite (not_named _ _ "felttemperature" Et eq_refl). cbn [orb].
    destruct (includes "direction" field) eqn:Ed; [reflexivity|].
    apply includes_false in Ed.
    rewrite (not_named _ _ "winddirection" Ed eq_refl). cbn [orb].
    destruct ((field =? "precipitation") || (field =? "convective_precipitation"))%string;
      [reflexivity|].
    destruct (includes "pressure" field) eqn:Ep; [reflexivity|].
    apply includes_false in Ep.
    rewrite (not_named _ _ "sealevelpressure" Ep eq_refl). cbn [orb].
    destruct (includes "humidity" field || includes "cloudcover" field);
      reflexivity.
Qed.

Lemma field_conversion_dispatch_witness :
  convertField utc "precipitation_probability" 50 [] =
    documentedDispatch utc "precipitation_probability" 50 [] /\
  convertField utc "windspeed_120m" 7 [] =
    documentedDispatch utc "windspeed_120m" 7 [].
Proof.
  split.
  - apply (field_conversion_dispatch utc "precipitation_probability" 50 []).
    left. exists "basic"%string. left. simpl. tauto.
  - apply (field_conversion_dispatch utc "windspeed_120m" 7 []).
    right. absent.
Defined.

(** ** Update trigger (C2) *)


Lemma Math_atan2_0_nonneg (x : R) : 0 <= x -> Math_atan2 0 x = 0.
Proof.
  intros Hx. unfold Math_atan2.
  destruct (Rlt_dec 0 x) as [Hpos|Hnpos].
  - unfold Rdiv. rewrite Rmult_0_l. apply atan_0.
  - destruct (Rlt_dec x 0) as [Hneg|_]; [lra|].
    destruct (Rlt_dec 0 0) as [H0|_]; [lra|reflexivity].
Qed.

Lemma Math_atan2_sqrt_asin (a : R) :
  0 <= a <= 1 -> Math_atan2 (sqrt a) (sqrt (1 - a)) = asin (sqrt a).
Proof.
  intros [H0 H1]. unfold Math_atan2.
  destruct (Rlt_dec 0 (sqrt (1 - a))) as [Hpos|Hnpos].
  - assert (Ha : a < 1).
    { destruct (Rle_lt_or_eq_dec _ _ H1) as [Hlt | ->]; [assumption|].
      replace (1 - 1) with 0 in Hpos by ring. rewrite sqrt_0 in Hpos. lra. }
    assert (Hs : sqrt a < 1).
    { rewrite <- sqrt_1. apply sqrt_lt_1; lra. }
    pose proof (sqrt_pos a) as Hs0.
    unfold asin.
    destruct (Rle_dec (sqrt a) (-1)) as [H|_]; [lra|].
    destruct (Rle_dec 1 (sqrt a)) as [H|_]; [lra|].
    unfold Rsqr. now rewrite sqrt_sqrt.
  - assert (Ha : a = 1).
    { destruct (Rle_lt_or_eq_dec _ _ H1) as [Hlt|]; [|assumption].
      exfalso. apply Hnpos. apply sqrt_lt_R0. lra. }
    subst a. rewrite sqrt_1, asin_1.
    replace (1 - 1) with 0 by ring. rewrite sqrt_0.
    destruct (Rlt_dec 0 0) as [H|_]; [lra|].
    destruct (Rlt_dec 0 1) as [_|H]; [reflexivity|lra].
Qed.

(** No distance between a position and itself. *)
Lemma haversineDistance_same (p : Position) : haversineDistance p p = 0.
Proof.
  unfold haversineDistance, degToRad.
  replace ((latitude p - latitude p) * (PI / 180) / 2) with 0 by lra.
  replace ((longitude p - longitude p) * (PI / 180) / 2) with 0 by lra.
  rewrite sin_0.
  replace (0 * 0 + cos (latitude p * (PI / 180)) *
                   cos (latitude p * (PI / 180)) * 0 * 0) with 0 by ring.
  rewrite sqrt_0. rewrite Math_atan2_0_nonneg by apply sqrt_pos. ring.
Qed.

(** ** Position prediction (C7) *)

Lemma Date_ofNumber_IZR (t : Z) : Date_ofNumber (IZR t) = t.
Proof.
  unfold Date_ofNumber. destruct (Rle_dec 0 (IZR t)).
  - apply ZfloorZ.
  - unfold Zceil. rewrite ZfloorNZ. lia.
Qed.

Lemma degToRad_inverse (degrees : R) : degToRad degrees * (180 / PI) = degrees.
Proof.
  unfold degToRad. field. apply PI_neq0.
Qed.

Lemma degToRad_quadrant (degrees : R) :
  -90 <= degrees <= 90 -> - (PI / 2) <= degToRad degrees <= PI / 2.
Proof.
  intros [Hlo Hhi]. unfold degToRad. pose proof PI_RGT_0 as HPI. split; nra.
Qed.

Lemma haversine_argument_bounds (u v l : R) :
  - (PI / 2) <= u <= PI / 2 -> - (PI / 2) <= v <= PI / 2 ->
  let a := sin ((v - u) / 2) * sin ((v - u) / 2) +
           cos u * cos v * sin (l / 2) * sin (l / 2) in
  0 <= a <= 1.
Proof.
  intros [Hu1 Hu2] [Hv1 Hv2] a. subst a.
  pose proof (cos_ge_0 u Hu1 Hu2) as Hcu.
  pose proof (cos_ge_0 v Hv1 Hv2) as Hcv.
  pose proof (SIN_bound (l / 2)) as Hl.
  pose proof (COS_bound (u + v)) as Hsum.
  pose proof (cos_2a_sin ((v - u) / 2)) as Hhalf.
  replace (2 * ((v - u) / 2)) with (v - u) in Hhalf by field.
  rewrite cos_minus in Hhalf. rewrite cos_plus in Hsum.
  set (s := sin ((v - u) / 2)) in *. set (t := sin (l / 2)) in *.
  set (cu := cos u) in *. set (cv := cos v) in *.
  set (su := sin u) in *. set (sv := sin v) in *.
  assert (Hprod : 0 <= cu * cv) by (apply Rmult_le_pos; assumption).
  assert (Ht : 0 <= t * t <= 1) by nra.
  split.
  - assert (0 <= cu * cv * (t * t)) by (apply Rmult_le_pos; tauto). nra.
  - assert (cu * cv * (t * t) <= cu * cv) by nra. nra.
Qed.

(** Between two positions with latitudes in [-90, 90] the distance the
    trigger computes is the chord form [2 R asin (sqrt a)]. *)
Lemma haversineDistance_chord (p1 p2 : Position) :
  -90 <= latitude p1 <= 90 -> -90 <= latitude p2 <= 90 ->
  haversineDistance p1 p2 = haversineChord p1 p2.
Proof.
  intros H1 H2. unfold haversineDistance, haversineChord. cbv zeta.
  rewrite Math_atan2_sqrt_asin; [reflexivity|].
  replace (degToRad (latitude p2 - latitude p1))
    with (degToRad (latitude p2) - degToRad (latitude p1))
    by (unfold degToRad; ring).
  apply haversine_argument_bounds; now apply degToRad_quadrant.
Qed.

(** Along a meridian the distance is the arc [R * (difference of
    latitude in radians)]. *)
Lemma haversineDistance_meridian (p1 p2 : Position) :
  longitude p2 = longitude p1 ->
  -90 <= latitude p1 -> latitude p1 <= latitude p2 -> latitude p2 <= 90 ->
  haversineDistance p1 p2 = 6371000 * degToRad (latitude p2 - latitude p1).
Proof.
  intros Hlon Hlo Hmid Hhi.
  rewrite haversineDistance_chord by lra.
  unfold haversineChord. cbv zeta. rewrite Hlon.
  replace (degToRad (longitude p1 - longitude p1) / 2) with 0
    by (unfold degToRad; field).
  rewrite sin_0.
  set (x := degToRad (latitude p2 - latitude p1) / 2).
  assert (Hx : 0 <= x <= PI / 2).
  { subst x. unfold degToRad. pose proof PI_RGT_0. split; nra. }
  replace (sin x * sin x +
           cos (degToRad (latitude p1)) * cos (degToRad (latitude p2)) * 0 * 0)
    with (sin x * sin x) by ring.
  pose proof PI_RGT_0 as HPI.
  rewrite sqrt_square by (apply sin_ge_0; lra).
  rewrite asin_sin by lra.
  subst x. field.
Qed.


(** C7: with [hoursAhead = 0] the predicted position is the origin
    itself, for every heading, every speed and every origin on the globe
    (latitude between -90 and 90 degrees, any longitude): latitude,
    longitude and time stamp are those of the origin. *)
Theorem future_position_at_zero_hours
    (currentPos : Position) (headingRad sogMps : R) :
  -90 <= latitude currentPos <= 90 ->
  let predicted := calculateFuturePosition currentPos headingRad sogMps 0 in
  latitude predicted = latitude currentPos /\
  longitude predicted = longitude currentPos /\
  timestamp predicted = timestamp currentPos.
Proof.
  intros Hlat. unfold calculateFuturePosition. cbn [latitude longitude timestamp].
  replace (sogMps * 0 * 3600 / 6371000) with 0 by (unfold Rdiv; ring).
  rewrite cos_0, sin_0.
  assert (Hsame :
    asin (sin (degToRad (latitude currentPos)) * 1 +
          cos (degToRad (latitude currentPos)) * 0 * cos headingRad)
    = degToRad (latitude currentPos)).
  { replace (sin (degToRad (latitude currentPos)) * 1 +
             cos (degToRad (latitude currentPos)) * 0 * cos headingRad)
      with (sin (degToRad (latitude currentPos))) by ring.
    apply asin_sin. now apply degToRad_quadrant. }
  rewrite Hsame.
  split; [apply degToRad_inverse|]. split.
  - replace (sin headingRad * 0 * cos (degToRad (latitude currentPos)))
      with 0 by ring.
    rewrite Math_atan2_0_nonneg.
    + rewrite Rplus_0_r. apply degToRad_inverse.
    + pose proof (SIN_bound (degToRad (latitude currentPos))). nra.
  - replace (IZR (timestamp currentPos) + 0 * 3600000)
      with (IZR (timestamp currentPos)) by ring.
    apply Date_ofNumber_IZR.
Qed.

Lemma future_position_at_zero_hours_witness :
  latitude (calculateFuturePosition samplePosition 1 5 0) = 41 /\
  longitude (calculateFuturePosition samplePosition 1 5 0) = -72 /\
  timestamp (calculateFuturePosition samplePosition 1 5 0) = sampleNow.
Proof.
  apply (future_position_at_zero_hours samplePosition 1 5).
  unfold samplePosition; simpl. lra.
Defined.

(** ** Engagement command (C9) *)




(** ** Package field classifier (C6) *)

Lemma convertField_keys (rt : JsRuntime) (field : string) (value : R)
    (o : Obj) (k : string) :
  In k (obj_keys (convertField rt field value o)) ->
  k = field \/ In k (obj_keys o) \/
  (field = "douglas_seastate"%string /\ In k seaStateDerived).
Proof.
  unfold convertField.
  repeat match goal with
         | |- context [if ?c then _ else _] => destruct c eqn:?
         end;
    repeat rewrite obj_keys_set; try tauto.
  match goal with
  | H : (field =? "douglas_seastate")%string = true |- _ =>
      apply String.eqb_eq in H
  end.
  unfold seaStateDerived; simpl. intuition.
Qed.

Lemma convertField_get_other (rt : JsRuntime) (field : string) (value : R)
    (o : Obj) (k : string) :
  k <> field -> ~ In k seaStateDerived ->
  obj_get k (convertField rt field value o) = obj_get k o.
Proof.
  intros Hk Hd. unfold seaStateDerived in Hd; simpl in Hd.
  unfold convertField.
  repeat match goal with
         | |- context [if ?c then _ else _] => destruct c eqn:?
         end;
    repeat rewrite obj_get_set_other; auto; intuition congruence.
Qed.

Lemma fold_extract_keys (rt : JsRuntime) (data : Frame) (i : nat)
    (fields : list string) (o : Obj) (k : string) :
  In k (obj_keys (fold_left (extractField rt data i) fields o)) ->
  In k fields \/ In k (obj_keys o) \/
  (In "douglas_seastate"%string fields /\ In k seaStateDerived).
Proof.
  revert o. induction fields as [|f fields IH]; intros o; simpl.
  - tauto.
  - intros H. apply IH in H. destruct H as [H|[H|[H1 H2]]]; try tauto.
    unfold extractField in H.
    destruct (frame_value data f i); [|tauto].
    apply convertField_keys in H. destruct H as [->|[H|[-> H]]]; tauto.
Qed.

Lemma fold_extract_get_other (rt : JsRuntime) (data : Frame) (i : nat)
    (fields : list string) (o : Obj) (k : string) :
  ~ In k fields -> ~ In k seaStateDerived ->
  obj_get k (fold_left (extractField rt data i) fields o) = obj_get k o.
Proof.
  revert o. induction fields as [|f fields IH]; intros o Hk Hd; simpl.
  - reflexivity.
  - rewrite IH by (simpl in Hk; tauto).
    unfold extractField. destruct (frame_value data f i); [|reflexivity].
    apply convertField_get_other; [|assumption].
    simpl in Hk. intros ->. tauto.
Qed.

Lemma hourly_records (rt : JsRuntime) (now : Z) (data : option Frame)
    (maxHours : Z) (packageType : string) (forecast : Obj) :
  In forecast (processHourlyForecastForPackage rt now data maxHours packageType) ->
  exists d dataIndex stamp,
    data = Some d /\
    forecast = hourlyRecord rt d now (getHourlyPackageFields packageType)
                 dataIndex stamp.
Proof.
  unfold processHourlyForecastForPackage.
  destruct data as [d|]; [|contradiction].
  destruct (fr_time d) as [time|]; [|contradiction].
  intros H. apply in_map_iff in H. destruct H as [i [<- _]].
  now exists d, (hourlyStartIndex rt now time + i)%nat,
        (nth (hourlyStartIndex rt now time + i) time ""%string).
Qed.

Lemma daily_records (rt : JsRuntime) (data : option Frame)
    (maxDays : Z) (packageType : string) (forecast : Obj) :
  In forecast (processDailyForecastForPackage rt data maxDays packageType) ->
  exists d i stamp,
    data = Some d /\
    forecast = dailyRecord rt d (getDailyPackageFields packageType) i stamp.
Proof.
  unfold processDailyForecastForPackage.
  destruct data as [d|]; [|contradiction].
  destruct (fr_time d) as [time|]; [|contradiction].
  intros H. apply in_map_iff in H. destruct H as [i [<- _]].
  now exists d, i, (nth i time ""%string).
Qed.

(** List membership of a string, decided. *)
Lemma not_In_existsb (k : string) (l : list string) :
  existsb (String.eqb k) l = false -> ~ In k l.
Proof.
  intros H Hin.
  assert (Ht : existsb (String.eqb k) l = true).
  { apply existsb_exists. exists k. split; [assumption|apply String.eqb_refl]. }
  congruence.
Qed.

Lemma In_existsb (k : string) (l : list string) :
  existsb (String.eqb k) l = true -> In k l.
Proof.
  intros H. apply existsb_exists in H. destruct H as [x [Hx E]].
  apply String.eqb_eq in E. now subst.
Qed.

(** C6: a record made for a package carries, besides its header (time
    stamp and relative hour, resp. date and day of week), only fields of that
    package's list, and the two derived sea-state descriptions only when
    the package owns the sea state.  For "basic" no hourly record has a
    "significantwaveheight" field; for "sea" no hourly record has a
    "temperature" field, while the wave height present in the frame at the
    record's row is there. *)
Theorem package_owned_fields_only
    (rt : JsRuntime) (now : Z) (data : option Frame) (maxHours maxDays : Z)
    (packageType : string) (forecast : Obj) :
  (In forecast
      (processHourlyForecastForPackage rt now data maxHours packageType) ->
   forall key, In key (obj_keys forecast) ->
     In key (getHourlyPackageFields packageType) \/ In key hourlyHeader \/
     (In "douglas_seastate"%string (getHourlyPackageFields packageType) /\
      In key seaStateDerived)) /\
  (In forecast (processDailyForecastForPackage rt data maxDays packageType) ->
   forall key, In key (obj_keys forecast) ->
     In key (getDailyPackageFields packageType) \/ In key dailyHeader \/
     (In "douglas_seastate"%string (getDailyPackageFields packageType) /\
      In key seaStateDerived)) /\
  (In forecast (processHourlyForecastForPackage rt now data maxHours "basic") ->
   ~ In "significantwaveheight"%string (obj_keys forecast)) /\
  (In forecast (processHourlyForecastForPackage rt now data maxHours "sea") ->
   ~ In "temperature"%string (obj_keys forecast)) /\
  (forall d time i height,
     data = Some d -> fr_time d = Some time ->
     nth_error (processHourlyForecastForPackage rt now data maxHours "sea") i
       = Some forecast ->
     frame_value d "significantwaveheight"
       (hourlyStartIndex rt now time + i) = Some height ->
     obj_get "significantwaveheight" forecast = JNum height).
Proof.
  assert (Hhourly : forall pkg,
    In forecast (processHourlyForecastForPackage rt now data maxHours pkg) ->
    forall key, In key (obj_keys forecast) ->
      In key (getHourlyPackageFields pkg) \/ In key hourlyHeader \/
      (In "douglas_seastate"%string (getHourlyPackageFields pkg) /\
       In key seaStateDerived)).
  { intros pkg Hin key Hkey.
    apply hourly_records in Hin. destruct Hin as [d [ix [stamp [_ ->]]]].
    unfold hourlyRecord in Hkey. apply fold_extract_keys in Hkey.
    unfold hourlyHeader. simpl in Hkey |- *. tauto. }
  split; [apply Hhourly|]. split; [|split; [|split]].
  - intros Hin key Hkey.
    apply daily_records in Hin. destruct Hin as [d [ix [stamp [_ ->]]]].
    unfold dailyRecord in Hkey. apply fold_extract_keys in Hkey.
    unfold dailyHeader. simpl in Hkey |- *. tauto.
  - intros Hin Hkey. destruct (Hhourly _ Hin _ Hkey) as [H|[H|[H _]]];
      revert H; apply not_In_existsb; reflexivity.
  - intros Hin Hkey. destruct (Hhourly _ Hin _ Hkey) as [H|[H|[_ H]]];
      revert H; apply not_In_existsb; reflexivity.
  - intros d time i height -> Htime Hnth Hval.
    unfold processHourlyForecastForPackage in Hnth. rewrite Htime in Hnth.
    rewrite nth_error_map in Hnth.
    destruct (nth_error (seq 0 _) i) as [j|] eqn:Hj; [|discriminate].
    assert (j = i).
    { assert (Hlen : (i < List.length (seq 0 (Z.to_nat (Z.min
                         (Z.of_nat (List.length time) -
                          Z.of_nat (hourlyStartIndex rt now time))
                         maxHours))))%nat)
        by (apply nth_error_Some; rewrite Hj; discriminate).
      rewrite length_seq in Hlen.
      rewrite nth_error_nth' with (d := O) in Hj
        by (now rewrite length_seq).
      rewrite seq_nth in Hj by assumption. now injection Hj. }
    subst j. simpl in Hnth. injection Hnth as <-.
    unfold hourlyRecord.
    change (getHourlyPackageFields "sea")
      with (["seasurfacetemperature"; "significantwaveheight"]%string ++
            ["surfwave_height"; "windwave_height"; "swell_significantheight";
             "mean_waveperiod"; "windwave_meanperiod"; "swell_meanperiod";
             "windwave_peakwaveperiod"; "swell_peakwaveperiod";
             "mean_wavedirection"; "windwave_direction";
             "swell_meandirection"; "douglas_seastate"; "wavesteepness";
             "currentvelocity_u"; "currentvelocity_v"; "salinity"]%string)%list.
    rewrite fold_left_app.
    rewrite fold_extract_get_other
      by (apply not_In_existsb; reflexivity).
    cbn [fold_left]. unfold extractField at 1. rewrite Hval.
    change (convertField rt "significantwaveheight" height ?o)
      with (obj_set "significantwaveheight" (JNum height) o).
    apply obj_get_set_same.
Qed.

Lemma package_owned_fields_only_witness :
  let basic :=
    hd [] (processHourlyForecastForPackage utc sampleNow (Some mixedFrame)
             72 "basic") in
  let sea :=
    hd [] (processHourlyForecastForPackage utc sampleNow (Some mixedFrame)
             72 "sea") in
  let day :=
    hd [] (processDailyForecastForPackage utc (Some mixedFrame) 10 "sea") in
  (In "temperature"%string (getHourlyPackageFields "basic") \/
   In "temperature"%string hourlyHeader \/
   (In "douglas_seastate"%string (getHourlyPackageFields "basic") /\
    In "temperature"%string seaStateDerived)) /\
  (In "date"%string (getDailyPackageFields "sea") \/
   In "date"%string dailyHeader \/
   (In "douglas_seastate"%string (getDailyPackageFields "sea") /\
    In "date"%string seaStateDerived)) /\
  ~ In "significantwaveheight"%string (obj_keys basic) /\
  ~ In "temperature"%string (obj_keys sea) /\
  obj_get "significantwaveheight" sea = JNum 1.5.
Proof.
  intros basic sea day.
  refine (conj _ (conj _ (conj _ (conj _ _)))).
  - apply (proj1 (package_owned_fields_only utc sampleNow (Some mixedFrame)
                    72 10 "basic" basic)).
    + vm_compute. left. reflexivity.
    + vm_compute. right. right. left. reflexivity.
  - apply (proj1 (proj2 (package_owned_fields_only utc sampleNow
                           (Some mixedFrame) 72 10 "sea" day))).
    + vm_compute. left. reflexivity.
    + vm_compute. left. reflexivity.
  - apply (proj1 (proj2 (proj2 (package_owned_fields_only utc sampleNow
                                  (Some mixedFrame) 72 10 "basic" basic)))).
    vm_compute. left. reflexivity.
  - apply (proj1 (proj2 (proj2 (proj2 (package_owned_fields_only utc
             sampleNow (Some mixedFrame) 72 10 "sea" sea))))).
    vm_compute. left. reflexivity.
  - apply (proj2 (proj2 (proj2 (proj2 (package_owned_fields_only utc
             sampleNow (Some mixedFrame) 72 10 "sea" sea))))
             mixedFrame
             ["2024-01-15 10:00"; "2024-01-15 11:00"; "2024-01-15 12:00"]%string
             0%nat 1.5 eq_refl eq_refl).
    + reflexivity.
    + reflexivity.
Defined.

(** ** Start row and length of the stationary hourly series (C10) *)

Lemma firstIndexFrom_first {A : Type} (p : A -> bool) (d : A) (l : list A)
    (k i : nat) :
  (k < List.length l)%nat -> p (nth k l d) = true ->
  (forall j, (j < k)%nat -> p (nth j l d) = false) ->
  firstIndexFrom p l i = Some (i + k)%nat.
Proof.
  revert k i. induction l as [|x l IH]; intros k i Hk Hp Hbefore.
  - simpl in Hk. lia.
  - destruct k as [|k]; simpl in *.
    + rewrite Hp. f_equal. lia.
    + rewrite (Hbefore 0%nat) by lia.
      rewrite (IH k (S i)).
      * f_equal. lia.
      * lia.
      * assumption.
      * intros j Hj. apply (Hbefore (S j)). lia.
Qed.

Lemma firstIndexFrom_none {A : Type} (p : A -> bool) (l : list A) (i : nat) :
  (forall x, In x l -> p x = false) -> firstIndexFrom p l i = None.
Proof.
  revert i. induction l as [|x l IH]; intros i H; simpl.
  - reflexivity.
  - rewrite (H x) by (now left). apply IH. intros y Hy. apply H. now right.
Qed.

(** With every row before the current hour and none after the clock, both
    searches come back empty and the start row stays 0. *)
Lemma hourlyStartIndex_stale (rt : JsRuntime) (now : Z) (time : list string) :
  (forall stamp, In stamp time -> before rt (currentHourOf rt now) stamp) ->
  (forall stamp, In stamp time -> date_gt rt now stamp = false) ->
  hourlyStartIndex rt now time = 0%nat.
Proof.
  intros Hpast Hnone. unfold hourlyStartIndex.
  rewrite firstIndexFrom_none.
  - destruct time as [|first rest]; [reflexivity|].
    destruct (date_lt rt (currentHourOf rt now) first); [|reflexivity].
    now rewrite firstIndexFrom_none.
  - intros stamp Hin. unfold date_ge.
    destruct (Hpast stamp Hin) as [u [-> Hu]]. now apply Z.leb_gt.
Qed.

Lemma date_ge_atOrAfter (rt : JsRuntime) (t : Z) (stamp : string) :
  atOrAfter rt t stamp -> date_ge rt t stamp = true /\ date_lt rt t stamp = false.
Proof.
  intros [u [Hu Hle]]. unfold date_ge, date_lt. rewrite Hu.
  split; [apply Z.leb_le | apply Z.ltb_ge]; assumption.
Qed.

Lemma date_ge_before (rt : JsRuntime) (t : Z) (stamp : string) :
  before rt t stamp -> date_ge rt t stamp = false /\ date_lt rt t stamp = true.
Proof.
  intros [u [Hu Hlt]]. unfold date_ge, date_lt. rewrite Hu.
  split; [apply Z.leb_gt | apply Z.ltb_lt]; assumption.
Qed.

Lemma hourlyStartIndex_first (rt : JsRuntime) (now : Z) (time : list string)
    (start : nat) :
  firstCurrentRow rt now time start -> hourlyStartIndex rt now time = start.
Proof.
  intros [Hlen [Hat Hbefore]]. unfold hourlyStartIndex.
  rewrite (firstIndexFrom_first _ ""%string time start 0 Hlen).
  - simpl. destruct start as [|n]; [|reflexivity].
    destruct time as [|first rest]; [reflexivity|].
    simpl in Hat. apply date_ge_atOrAfter in Hat. now rewrite (proj2 Hat).
  - now apply date_ge_atOrAfter.
  - intros j Hj. now apply date_ge_before, Hbefore.
Qed.

Lemma header_not_overwritten (packageType : string) :
  ~ In "timestamp"%string (getHourlyPackageFields packageType).
Proof.
  apply not_In_existsb. unfold getHourlyPackageFields.
  repeat match goal with
         | |- context [if ?c then _ else _] => destruct c
         end; reflexivity.
Qed.

Lemma hourlyRecord_timestamp (rt : JsRuntime) (d : Frame) (now : Z)
    (packageType : string) (dataIndex : nat) (stamp : string) :
  obj_get "timestamp"
    (hourlyRecord rt d now (getHourlyPackageFields packageType) dataIndex stamp)
  = JStr stamp.
Proof.
  unfold hourlyRecord. rewrite fold_extract_get_other.
  - reflexivity.
  - apply header_not_overwritten.
  - apply not_In_existsb. reflexivity.
Qed.

Lemma nth_map_seq {A : Type} (f : nat -> A) (n i : nat) (d : A) :
  (i < n)%nat -> nth i (map f (seq 0 n)) d = f i.
Proof.
  intros H.
  rewrite nth_indep with (d' := f O) by (now rewrite length_map, length_seq).
  rewrite map_nth. now rewrite seq_nth.
Qed.

(** When the whole series lies before the current hour the processor does
    not skip it: it starts at row 0 and emits the past rows. *)
Lemma stale_series_counterexample :
  map (obj_get "timestamp")
      (processHourlyForecastForPackage utc sampleNow (Some staleFrame) 5
         "basic")
    = [JStr "2024-01-15 08:00"; JStr "2024-01-15 09:00"] /\
  currentHourOf utc sampleNow = 1705312800000%Z /\
  Date_parse utc "2024-01-15 08:00" = Some 1705305600000%Z /\
  Date_parse utc "2024-01-15 09:00" = Some 1705309200000%Z /\
  ~ (exists start,
       firstCurrentRow utc sampleNow
         ["2024-01-15 08:00"; "2024-01-15 09:00"]%string start).
Proof.
  refine (conj _ (conj _ (conj _ (conj _ _))));
    [vm_compute; reflexivity .. | ].
  intros [start [Hlen [[u [Hu Hle]] _]]].
  simpl in Hlen.
  assert (Hs : (start = 0 \/ start = 1)%nat) by lia.
  destruct Hs as [-> | ->]; vm_compute in Hu; injection Hu as <-;
    vm_compute in Hle; apply Hle; reflexivity.
Qed.

(** C10 (amended): when the time array has a first row at or after the
    current wall-clock hour, every row before it lying in the past, and
    [maxHours] is not negative, the stationary hourly processor starts at
    that row and emits the rows from there on in order, at most [maxHours]
    of them: the output has min(rows from the start row to the end,
    maxHours) records and record [i] carries the time stamp of row
    [start + i]. *)
Theorem hourly_series_start_and_length
    (rt : JsRuntime) (now : Z) (d : Frame) (time : list string)
    (maxHours : Z) (packageType : string) (start : nat) :
  fr_time d = Some time ->
  (0 <= maxHours)%Z ->
  firstCurrentRow rt now time start ->
  let out :=
    processHourlyForecastForPackage rt now (Some d) maxHours packageType in
  hourlyStartIndex rt now time = start /\
  List.length out = Nat.min (List.length time - start) (Z.to_nat maxHours) /\
  forall i, (i < List.length out)%nat ->
    obj_get "timestamp" (nth i out []) = JStr (nth (start + i) time "").
Proof.
  intros Htime Hmax Hfirst out.
  pose proof (hourlyStartIndex_first _ _ _ _ Hfirst) as Hstart.
  assert (Hlen : List.length out =
                 Nat.min (List.length time - start) (Z.to_nat maxHours)).
  { subst out. unfold processHourlyForecastForPackage.
    rewrite Htime, Hstart, length_map, length_seq.
    destruct Hfirst as [Hlt _]. lia. }
  split; [assumption|]. split; [assumption|].
  intros i Hi. subst out. unfold processHourlyForecastForPackage in *.
  rewrite Htime, Hstart in *.
  rewrite length_map, length_seq in Hi.
  rewrite nth_map_seq by assumption.
  apply hourlyRecord_timestamp.
Qed.

Lemma hourly_series_start_and_length_witness :
  let out :=
    processHourlyForecastForPackage utc sampleNow (Some midnightFrame) 5
      "basic" in
  hourlyStartIndex utc sampleNow midnightSeries = 10%nat /\
  List.length out = Nat.min (List.length midnightSeries - 10) (Z.to_nat 5) /\
  obj_get "timestamp" (nth 0 out []) = JStr "2024-01-15 10:00" /\
  obj_get "timestamp" (nth 4 out []) = JStr "2024-01-15 14:00".
Proof.
  intros out.
  assert (Hfirst : firstCurrentRow utc sampleNow midnightSeries 10).
  { split; [vm_compute; lia|]. split.
    - exists 1705312800000%Z. split; vm_compute; [reflexivity|discriminate].
    - intros j Hj.
      exists (1705276800000 + Z.of_nat j * 3600000)%Z.
      do 10 (destruct j as [|j]; [split; vm_compute; reflexivity|]).
      lia. }
  destruct (hourly_series_start_and_length utc sampleNow midnightFrame
              midnightSeries 5 "basic" 10 eq_refl ltac:(lia) Hfirst)
    as [Hstart [Hlen Hrows]].
  refine (conj Hstart (conj Hlen (conj _ _))).
  - apply (Hrows 0%nat). vm_compute. lia.
  - apply (Hrows 4%nat). vm_compute. lia.
Defined.

(** ** Weather-query adapter (C5) *)

Lemma obj_get_absent (k : string) (o : Obj) :
  Absent k o -> obj_get k o = JUndefined.
Proof.
  unfold Absent, obj_keys. induction o as [|[k' v] o IH]; simpl; intros H.
  - reflexivity.
  - destruct (String.eqb_spec k' k) as [->|_]; [tauto|]. apply IH. tauto.
Qed.

Lemma currentSpeed_absent (rt : JsRuntime) (fd : Obj) :
  Absent "currentvelocity_u" fd -> Absent "currentvelocity_v" fd ->
  currentSpeed rt fd = JNum 0.
Proof.
  intros Hu Hv. unfold currentSpeed.
  rewrite (obj_get_absent _ _ Hu), (obj_get_absent _ _ Hv).
  unfold js_or, js_square, js_add, js_sqrt; simpl.
  destruct (Rlt_dec (0 * 0 + 0 * 0) 0) as [H|_]; [lra|].
  f_equal. replace (0 * 0 + 0 * 0) with 0 by ring. apply sqrt_0.
Qed.

Lemma currentDirection_absent (rt : JsRuntime) (fd : Obj) :
  Absent "currentvelocity_u" fd \/ Absent "currentvelocity_v" fd ->
  currentDirection rt fd = JUndefined.
Proof.
  intros H. unfold currentDirection, js_and.
  destruct H as [H|H]; rewrite (obj_get_absent _ _ H); simpl.
  - reflexivity.
  - destruct (truthy (obj_get "currentvelocity_u" fd)) eqn:E; simpl;
      [reflexivity | now rewrite E].
Qed.

(** The point forecast is the observation with its type renamed. *)
Lemma point_forecast_groupings (rt : JsRuntime) (now : Z) (fd : Obj)
    (wd : WeatherData) :
  convertToWeatherAPIForecast rt now fd point = Some wd ->
  exists obs,
    convertToWeatherAPIObservation rt now fd = Some obs /\
    forall g, grouping g wd = grouping g obs.
Proof.
  unfold convertToWeatherAPIForecast.
  destruct (convertToWeatherAPIObservation rt now fd) as [obs|];
    [|discriminate].
  simpl. intros H. injection H as <-. exists obs. split; [reflexivity|].
  intros []; reflexivity.
Qed.

(** With nothing stored at all the adapter still reports a surface current
    speed and a drift of 0, where the specification wants absent fields
    left out and never defaulted to zero. *)
Lemma absent_current_counterexample :
  exists wd,
    convertToWeatherAPIObservation utc sampleNow [] = Some wd /\
    Absent "currentvelocity_u" [] /\ Absent "currentvelocity_v" [] /\
    obj_get "surfaceCurrentSpeed" (wd_water wd) = JNum 0 /\
    obj_get "drift" (wd_current wd) = JNum 0 /\
    obj_get "surfaceCurrentSpeed" (wd_water wd) <> JUndefined.
Proof.
  assert (Hs : currentSpeed utc [] = JNum 0)
    by (apply currentSpeed_absent; intros []).
  eexists. split; [reflexivity|].
  cbn [wd_water wd_current obj_get String.eqb Ascii.eqb Bool.eqb].
  rewrite Hs.
  refine (conj _ (conj _ (conj eq_refl (conj eq_refl _))));
    [intros [] | intros [] | discriminate].
Qed.

Ltac copy_case Hin Habs :=
  injection Hin as <- <- <-;
  cbn [grouping wd_outside wd_wind wd_water wd_sun wd_current
       obj_get String.eqb Ascii.eqb Bool.eqb];
  exact (obj_get_absent _ _ Habs).

Lemma observation_copies (rt : JsRuntime) (now : Z) (fd : Obj)
    (wd : WeatherData) (g : Group) (out src : string) :
  convertToWeatherAPIObservation rt now fd = Some wd ->
  In (g, out, src) pointCopies -> Absent src fd ->
  obj_get out (grouping g wd) = JUndefined.
Proof.
  unfold convertToWeatherAPIObservation.
  destruct (getWeatherIcon _ _ _) as [icon|]; [|discriminate].
  intros H Hin Habs. injection H as <-.
  unfold pointCopies in Hin. cbn [In] in Hin.
  repeat (destruct Hin as [Hin|Hin]; [copy_case Hin Habs|]).
  contradiction.
Qed.

Lemma daily_copies (rt : JsRuntime) (now : Z) (fd : Obj)
    (wd : WeatherData) (g : Group) (out src : string) :
  convertToWeatherAPIForecast rt now fd daily = Some wd ->
  In (g, out, src) dailyCopies -> Absent src fd ->
  obj_get out (grouping g wd) = JUndefined.
Proof.
  unfold convertToWeatherAPIForecast.
  destruct (getWeatherIcon _ _ _) as [icon|]; [|discriminate].
  intros H Hin Habs. injection H as <-.
  unfold dailyCopies in Hin. cbn [In] in Hin.
  repeat (destruct Hin as [Hin|Hin]; [copy_case Hin Habs|]).
  contradiction.
Qed.

Lemma observation_derived (rt : JsRuntime) (now : Z) (fd : Obj)
    (wd : WeatherData) :
  convertToWeatherAPIObservation rt now fd = Some wd ->
  obj_get "dewPointTemperature" (wd_outside wd) =
    js_or (obj_get "dewpoint" fd) (obj_get "dewpointtemperature" fd) /\
  obj_get "pressureTendency" (wd_outside wd) = pressureTendencyOf rt fd /\
  obj_get "surfaceCurrentSpeed" (wd_water wd) = currentSpeed rt fd /\
  obj_get "surfaceCurrentDirection" (wd_water wd) = currentDirection rt fd /\
  obj_get "drift" (wd_current wd) = currentSpeed rt fd /\
  obj_get "set" (wd_current wd) = currentDirection rt fd /\
  obj_get "isDaylight" (wd_sun wd) = JBool (js_is1 (obj_get "isdaylight" fd)).
Proof.
  unfold convertToWeatherAPIObservation.
  destruct (getWeatherIcon _ _ _) as [icon|]; [|discriminate].
  intros H. injection H as <-.
  cbn [wd_outside wd_water wd_sun wd_current obj_get String.eqb Ascii.eqb
       Bool.eqb].
  tauto.
Qed.

Lemma daily_derived (rt : JsRuntime) (now : Z) (fd : Obj) (wd : WeatherData) :
  convertToWeatherAPIForecast rt now fd daily = Some wd ->
  obj_get "surfaceCurrentSpeed" (wd_water wd) = currentSpeed rt fd /\
  obj_get "surfaceCurrentDirection" (wd_water wd) = currentDirection rt fd /\
  obj_get "drift" (wd_current wd) = currentSpeed rt fd /\
  obj_get "set" (wd_current wd) = currentDirection rt fd.
Proof.
  unfold convertToWeatherAPIForecast.
  destruct (getWeatherIcon _ _ _) as [icon|]; [|discriminate].
  intros H. injection H as <-.
  cbn [wd_water wd_current obj_get String.eqb Ascii.eqb Bool.eqb].
  tauto.
Qed.

Lemma forecast_derived (rt : JsRuntime) (now : Z) (fd : Obj)
    (type : WeatherForecastType) (wd : WeatherData) :
  convertToWeatherAPIForecast rt now fd type = Some wd ->
  obj_get "surfaceCurrentSpeed" (wd_water wd) = currentSpeed rt fd /\
  obj_get "surfaceCurrentDirection" (wd_water wd) = currentDirection rt fd /\
  obj_get "drift" (wd_current wd) = currentSpeed rt fd /\
  obj_get "set" (wd_current wd) = currentDirection rt fd.
Proof.
  destruct type; [apply daily_derived|].
  intros H. apply point_forecast_groupings in H.
  destruct H as [obs [Hobs Hg]].
  pose proof (Hg Water) as Hw. pose proof (Hg Current) as Hc.
  simpl in Hw, Hc. rewrite Hw, Hc.
  apply observation_derived in Hobs. tauto.
Qed.

(** C5 (amended): every output field that copies one stored field is absent
    (undefined) when that stored field is absent, nothing is put in its
    place; the dew point and the pressure tendency are absent when both of
    their sources are, and the current direction and set when either
    current component is.  The computed fields are the exception: surface
    current speed and drift are 0 when both current components are
    absent, and the daylight flag of an hourly record is false when
    [isdaylight] is absent. *)
Theorem adapter_omits_absent_fields
    (rt : JsRuntime) (now : Z) (fd : Obj) (type : WeatherForecastType)
    (wd : WeatherData) :
  convertToWeatherAPIForecast rt now fd type = Some wd ->
  (forall g out src,
     In (g, out, src) (copiesOf type) -> Absent src fd ->
     obj_get out (grouping g wd) = JUndefined) /\
  (type = point ->
   Absent "dewpoint" fd -> Absent "dewpointtemperature" fd ->
   obj_get "dewPointTemperature" (wd_outside wd) = JUndefined) /\
  (type = point ->
   Absent "pressure_trend" fd -> Absent "sealevelpressure_trend" fd ->
   obj_get "pressureTendency" (wd_outside wd) = JUndefined) /\
  (Absent "currentvelocity_u" fd \/ Absent "currentvelocity_v" fd ->
   obj_get "surfaceCurrentDirection" (wd_water wd) = JUndefined /\
   obj_get "set" (wd_current wd) = JUndefined) /\
  (Absent "currentvelocity_u" fd -> Absent "currentvelocity_v" fd ->
   obj_get "surfaceCurrentSpeed" (wd_water wd) = JNum 0 /\
   obj_get "drift" (wd_current wd) = JNum 0) /\
  (type = point -> Absent "isdaylight" fd ->
   obj_get "isDaylight" (wd_sun wd) = JBool false).
Proof.
  intros H.
  pose proof (forecast_derived _ _ _ _ _ H) as [Hspeed [Hdir [Hdrift Hset]]].
  refine (conj _ (conj _ (conj _ (conj _ (conj _ _))))).
  - intros g out src Hin Habs. destruct type.
    + exact (daily_copies _ _ _ _ _ _ _ H Hin Habs).
    + apply point_forecast_groupings in H. destruct H as [obs [Hobs Hg]].
      rewrite Hg. exact (observation_copies _ _ _ _ _ _ _ Hobs Hin Habs).
  - intros -> H1 H2.
    apply point_forecast_groupings in H. destruct H as [obs [Hobs Hg]].
    pose proof (Hg Outside) as Ho. simpl in Ho. rewrite Ho.
    apply observation_derived in Hobs. destruct Hobs as [-> _].
    now rewrite (obj_get_absent _ _ H1), (obj_get_absent _ _ H2).
  - intros -> H1 H2.
    apply point_forecast_groupings in H. destruct H as [obs [Hobs Hg]].
    pose proof (Hg Outside) as Ho. simpl in Ho. rewrite Ho.
    apply observation_derived in Hobs. destruct Hobs as [_ [-> _]].
    unfold pressureTendencyOf.
    now rewrite (obj_get_absent _ _ H1), (obj_get_absent _ _ H2).
  - intros Habs. rewrite Hdir, Hset.
    split; now apply currentDirection_absent.
  - intros Hu Hv. rewrite Hspeed, Hdrift.
    split; now apply currentSpeed_absent.
  - intros -> Habs.
    apply point_forecast_groupings in H. destruct H as [obs [Hobs Hg]].
    pose proof (Hg Sun) as Hs. simpl in Hs. rewrite Hs.
    apply observation_derived in Hobs.
    destruct Hobs as [_ [_ [_ [_ [_ [_ ->]]]]]].
    now rewrite (obj_get_absent _ _ Habs).
Qed.

Ltac lacking := unfold Absent; apply not_In_existsb; reflexivity.

Lemma adapter_omits_absent_fields_witness :
  exists wd,
    convertToWeatherAPIForecast utc sampleNow temperatureOnly point = Some wd /\
    obj_get "speedTrue" (wd_wind wd) = JUndefined /\
    obj_get "dewPointTemperature" (wd_outside wd) = JUndefined /\
    obj_get "pressureTendency" (wd_outside wd) = JUndefined /\
    (obj_get "surfaceCurrentDirection" (wd_water wd) = JUndefined /\
     obj_get "set" (wd_current wd) = JUndefined) /\
    (obj_get "surfaceCurrentSpeed" (wd_water wd) = JNum 0 /\
     obj_get "drift" (wd_current wd) = JNum 0) /\
    obj_get "isDaylight" (wd_sun wd) = JBool false.
Proof.
  eexists. split; [reflexivity|].
  match goal with
  | |- obj_get _ (wd_wind ?w) = _ /\ _ =>
      pose proof (adapter_omits_absent_fields utc sampleNow temperatureOnly
                    point w eq_refl)
        as [Hcopy [Hdew [Htrend [Hdir [Hspeed Hday]]]]]
  end.
  refine (conj _ (conj _ (conj _ (conj _ (conj _ _))))).
  - apply (Hcopy Wind "speedTrue"%string "windspeed"%string).
    + unfold copiesOf, pointCopies. cbn [In]. do 20 right. left. reflexivity.
    + lacking.
  - apply Hdew; [reflexivity|lacking|lacking].
  - apply Htrend; [reflexivity|lacking|lacking].
  - apply Hdir. left. lacking.
  - apply Hspeed; lacking.
  - apply Hday; [reflexivity|lacking].
Defined.

(** ** Moving-forecast assembler: the target hour (C4) *)

(** A found record is the first processed record whose time stamp falls
    in the calendar hour of the target time, whatever its index. *)
Lemma target_forecast_matches (rt : JsRuntime) (now : Z) (data : option Frame)
    (totalHoursNeeded targetTime : Z) (predictedPos : Position)
    (packageType : string) (hourForecast : Obj) :
  targetForecastFor rt now data totalHoursNeeded targetTime predictedPos
    packageType = Some hourForecast ->
  exists targetForecast,
    In targetForecast
       (processHourlyForecastForPackage rt now data totalHoursNeeded
          packageType) /\
    matchesTargetTime rt targetTime targetForecast = true /\
    hourForecast =
      obj_set "vesselMoving" (JBool true)
        (obj_set "predictedLongitude" (JNum (longitude predictedPos))
           (obj_set "predictedLatitude" (JNum (latitude predictedPos))
              targetForecast)).
Proof.
  unfold targetForecastFor.
  destruct (find _ _) as [targetForecast|] eqn:Hfind; [|discriminate].
  intros H. injection H as <-. apply find_some in Hfind.
  exists targetForecast. tauto.
Qed.

(** C4: at 10:30 with a 48-row series that starts at local midnight, the
    target time of hour offset 20 is 06:00 of the next day; the series has
    the matching row at index 30, but the processed window is cut to the
    9 rows from 10:00 on (hours since midnight of the target + 3), so no
    record is found and the hour is skipped.  Over a whole 24-hour cycle
    the 24 per-hour requests (and the daily one) yield the 14 records up
    to 23:00 only. *)
Theorem moving_target_hour_outside_window :
  let targetTime := (currentHourOf utc sampleNow + 20 * 3600000)%Z in
  let predictedPos := calculateFuturePosition samplePosition 1 5 20 in
  nth_error midnightSeries 30 = Some "2024-01-16 06:00"%string /\
  matchesTargetTime utc targetTime
    [("timestamp"%string, JStr "2024-01-16 06:00")] = true /\
  (getHours utc targetTime + 1 + 2 = 9)%Z /\
  map (obj_get "timestamp")
      (processHourlyForecastForPackage utc sampleNow (Some midnightFrame) 9
         "basic")
    = map (fun h => JStr ("2024-01-15 " ++ pad 2 h ++ ":00"))
          [10; 11; 12; 13; 14; 15; 16; 17; 18]%Z /\
  targetForecastFor utc sampleNow (Some midnightFrame) 9 targetTime
    predictedPos "basic" = None /\
  cycleSummary
    (movingBody utc dayConfig samplePosition 1 5 sampleState
       (sampleWorld (repeat (okReply midnightResponse) 25)))
    = Some (25%nat,
            map (fun h => JStr ("2024-01-15 " ++ pad 2 h ++ ":00"))
                [10; 11; 12; 13; 14; 15; 16; 17; 18; 19; 20; 21; 22; 23]%Z).
Proof.
  refine (conj _ (conj _ (conj _ (conj _ (conj _ _)))));
    vm_compute; reflexivity.
Qed.

(** ** Fetch failures (C3) *)

Lemma extend_nil (w : World) : extend w [] = w.
Proof.
  destruct w as [c n l]. unfold extend; simpl. now rewrite app_nil_r.
Qed.

Lemma extend_extend (w : World) (a b : list Event) :
  extend (extend w a) b = extend w (a ++ b).
Proof.
  unfold extend; simpl. now rewrite app_assoc.
Qed.

Lemma emit_extend (e : Event) (w : World) : emit e w = extend w [e].
Proof. reflexivity. Qed.

Lemma Publishes_ret : Publishes (ret tt).
Proof.
  intros st w. exists []. split; [|constructor].
  unfold ret. now rewrite extend_nil.
Qed.


Lemma Publishes_bind (m k : M unit) :
  Publishes m -> Publishes k -> Publishes (m ;;; k).
Proof.
  intros Hm Hk st w. unfold bind.
  destruct (Hm st w) as [a [-> Ha]].
  destruct (Hk st (extend w a)) as [b [-> Hb]].
  exists (a ++ b)%list. rewrite extend_extend. split; [reflexivity|].
  apply Forall_app. now split.
Qed.

Lemma Publishes_forEachM {A : Type} (f : A -> M unit) (l : list A) :
  (forall x, Publishes (f x)) -> Publishes (forEachM f l).
Proof.
  intros Hf. induction l as [|x l IH]; simpl.
  - apply Publishes_ret.
  - apply Publishes_bind; [apply Hf|apply IH].
Qed.

Lemma Publishes_publishHourly (forecasts : list Obj) (packageType : string) :
  Publishes (publishHourlyForecasts forecasts packageType).
Proof.
  unfold publishHourlyForecasts. apply Publishes_forEachM.
  intros [index forecast] st w.
  eexists [_]. split; [reflexivity|]. now repeat constructor.
Qed.

Lemma Publishes_publishDaily (rt : JsRuntime) (forecasts : list Obj)
    (packageType : string) :
  Publishes (publishDailyForecasts rt forecasts packageType).
Proof.
  unfold publishDailyForecasts. apply Publishes_forEachM.
  intros [index forecast] st w.
  eexists [_]. split; [reflexivity|]. now repeat constructor.
Qed.


Lemma bind_ret {A B : Type} (a : A) (k : A -> M B) (st : PluginState)
    (w : World) :
  bind (ret a) k st w = k a st w.
Proof. reflexivity. Qed.

Lemma bind_returned {A B : Type} (m : M A) (k : A -> M B) (a : A)
    (st st' : PluginState) (w w' : World) :
  m st w = Returned a st' w' -> bind m k st w = k a st' w'.
Proof. intros H. unfold bind. now rewrite H. Qed.


Lemma buildMeteoblueUrl_ok (rt : JsRuntime) (lat lon : R)
    (config : PluginConfig) :
  getEnabledPackages config <> [] ->
  buildMeteoblueUrl rt lat lon config = ret (meteoblueUrl rt lat lon config).
Proof.
  intros H. unfold buildMeteoblueUrl.
  destruct (getEnabledPackages config); [contradiction|reflexivity].
Qed.

Lemma fetch_reply (url : string) (st : PluginState) (w : World)
    (r : FetchReply) (rest : list FetchReply) :
  w_net w = r :: rest ->
  fetch url st w =
    match result r with
    | NetworkError msg => Thrown msg st (afterFetch url r rest w)
    | Http response => Returned response st (afterFetch url r rest w)
    end.
Proof.
  intros H. unfold fetch, emit, afterFetch; simpl. now rewrite H.
Qed.

Lemma fetchForecast_caught (rt : JsRuntime) (position : option Position)
    (config : PluginConfig) (st st' : PluginState) (w w' : World)
    (errorMsg : string) :
  meteoblueApiKey config <> ""%string ->
  fetchForecastBody rt position config st w = Thrown errorMsg st' w' ->
  fetchForecast rt position config st w = failed rt errorMsg st' w'.
Proof.
  intros Hkey Hbody. unfold fetchForecast.
  apply String.eqb_neq in Hkey. rewrite Hkey, Hbody.
  unfold failed, bind, tell, getClock, modify, emit, extend; simpl.
  now rewrite <- app_assoc.
Qed.





Section HourLoop.

Variables (rt : JsRuntime) (config : PluginConfig) (pos : Position)
          (heading sog : R) (currentHour : Z)
          (enabledHourlyPackages : list string).

Hypothesis packages_enabled : getEnabledPackages config <> [].




End HourLoop.









(** * Further properties of the engine *)

(** ** Position prediction *)

Lemma atan_nonpos (x : R) : x <= 0 -> atan x <= 0.
Proof.
  intros [H|H].
  - left. rewrite <- atan_0. now apply atan_increasing.
  - subst. rewrite atan_0. lra.
Qed.

Lemma atan_pos (x : R) : 0 < x -> 0 < atan x.
Proof.
  intros H. rewrite <- atan_0. now apply atan_increasing.
Qed.

Lemma Math_atan2_bound (y x : R) : - PI <= Math_atan2 y x <= PI.
Proof.
  pose proof PI_RGT_0 as HPI. pose proof (atan_bound (y / x)) as Hb.
  unfold Math_atan2.
  destruct (Rlt_dec 0 x) as [Hx|Hx]; [lra|].
  destruct (Rlt_dec x 0) as [Hneg|Hneg].
  - assert (Hinv : / x < 0) by now apply Rinv_lt_0_compat.
    destruct (Rle_dec 0 y) as [Hy|Hy].
    + assert (y / x <= 0) by (unfold Rdiv; nra).
      pose proof (atan_nonpos _ H). lra.
    + assert (0 < y / x) by (unfold Rdiv; nra).
      pose proof (atan_pos _ H). lra.
  - destruct (Rlt_dec 0 y); [lra|]. destruct (Rlt_dec y 0); lra.
Qed.

(** X1: whatever the origin, heading, speed and time ahead, the predicted
    latitude is a latitude (between -90 and 90 degrees), and the predicted
    longitude lies within 180 degrees of the origin's.  The longitude is
    not wrapped into [-180, 180]: due east along the equator it is the
    origin's longitude plus the angle travelled, so that a vessel at
    179.5 degrees east is predicted beyond 180 degrees. *)
Theorem predicted_position_range
    (currentPos : Position) (headingRad sogMps hoursAhead : R) :
  let predicted :=
    calculateFuturePosition currentPos headingRad sogMps hoursAhead in
  let angle := sogMps * hoursAhead * 3600 / 6371000 in
  (-90 <= latitude predicted <= 90 /\
   longitude currentPos - 180 <= longitude predicted
     <= longitude currentPos + 180) /\
  (latitude currentPos = 0 -> headingRad = PI / 2 ->
   0 <= angle < PI / 2 ->
   latitude predicted = 0 /\
   longitude predicted = longitude currentPos + angle * (180 / PI)).
Proof.
  unfold calculateFuturePosition. cbn [latitude longitude].
  pose proof PI_RGT_0 as HPI.
  assert (Hk : 0 < 180 / PI) by (apply Rdiv_lt_0_compat; lra).
  assert (Hhalf : PI / 2 * (180 / PI) = 90) by (field; lra).
  assert (Hfull : PI * (180 / PI) = 180) by (field; lra).
  split; [split|].
  - match goal with |- _ <= asin ?x * _ <= _ =>
      pose proof (asin_bound x) as Hb; set (a := asin x) in * end.
    split; nra.
  - match goal with |- _ <= (_ + Math_atan2 ?y ?x) * _ <= _ =>
      pose proof (Math_atan2_bound y x) as Hb;
      set (b := Math_atan2 y x) in * end.
    rewrite Rmult_plus_distr_r, degToRad_inverse.
    split; nra.
  - intros Hlat Hhead Hangle. rewrite Hlat, Hhead.
    set (angle := sogMps * hoursAhead * 3600 / 6371000) in *.
    replace (degToRad 0) with 0 by (unfold degToRad; ring).
    rewrite sin_0, cos_0, cos_PI2, sin_PI2.
    replace (0 * cos angle + 1 * sin angle * 0) with 0 by ring.
    rewrite asin_0, sin_0. split; [ring|].
    replace (1 * sin angle * 1) with (sin angle) by ring.
    replace (cos angle - 0 * 0) with (cos angle) by ring.
    assert (Hcos : 0 < cos angle) by (apply cos_gt_0; lra).
    unfold Math_atan2. destruct (Rlt_dec 0 (cos angle)) as [_|Hn];
      [|contradiction].
    change (sin angle / cos angle) with (tan angle).
    rewrite atan_tan by lra.
    rewrite Rmult_plus_distr_r, degToRad_inverse. reflexivity.
Qed.

Lemma predicted_position_range_witness :
  longitude (calculateFuturePosition
               {| latitude := 0; longitude := 179.5; timestamp := 0 |}
               (PI / 2) 10 10)
    = 179.5 + 10 * 10 * 3600 / 6371000 * (180 / PI) /\
  180 < longitude (calculateFuturePosition
                     {| latitude := 0; longitude := 179.5; timestamp := 0 |}
                     (PI / 2) 10 10).
Proof.
  pose proof PI2_1 as Hlow. pose proof PI_4 as Hhigh.
  assert (Hlon :
    longitude (calculateFuturePosition
                 {| latitude := 0; longitude := 179.5; timestamp := 0 |}
                 (PI / 2) 10 10)
    = 179.5 + 10 * 10 * 3600 / 6371000 * (180 / PI)).
  { apply (proj2 (predicted_position_range
                    {| latitude := 0; longitude := 179.5; timestamp := 0 |}
                    (PI / 2) 10 10));
      [reflexivity|reflexivity|lra]. }
  split; [exact Hlon|]. rewrite Hlon.
  assert (Hdeg : 45 <= 180 / PI).
  { apply Rmult_le_reg_r with PI; [lra|].
    replace (180 / PI * PI) with 180 by (field; lra). lra. }
  nra.
Defined.

Lemma sin_north (u d : R) :
  sin u * cos d + cos u * sin d * cos 0 = sin (u + d).
Proof. rewrite cos_0, sin_plus. ring. Qed.

Lemma cos_product (u d : R) :
  cos d - sin u * sin (u + d) = cos u * cos (u + d).
Proof.
  replace (cos d) with (cos ((u + d) - u)) by (f_equal; ring).
  rewrite cos_minus. ring.
Qed.

(** The position predicted on heading 0, for a track between the poles. *)
Lemma north_position (currentPos : Position) (sogMps hoursAhead : R) :
  let angle := sogMps * hoursAhead * 3600 / 6371000 in
  - (PI / 2) <= degToRad (latitude currentPos) <= PI / 2 ->
  - (PI / 2) <= degToRad (latitude currentPos) + angle <= PI / 2 ->
  let predicted := calculateFuturePosition currentPos 0 sogMps hoursAhead in
  latitude predicted = latitude currentPos + angle * (180 / PI) /\
  longitude predicted = longitude currentPos.
Proof.
  intros angle Horigin Hdest.
  unfold calculateFuturePosition. cbn [latitude longitude].
  fold angle. rewrite sin_north.
  rewrite asin_sin by exact Hdest. split.
  - rewrite Rmult_plus_distr_r, degToRad_inverse. reflexivity.
  - rewrite sin_0, cos_product.
    replace (0 * sin angle * cos (degToRad (latitude currentPos)))
      with 0 by ring.
    rewrite Math_atan2_0_nonneg.
    + rewrite Rplus_0_r. apply degToRad_inverse.
    + apply Rmult_le_pos; apply cos_ge_0; lra.
Qed.

(** X2: on heading 0 (due north) the vessel stays on its meridian: the
    longitude is the origin's and the latitude grows by the angle
    distance / Earth radius, as long as origin and destination lie between
    the poles. *)
Theorem due_north_prediction
    (currentPos : Position) (sogMps hoursAhead : R) :
  let angle := sogMps * hoursAhead * 3600 / 6371000 in
  - (PI / 2) <= degToRad (latitude currentPos) <= PI / 2 ->
  - (PI / 2) <= degToRad (latitude currentPos) + angle <= PI / 2 ->
  let predicted := calculateFuturePosition currentPos 0 sogMps hoursAhead in
  latitude predicted = latitude currentPos + angle * (180 / PI) /\
  longitude predicted = longitude currentPos.
Proof.
  intros angle Horigin Hdest.
  exact (north_position currentPos sogMps hoursAhead Horigin Hdest).
Qed.

Lemma due_north_prediction_witness :
  latitude (calculateFuturePosition
              {| latitude := 0; longitude := 0; timestamp := 0 |} 0 5 1)
    = 0 + 5 * 1 * 3600 / 6371000 * (180 / PI) /\
  longitude (calculateFuturePosition
               {| latitude := 0; longitude := 0; timestamp := 0 |} 0 5 1)
    = 0.
Proof.
  pose proof PI2_1 as HPI.
  apply (due_north_prediction
           {| latitude := 0; longitude := 0; timestamp := 0 |} 5 1);
    unfold degToRad; simpl; lra.
Defined.

(** X3: predictor and trigger agree on distances.  For a vessel sailing
    due north (heading 0) a distance speed * hours * 3600 that is not
    negative, from an origin at or north of the south pole (latitude at
    least -90 degrees), to a destination at or south of the north pole
    (latitude in radians plus distance / 6,371,000 at most pi/2), the
    haversine distance between the origin and the predicted position is
    that distance travelled. *)
Theorem north_prediction_distance
    (currentPos : Position) (sogMps hoursAhead : R) :
  let distanceMeters := sogMps * hoursAhead * 3600 in
  0 <= distanceMeters ->
  - (PI / 2) <= degToRad (latitude currentPos) ->
  degToRad (latitude currentPos) + distanceMeters / 6371000 <= PI / 2 ->
  haversineDistance currentPos
    (calculateFuturePosition currentPos 0 sogMps hoursAhead)
  = distanceMeters.
Proof.
  intros distanceMeters Hd Hlo Hhi.
  pose proof PI_RGT_0 as HPI.
  assert (Hangle : 0 <= distanceMeters / 6371000)
    by (apply Rmult_le_pos; lra).
  destruct (north_position currentPos sogMps hoursAhead)
    as [Hlat Hlon]; [fold distanceMeters; lra .. |].
  fold distanceMeters in Hlat.
  assert (Hk : 0 < 180 / PI) by (apply Rdiv_lt_0_compat; lra).
  assert (Hdeg : forall x, degToRad x * (180 / PI) = x)
    by apply degToRad_inverse.
  assert (Hscale : forall x, x * (180 / PI) * (PI / 180) = x)
    by (intros; field; lra).
  unfold degToRad in Hlo, Hhi.
  rewrite haversineDistance_meridian.
  - rewrite Hlat. unfold degToRad.
    replace (latitude currentPos + distanceMeters / 6371000 * (180 / PI)
             - latitude currentPos)
      with (distanceMeters / 6371000 * (180 / PI)) by ring.
    rewrite Hscale. field.
  - exact Hlon.
  - apply Rmult_le_reg_r with (PI / 180); [lra|]. lra.
  - rewrite Hlat. assert (0 <= distanceMeters / 6371000 * (180 / PI))
      by (apply Rmult_le_pos; lra). lra.
  - rewrite Hlat. apply Rmult_le_reg_r with (PI / 180); [lra|].
    rewrite Rmult_plus_distr_r, Hscale. lra.
Qed.

Lemma north_prediction_distance_witness :
  haversineDistance {| latitude := 0; longitude := 0; timestamp := 0 |}
    (calculateFuturePosition
       {| latitude := 0; longitude := 0; timestamp := 0 |} 0 5 1)
  = 5 * 1 * 3600.
Proof.
  pose proof PI2_1 as HPI.
  apply (north_prediction_distance
           {| latitude := 0; longitude := 0; timestamp := 0 |} 5 1);
    unfold degToRad; simpl; lra.
Defined.


(** ** Configuration errors and the guard of the moving path *)

Lemma getEnabledPackages_nil (config : PluginConfig) :
  getEnabledPackages config = [] <->
  enableBasic1h config = false /\ enableBasicDay config = false /\
  enableWind1h config = false /\ enableWindDay config = false /\
  enableSea1h config = false /\ enableSeaDay config = false /\
  enableSolar1h config = false /\ enableSolarDay config = false /\
  enableTrend1h config = false /\ enableClouds1h config = false /\
  enableCloudsDay config = false.
Proof.
  unfold getEnabledPackages.
  destruct (enableBasic1h config), (enableBasicDay config),
    (enableWind1h config), (enableWindDay config), (enableSea1h config),
    (enableSeaDay config), (enableSolar1h config), (enableSolarDay config),
    (enableTrend1h config), (enableClouds1h config),
    (enableCloudsDay config); simpl; split; intros H;
    try discriminate; try tauto; intuition discriminate.
Qed.

(** X4: the two configuration errors of a stationary cycle.  Without an API
    key the cycle only reports the error: no request, and the session state,
    [lastForecastUpdate] included, stays as it was.  With a key but no
    package enabled no request is sent and nothing is published either, but
    the failed cycle is recorded: [lastForecastUpdate] becomes the current
    time. *)
Theorem configuration_errors
    (rt : JsRuntime) (position : option Position) (pos : Position)
    (config : PluginConfig) (st : PluginState) (w : World) :
  (meteoblueApiKey config = ""%string ->
   fetchForecast rt position config st w =
     Returned tt st
       (extend w [EvError "Meteoblue API key not configured"])) /\
  (meteoblueApiKey config <> ""%string ->
   getEnabledPackages config = [] ->
   fetchForecast rt (Some pos) config st w =
     Returned tt (set_lastForecastUpdate (w_clock w) st)
       (extend w
          [EvError "Failed to fetch forecast: No Meteoblue packages enabled in configuration";
           EvStatus "Error: No Meteoblue packages enabled in configuration"])).
Proof.
  split.
  - intros Hkey. unfold fetchForecast. now rewrite Hkey.
  - intros Hkey Hnone.
    rewrite (fetchForecast_caught rt (Some pos) config st st w w
               "No Meteoblue packages enabled in configuration" Hkey).
    + reflexivity.
    + unfold fetchForecastBody, buildMeteoblueUrl.
      rewrite bind_ret, Hnone. reflexivity.
Qed.

Lemma configuration_errors_witness :
  fetchForecast utc (Some samplePosition) noKeyConfig sampleState
    (sampleWorld [serverErrorReply]) =
    Returned tt sampleState
      (extend (sampleWorld [serverErrorReply])
         [EvError "Meteoblue API key not configured"]) /\
  fetchForecast utc (Some samplePosition) noPackageConfig sampleState
    (sampleWorld [serverErrorReply]) =
    Returned tt (set_lastForecastUpdate sampleNow sampleState)
      (extend (sampleWorld [serverErrorReply])
         [EvError "Failed to fetch forecast: No Meteoblue packages enabled in configuration";
          EvStatus "Error: No Meteoblue packages enabled in configuration"]).
Proof.
  split.
  - apply (configuration_errors utc (Some samplePosition) samplePosition
             noKeyConfig sampleState (sampleWorld [serverErrorReply])).
    reflexivity.
  - apply (configuration_errors utc (Some samplePosition) samplePosition
             noPackageConfig sampleState (sampleWorld [serverErrorReply])).
    + discriminate.
    + reflexivity.
Defined.

(** X5: the moving path is left for the stationary one whenever a piece of
    navigation data is missing or zero, the speed is not above the threshold,
    or moving forecasts are not engaged.  A heading of exactly 0 (due north)
    and a speed of exactly 0 count as missing. *)
Theorem moving_guard_falls_back
    (rt : JsRuntime) (config : PluginConfig) (st : PluginState) (w : World) :
  currentPosition st = None \/
  currentHeading st = None \/ currentHeading st = Some 0 \/
  currentSOG st = None \/ currentSOG st = Some 0 \/
  (exists sog, currentSOG st = Some sog /\
               sog <= movingSpeedThreshold config * 0.514444) \/
  movingForecastEngaged st = false ->
  fetchForecastForMovingVessel rt config st w =
    fetchForecast rt (currentPosition st) config st w.
Proof.
  assert (Hzero : number_falsy (Some 0) = true).
  { unfold number_falsy. destruct (Req_dec_T 0 0); [reflexivity|lra]. }
  intros H. unfold fetchForecastForMovingVessel.
  destruct (currentPosition st) as [pos|]; [|reflexivity].
  destruct (currentHeading st) as [heading|]; [|reflexivity].
  destruct (currentSOG st) as [sog|]; [|reflexivity].
  destruct H as [H|[H|[H|[H|[H|[[s [Hs Hle]]|H]]]]]]; try discriminate.
  - injection H as ->. now rewrite Hzero.
  - injection H as ->. rewrite Hzero. now rewrite orb_true_r.
  - injection Hs as ->.
    assert (Hm : isVesselMoving s (movingSpeedThreshold config) = false).
    { unfold isVesselMoving. destruct (Rlt_dec _ _); [lra|reflexivity]. }
    rewrite Hm. simpl. now rewrite !orb_true_r.
  - rewrite H. simpl. now rewrite !orb_true_r.
Qed.

Lemma moving_guard_falls_back_witness :
  fetchForecastForMovingVessel utc sampleConfig northboundState
    (sampleWorld [serverErrorReply]) =
  fetchForecast utc (Some samplePosition) sampleConfig northboundState
    (sampleWorld [serverErrorReply]).
Proof.
  apply (moving_guard_falls_back utc sampleConfig northboundState
           (sampleWorld [serverErrorReply])).
  right. right. left. reflexivity.
Defined.

(** ** What a cycle leaves in the session state *)

Lemma Keeps_ret {A : Type} (a : A) : Keeps (ret a).
Proof. intros st w. reflexivity. Qed.

Lemma Keeps_throw {A : Type} (msg : string) : Keeps (@throw A msg).
Proof. intros st w. reflexivity. Qed.

Lemma Keeps_tell (e : Event) : Keeps (tell e).
Proof. intros st w. reflexivity. Qed.

Lemma Keeps_getClock : Keeps getClock.
Proof. intros st w. reflexivity. Qed.

Lemma Keeps_delay (ms : Z) : Keeps (delay ms).
Proof. intros st w. reflexivity. Qed.

Lemma Keeps_fetch (url : string) : Keeps (fetch url).
Proof.
  intros st w. unfold fetch.
  destruct (w_net (emit (EvFetch url) w)) as [|r rest]; [reflexivity|].
  destruct (result r); reflexivity.
Qed.

Lemma Keeps_json (response : HttpResponse) : Keeps (json response).
Proof. intros st w. unfold json. destruct (body response); reflexivity. Qed.

Lemma Keeps_buildMeteoblueUrl (rt : JsRuntime) (lat lon : R)
    (config : PluginConfig) :
  Keeps (buildMeteoblueUrl rt lat lon config).
Proof.
  intros st w. unfold buildMeteoblueUrl.
  destruct (getEnabledPackages config); reflexivity.
Qed.

Lemma Keeps_bind {A B : Type} (m : M A) (k : A -> M B) :
  Keeps m -> (forall a, Keeps (k a)) -> Keeps (bind m k).
Proof.
  intros Hm Hk st w. unfold bind. specialize (Hm st w).
  destruct (m st w) as [a st1 w1|msg st1 w1]; [|exact Hm].
  subst st1. apply Hk.
Qed.

Lemma Keeps_foldM {A S : Type} (f : S -> A -> M S) (l : list A) :
  (forall s a, Keeps (f s a)) -> forall s, Keeps (foldM f l s).
Proof.
  intros Hf. induction l as [|x l IH]; intros s; simpl.
  - apply Keeps_ret.
  - apply Keeps_bind; [apply Hf|exact IH].
Qed.

Lemma Keeps_Publishes (m : M unit) : Publishes m -> Keeps m.
Proof.
  intros Hm st w. destruct (Hm st w) as [evs [Hrun _]].
  now rewrite Hrun.
Qed.

Lemma Keeps_movingHour (rt : JsRuntime) (config : PluginConfig)
    (pos : Position) (heading sog : R) (currentHour : Z)
    (packages : list string) (all : AllHourly) (hour : nat) :
  Keeps (movingHour rt config pos heading sog currentHour packages all hour).
Proof.
  unfold movingHour.
  apply Keeps_bind; [apply Keeps_buildMeteoblueUrl|intros url].
  apply Keeps_bind; [apply Keeps_fetch|intros response].
  destruct (negb (ok response)); [apply Keeps_throw|].
  apply Keeps_bind; [apply Keeps_json|intros data].
  apply Keeps_bind; [apply Keeps_getClock|intros now].
  apply Keeps_bind; [|intros _; apply Keeps_ret].
  destruct (_ <? _)%Z; [apply Keeps_delay|apply Keeps_ret].
Qed.

Lemma RecordsCycle_bind {A B : Type} (pos : Position) (m : M A)
    (k : A -> M B) :
  Keeps m -> (forall a, RecordsCycle pos (k a)) -> RecordsCycle pos (bind m k).
Proof.
  intros Hm Hk st w. unfold bind. specialize (Hm st w).
  destruct (m st w) as [a st1 w1|msg st1 w1]; [|exact Hm].
  subst st1. apply Hk.
Qed.

Lemma RecordsCycle_throw {A : Type} (pos : Position) (msg : string) :
  RecordsCycle pos (@throw A msg).
Proof. intros st w. reflexivity. Qed.

Lemma Publishes_hourly_packages (rt : JsRuntime) (now : Z)
    (data : MeteoblueResponse) (config : PluginConfig) :
  Publishes
    (match data_1h data with
     | Some _ =>
         forEachM
           (fun packageName =>
              let packageType := replace "-1h" "" packageName in
              publishHourlyForecasts
                (processHourlyForecastForPackage rt now (data_1h data)
                   (maxForecastHours config) packageType)
                packageType)
           (filter (includes "-1h") (getEnabledPackages config))
     | None => ret tt
     end).
Proof.
  destruct (data_1h data); [|apply Publishes_ret].
  apply Publishes_forEachM. intros x. apply Publishes_publishHourly.
Qed.

Lemma Publishes_daily_packages (rt : JsRuntime) (data : MeteoblueResponse)
    (config : PluginConfig) :
  Publishes
    (match data_day data with
     | Some _ =>
         forEachM
           (fun packageName =>
              let packageType := replace "-day" "" packageName in
              publishDailyForecasts rt
                (processDailyForecastForPackage rt (data_day data)
                   (maxForecastDays config) packageType)
                packageType)
           (filter (includes "-day") (getEnabledPackages config))
     | None => ret tt
     end).
Proof.
  destruct (data_day data); [|apply Publishes_ret].
  apply Publishes_forEachM. intros x. apply Publishes_publishDaily.
Qed.

Lemma RecordsCycle_fetchForecastBody (rt : JsRuntime) (pos : Position)
    (config : PluginConfig) :
  RecordsCycle pos (fetchForecastBody rt (Some pos) config).
Proof.
  unfold fetchForecastBody.
  intros st0 w0. rewrite bind_ret. revert st0 w0.
  apply RecordsCycle_bind; [apply Keeps_buildMeteoblueUrl|intros url].
  apply RecordsCycle_bind; [apply Keeps_fetch|intros response].
  destruct (negb (ok response)); [apply RecordsCycle_throw|].
  apply RecordsCycle_bind; [apply Keeps_json|intros data].
  apply RecordsCycle_bind; [apply Keeps_getClock|intros now].
  apply RecordsCycle_bind; [apply Keeps_tell|intros _].
  apply RecordsCycle_bind;
    [apply Keeps_Publishes, Publishes_hourly_packages|intros _].
  apply RecordsCycle_bind;
    [apply Keeps_Publishes, Publishes_daily_packages|intros _].
  intros st w. reflexivity.
Qed.

Lemma RecordsCycle_movingBody (rt : JsRuntime) (config : PluginConfig)
    (pos : Position) (heading sog : R) :
  RecordsCycle pos (movingBody rt config pos heading sog).
Proof.
  unfold movingBody.
  apply RecordsCycle_bind; [apply Keeps_getClock|intros now].
  apply RecordsCycle_bind;
    [apply Keeps_foldM; intros s a; apply Keeps_movingHour|intros all].
  apply RecordsCycle_bind.
  { apply Keeps_Publishes, Publishes_forEachM. intros [packageType forecasts].
    destruct forecasts; [apply Publishes_ret|apply Publishes_publishHourly]. }
  intros _.
  apply RecordsCycle_bind; [apply Keeps_buildMeteoblueUrl|intros dailyUrl].
  apply RecordsCycle_bind; [apply Keeps_fetch|intros dailyResponse].
  apply RecordsCycle_bind.
  { destruct (ok dailyResponse); [|apply Keeps_ret].
    apply Keeps_bind; [apply Keeps_json|intros dailyData].
    apply Keeps_Publishes, Publishes_daily_packages. }
  intros _ st w. reflexivity.
Qed.

(** After [fetchForecast] the session state is the old one with the time of
    the cycle's end in [lastForecastUpdate] and, if the cycle succeeded, the
    requested position in [currentPosition]. *)
Lemma fetchForecast_state (rt : JsRuntime) (pos : Position)
    (config : PluginConfig) (st st' : PluginState) (w w' : World) :
  meteoblueApiKey config <> ""%string ->
  fetchForecast rt (Some pos) config st w = Returned tt st' w' ->
  st' = set_currentPosition (Some pos)
          (set_lastForecastUpdate (w_clock w') st) \/
  st' = set_lastForecastUpdate (w_clock w') st.
Proof.
  intros Hkey. unfold fetchForecast.
  destruct (String.eqb_spec (meteoblueApiKey config) "") as [E|_];
    [contradiction|].
  pose proof (RecordsCycle_fetchForecastBody rt pos config st w) as Hbody.
  destruct (fetchForecastBody rt (Some pos) config st w)
    as [[] st1 w1|msg st1 w1].
  - intros H. inversion H; subst. now left.
  - subst st1. cbv [bind tell getClock modify emit w_clock]. intros H.
    inversion H; subst. now right.
Qed.

Lemma moving_state (rt : JsRuntime) (pos : Position) (config : PluginConfig)
    (st st' : PluginState) (w w' : World) :
  meteoblueApiKey config <> ""%string ->
  currentPosition st = Some pos ->
  fetchForecastForMovingVessel rt config st w = Returned tt st' w' ->
  st' = set_currentPosition (Some pos)
          (set_lastForecastUpdate (w_clock w') st) \/
  st' = set_lastForecastUpdate (w_clock w') st.
Proof.
  intros Hkey Hpos. unfold fetchForecastForMovingVessel. rewrite Hpos.
  destruct (currentHeading st) as [heading|];
    [|now apply fetchForecast_state].
  destruct (currentSOG st) as [sog|]; [|now apply fetchForecast_state].
  destruct (_ || _); [now apply fetchForecast_state|].
  pose proof (RecordsCycle_movingBody rt config pos heading sog st w) as Hbody.
  destruct (movingBody rt config pos heading sog st w)
    as [[] st1 w1|msg st1 w1].
  - intros H. inversion H; subst. now left.
  - subst st1. unfold bind at 1. unfold tell at 1.
    unfold bind at 1. unfold getState at 1. rewrite Hpos.
    intros H. apply fetchForecast_state in H; [|exact Hkey].
    exact H.
Qed.

Lemma shouldUpdateForecast_quiet (st : PluginState) (now : Z)
    (last pos : Position) :
  currentPosition st = Some last ->
  lastForecastUpdate st <> 0%Z ->
  IZR (now - lastForecastUpdate st) < intervalMinutes st * 60 * 1000 ->
  haversineDistance last pos <= 9260 ->
  shouldUpdateForecast st now pos = false.
Proof.
  unfold shouldUpdateForecast, intervalMinutes, haversineDistance.
  intros -> Hlast Htime Hdist.
  destruct (Z.eqb_spec (lastForecastUpdate st) 0) as [E|_]; [contradiction|].
  destruct (Rle_dec _ _) as [Hle|_]; [lra|].
  cbv zeta. destruct (Rlt_dec _ _) as [Hlt|_]; [lra|reflexivity].
Qed.

(** X6: a cycle never re-triggers itself.  After a stationary cycle for
    [pos], or a moving cycle of a vessel stored at [pos], whether the cycle
    succeeded or failed in any way, the update trigger stays off for a new
    fix at [pos] until the configured interval has passed since the end of
    the cycle (the stored position being no more than 5 nautical miles from
    [pos] when the cycle began). *)
Theorem finished_cycle_quiets_trigger
    (rt : JsRuntime) (config : PluginConfig) (st st' : PluginState)
    (w w' : World) (last pos : Position) (now : Z) :
  meteoblueApiKey config <> ""%string ->
  currentPosition st = Some last ->
  haversineDistance last pos <= 9260 ->
  fetchForecast rt (Some pos) config st w = Returned tt st' w' \/
  (last = pos /\
   fetchForecastForMovingVessel rt config st w = Returned tt st' w') ->
  w_clock w' <> 0%Z ->
  IZR (now - w_clock w') < intervalMinutes st * 60 * 1000 ->
  shouldUpdateForecast st' now pos = false.
Proof.
  intros Hkey Hlast Hdist Hrun Hclock Htime.
  assert (Hst : st' = set_currentPosition (Some pos)
                        (set_lastForecastUpdate (w_clock w') st) \/
                st' = set_lastForecastUpdate (w_clock w') st).
  { destruct Hrun as [Hrun|[-> Hrun]].
    - now apply (fetchForecast_state rt pos config st st' w w').
    - now apply (moving_state rt pos config st st' w w'). }
  destruct Hst as [-> | ->].
  - apply (shouldUpdateForecast_quiet _ now pos pos);
      [reflexivity|exact Hclock|exact Htime|].
    rewrite haversineDistance_same. lra.
  - apply (shouldUpdateForecast_quiet _ now last pos);
      [exact Hlast|exact Hclock|exact Htime|exact Hdist].
Qed.

Lemma finished_cycle_quiets_trigger_witness :
  shouldUpdateForecast
    (set_lastForecastUpdate (sampleNow + 250)%Z sampleState)
    (sampleNow + 60000) samplePosition = false.
Proof.
  apply (finished_cycle_quiets_trigger utc sampleConfig sampleState
           (set_lastForecastUpdate (sampleNow + 250)%Z sampleState)
           (sampleWorld [serverErrorReply])
           (extend
              (afterFetch (meteoblueUrl utc 41 (-72) sampleConfig)
                 serverErrorReply [] (sampleWorld [serverErrorReply]))
              [EvError "Failed to fetch forecast: HTTP 503: Service Unavailable";
               EvStatus "Error: HTTP 503: Service Unavailable"])
           samplePosition samplePosition (sampleNow + 60000)).
  - discriminate.
  - reflexivity.
  - rewrite haversineDistance_same. lra.
  - left. reflexivity.
  - discriminate.
  - unfold intervalMinutes, sampleState, sampleConfig, sampleNow; simpl. lra.
Defined.

(** ** The trace of a successful stationary cycle *)

Lemma forEachM_events {A : Type} (f : A -> M unit) (g : A -> list Event)
    (st : PluginState) (l : list A) :
  (forall x w, f x st w = Returned tt st (extend w (g x))) ->
  forall w, forEachM f l st w = Returned tt st (extend w (flat_map g l)).
Proof.
  intros Hf. induction l as [|x l IH]; intros w; simpl.
  - now rewrite extend_nil.
  - unfold bind. rewrite Hf, IH, extend_extend. reflexivity.
Qed.

Lemma flat_map_single {A B : Type} (h : A -> B) (l : list A) :
  flat_map (fun x => [h x]) l = map h l.
Proof. induction l as [|x l IH]; simpl; [reflexivity|now rewrite IH]. Qed.

Lemma publishHourly_events (forecasts : list Obj) (packageType : string)
    (st : PluginState) (w : World) :
  publishHourlyForecasts forecasts packageType st w =
    Returned tt st (extend w (hourlyDeltas st packageType forecasts)).
Proof.
  unfold publishHourlyForecasts, hourlyDeltas.
  rewrite <- flat_map_single. apply forEachM_events.
  intros [index forecast] w0. reflexivity.
Qed.

Lemma publishDaily_events (rt : JsRuntime) (forecasts : list Obj)
    (packageType : string) (st : PluginState) (w : World) :
  publishDailyForecasts rt forecasts packageType st w =
    Returned tt st
      (extend w (dailyDeltas rt st (w_clock w) packageType forecasts)).
Proof.
  unfold publishDailyForecasts, dailyDeltas.
  rewrite <- flat_map_single.
  generalize (combine (seq 0 (List.length forecasts)) forecasts) as l.
  intros l. revert w. induction l as [|[index forecast] l IH]; intros w; simpl.
  - now rewrite extend_nil.
  - unfold bind at 1. unfold bind at 1. unfold getState at 1.
    unfold bind at 1. unfold getClock at 1. unfold tell at 1.
    rewrite IH, emit_extend, extend_extend. reflexivity.
Qed.

Lemma filter_position_values {A : Type} (path : A -> string)
    (value : A -> JsValue) (l : list A) :
  filter (fun pv : string * DeltaValue =>
            match snd pv with DPosition _ _ => true | DVal _ => false end)
         (map (fun kv => (path kv, DVal (value kv))) l) = [].
Proof. induction l as [|kv l IH]; simpl; [reflexivity|exact IH]. Qed.

(** A record without predicted coordinates is published with the stored
    position, or with none if none is stored. *)
Lemma forecastDelta_position (granularity skipped : string)
    (st : PluginState) (label : string) (stamp : JsValue) (index : nat)
    (forecast : Obj) :
  obj_get "predictedLatitude" forecast = JUndefined ->
  obj_get "predictedLongitude" forecast = JUndefined ->
  positionOf (forecastDelta granularity skipped st label stamp index forecast)
  = match currentPosition st with
    | Some p => Some (JNum (latitude p), JNum (longitude p))
    | None => None
    end.
Proof.
  intros Hlat Hlon. unfold forecastDelta, positionOf.
  rewrite Hlat, Hlon. cbv zeta. unfold js_or. simpl truthy. cbv iota.
  destruct (currentPosition st) as [p|].
  - change (negb (is_undefined (JNum (latitude p))) &&
            negb (is_undefined (JNum (longitude p)))) with true.
    cbv iota. unfold List.app at 1.
    rewrite filter_app, filter_position_values. reflexivity.
  - change (negb (is_undefined JUndefined) && negb (is_undefined JUndefined))
      with false.
    cbv iota. now rewrite filter_position_values.
Qed.

Lemma no_predicted_field_hourly (packageType : string) :
  ~ In "predictedLatitude"%string (getHourlyPackageFields packageType) /\
  ~ In "predictedLongitude"%string (getHourlyPackageFields packageType).
Proof.
  split; apply not_In_existsb; unfold getHourlyPackageFields;
    repeat match goal with
           | |- context [if ?c then _ else _] => destruct c
           end; reflexivity.
Qed.

Lemma no_predicted_field_daily (packageType : string) :
  ~ In "predictedLatitude"%string (getDailyPackageFields packageType) /\
  ~ In "predictedLongitude"%string (getDailyPackageFields packageType).
Proof.
  split; apply not_In_existsb; unfold getDailyPackageFields;
    repeat match goal with
           | |- context [if ?c then _ else _] => destruct c
           end; reflexivity.
Qed.

Lemma processed_hourly_unpredicted (rt : JsRuntime) (now : Z)
    (data : option Frame) (maxHours : Z) (packageType : string)
    (forecast : Obj) :
  In forecast
     (processHourlyForecastForPackage rt now data maxHours packageType) ->
  obj_get "predictedLatitude" forecast = JUndefined /\
  obj_get "predictedLongitude" forecast = JUndefined.
Proof.
  intros Hin. apply hourly_records in Hin.
  destruct Hin as [d [i [stamp [_ ->]]]]. unfold hourlyRecord.
  destruct (no_predicted_field_hourly packageType) as [Hlat Hlon].
  split; (rewrite fold_extract_get_other;
          [reflexivity|assumption|apply not_In_existsb; reflexivity]).
Qed.

Lemma processed_daily_unpredicted (rt : JsRuntime) (data : option Frame)
    (maxDays : Z) (packageType : string) (forecast : Obj) :
  In forecast (processDailyForecastForPackage rt data maxDays packageType) ->
  obj_get "predictedLatitude" forecast = JUndefined /\
  obj_get "predictedLongitude" forecast = JUndefined.
Proof.
  intros Hin. apply daily_records in Hin.
  destruct Hin as [d [i [stamp [_ ->]]]]. unfold dailyRecord.
  destruct (no_predicted_field_daily packageType) as [Hlat Hlon].
  split; (rewrite fold_extract_get_other;
          [reflexivity|assumption|apply not_In_existsb; reflexivity]).
Qed.

Lemma stationaryDeltas_position (rt : JsRuntime) (config : PluginConfig)
    (st : PluginState) (now : Z) (data : MeteoblueResponse) (e : Event) :
  In e (stationaryDeltas rt config st now data) ->
  positionOf e = match currentPosition st with
                 | Some p => Some (JNum (latitude p), JNum (longitude p))
                 | None => None
                 end.
Proof.
  unfold stationaryDeltas. intros Hin. apply in_app_or in Hin.
  destruct Hin as [Hin|Hin].
  - destruct (data_1h data) as [d|]; [|contradiction].
    apply in_flat_map in Hin. destruct Hin as [packageName [_ Hin]].
    unfold hourlyDeltas in Hin. apply in_map_iff in Hin.
    destruct Hin as [[index forecast] [<- Hin]]. apply in_combine_r in Hin.
    apply processed_hourly_unpredicted in Hin. destruct Hin as [Hlat Hlon].
    now apply forecastDelta_position.
  - destruct (data_day data) as [d|]; [|contradiction].
    apply in_flat_map in Hin. destruct Hin as [packageName [_ Hin]].
    unfold dailyDeltas in Hin. apply in_map_iff in Hin.
    destruct Hin as [[index forecast] [<- Hin]]. apply in_combine_r in Hin.
    apply processed_daily_unpredicted in Hin. destruct Hin as [Hlat Hlon].
    now apply forecastDelta_position.
Qed.

Lemma fetchForecastBody_trace (rt : JsRuntime) (pos : Position)
    (config : PluginConfig) (st : PluginState) (w : World)
    (reply : FetchReply) (rest : list FetchReply)
    (response : HttpResponse) (data : MeteoblueResponse) :
  getEnabledPackages config <> [] ->
  w_net w = reply :: rest ->
  result reply = Http response -> ok response = true ->
  body response = Some data ->
  let now := (w_clock w + elapsed reply)%Z in
  fetchForecastBody rt (Some pos) config st w =
    Returned tt
      (set_currentPosition (Some pos) (set_lastForecastUpdate now st))
      (extend (afterFetch (stationaryUrl rt config pos) reply rest w)
         (metadataDelta rt now data ::
          stationaryDeltas rt config st now data ++
          [EvStatus ("Last updated: " ++ Date_toLocaleString rt now)])).
Proof.
  intros Hpk Hnet Hres Hok Hbody now.
  unfold fetchForecastBody. rewrite bind_ret.
  unfold bind at 1. rewrite buildMeteoblueUrl_ok by exact Hpk.
  unfold ret at 1. unfold bind at 1.
  rewrite (fetch_reply _ st w reply rest Hnet), Hres, Hok.
  change (negb true) with false. cbv iota.
  unfold json. rewrite Hbody. rewrite bind_ret.
  unfold bind at 1. unfold getClock at 1.
  unfold bind at 1. unfold tell at 1.
  set (w1 := emit _ _).
  assert (Hclock : w_clock w1 = now) by reflexivity.
  rewrite (bind_returned _ _ tt st st w1
             (extend w1
                (match data_1h data with
                 | Some _ =>
                     flat_map
                       (fun packageName =>
                          let packageType := replace "-1h" "" packageName in
                          hourlyDeltas st packageType
                            (processHourlyForecastForPackage rt now
                               (data_1h data) (maxForecastHours config)
                               packageType))
                       (filter (includes "-1h") (getEnabledPackages config))
                 | None => []
                 end))).
  2:{ destruct (data_1h data); [|now rewrite extend_nil].
      apply forEachM_events. intros x w0. apply publishHourly_events. }
  set (w2 := extend w1 _).
  rewrite (bind_returned _ _ tt st st w2
             (extend w2
                (match data_day data with
                 | Some _ =>
                     flat_map
                       (fun packageName =>
                          let packageType := replace "-day" "" packageName in
                          dailyDeltas rt st now packageType
                            (processDailyForecastForPackage rt (data_day data)
                               (maxForecastDays config) packageType))
                       (filter (includes "-day") (getEnabledPackages config))
                 | None => []
                 end))).
  2:{ destruct (data_day data); [|now rewrite extend_nil].
      change now with (w_clock w2). generalize w2. intros w0. revert w0.
      induction (filter (includes "-day") (getEnabledPackages config))
        as [|x l IH]; intros w0; simpl.
      - now rewrite extend_nil.
      - unfold bind. rewrite publishDaily_events.
        rewrite IH. rewrite extend_extend. reflexivity. }
  unfold stationaryDeltas, metadataDelta, stationaryUrl.
  cbv [bind getClock modify tell].
  unfold w2, w1. rewrite !emit_extend, !extend_extend.
  reflexivity.
Qed.

(** X7: the trace of a successful stationary cycle.  One request goes to the
    requested position.  When its reply is ok and parses, and the series it
    holds have their time arrays (a series without one makes the processor
    log an error, which the processors of this development leave out), the
    cycle publishes the metadata delta, then one delta per processed record
    for each enabled hourly package and then each enabled daily package,
    then the status, and stores the requested position and the time.  Every
    forecast delta carries as [forecastPosition] the position that was
    stored before the cycle began, not the position the forecast was
    requested for (none at all if no position was stored): the state is
    updated only after publishing. *)
Theorem stationary_cycle_trace
    (rt : JsRuntime) (pos : Position) (config : PluginConfig)
    (st : PluginState) (w : World) (reply : FetchReply)
    (rest : list FetchReply) (response : HttpResponse)
    (data : MeteoblueResponse) :
  meteoblueApiKey config <> ""%string ->
  getEnabledPackages config <> [] ->
  w_net w = reply :: rest ->
  result reply = Http response -> ok response = true ->
  body response = Some data ->
  (forall d, data_1h data = Some d -> fr_time d <> None) ->
  (forall d, data_day data = Some d -> fr_time d <> None) ->
  let now := (w_clock w + elapsed reply)%Z in
  let deltas := stationaryDeltas rt config st now data in
  fetchForecast rt (Some pos) config st w =
    Returned tt
      (set_currentPosition (Some pos) (set_lastForecastUpdate now st))
      (extend (afterFetch (stationaryUrl rt config pos) reply rest w)
         (metadataDelta rt now data :: deltas ++
          [EvStatus ("Last updated: " ++ Date_toLocaleString rt now)])) /\
  (forall last, currentPosition st = Some last ->
     Forall (positionedAt last) deltas) /\
  (currentPosition st = None ->
     Forall (fun e => positionOf e = None) deltas).
Proof.
  intros Hkey Hpk Hnet Hres Hok Hbody _ _ now deltas.
  split; [|split].
  - unfold fetchForecast.
    destruct (String.eqb_spec (meteoblueApiKey config) "") as [E|_];
      [contradiction|].
    now rewrite (fetchForecastBody_trace rt pos config st w reply rest
                   response data Hpk Hnet Hres Hok Hbody).
  - intros last Hlast. apply Forall_forall. intros e He.
    unfold positionedAt.
    rewrite (stationaryDeltas_position rt config st now data e He).
    now rewrite Hlast.
  - intros Hnone. apply Forall_forall. intros e He.
    rewrite (stationaryDeltas_position rt config st now data e He).
    now rewrite Hnone.
Qed.

Lemma stationary_cycle_trace_witness :
  let now := (sampleNow + 250)%Z in
  let deltas := stationaryDeltas utc sampleConfig sampleState now
                  midnightResponse in
  fetchForecast utc (Some northPosition) sampleConfig sampleState
    (sampleWorld [okReply midnightResponse]) =
    Returned tt
      (set_currentPosition (Some northPosition)
         (set_lastForecastUpdate now sampleState))
      (extend
         (afterFetch (stationaryUrl utc sampleConfig northPosition)
            (okReply midnightResponse) []
            (sampleWorld [okReply midnightResponse]))
         (metadataDelta utc now midnightResponse :: deltas ++
          [EvStatus ("Last updated: " ++ Date_toLocaleString utc now)])) /\
  (forall last, currentPosition sampleState = Some last ->
     Forall (positionedAt last) deltas) /\
  (currentPosition sampleState = None ->
     Forall (fun e => positionOf e = None) deltas).
Proof.
  apply (stationary_cycle_trace utc northPosition sampleConfig sampleState
           (sampleWorld [okReply midnightResponse])
           (okReply midnightResponse) []
           {| ok := true; status := 200; statusText := "OK";
              body := Some midnightResponse |}
           midnightResponse).
  - discriminate.
  - discriminate.
  - reflexivity.
  - reflexivity.
  - reflexivity.
  - reflexivity.
  - intros d H. injection H as <-. discriminate.
  - intros d H. discriminate.
Defined.

(** ** The trace of a successful moving cycle *)

Section HourLoopGood.

Variables (rt : JsRuntime) (config : PluginConfig) (pos : Position)
          (heading sog : R) (currentHour : Z)
          (enabledHourlyPackages : list string).

Hypothesis packages_enabled : getEnabledPackages config <> [].


End HourLoopGood.



(** ** The record picked for a target hour *)

(** X9: a target hour of the moving cycle gets a record exactly when a row
    of the processed window falls in the calendar hour of the target time.
    The window is the rows from the start index on, at most
    [totalHoursNeeded] of them; rows of the series beyond it are never
    looked at. *)
Theorem target_found_iff_in_window
    (rt : JsRuntime) (now : Z) (d : Frame) (time : list string)
    (totalHoursNeeded targetTime : Z) (predictedPos : Position)
    (packageType : string) :
  fr_time d = Some time ->
  let start := hourlyStartIndex rt now time in
  (exists hourForecast,
     targetForecastFor rt now (Some d) totalHoursNeeded targetTime
       predictedPos packageType = Some hourForecast) <->
  (exists k t,
     (Z.of_nat k <
      Z.min (Z.of_nat (List.length time) - Z.of_nat start) totalHoursNeeded)%Z
     /\ Date_parse rt (nth (start + k) time "") = Some t
     /\ sameCalendarHour rt t targetTime = true).
Proof.
  intros Htime start. split.
  - intros [hourForecast Hfound].
    apply target_forecast_matches in Hfound.
    destruct Hfound as [targetForecast [Hin [Hmatch _]]].
    unfold processHourlyForecastForPackage in Hin. rewrite Htime in Hin.
    cbv zeta in Hin. apply in_map_iff in Hin.
    destruct Hin as [k [<- Hk]]. apply in_seq in Hk.
    unfold matchesTargetTime in Hmatch.
    rewrite hourlyRecord_timestamp in Hmatch.
    fold start in Hmatch.
    destruct (Date_parse rt (nth (start + k) time "")) as [t|] eqn:Hparse;
      [|discriminate].
    exists k, t. fold start in Hk. split; [lia|]. split; [exact Hparse|exact Hmatch].
  - intros [k [t [Hk [Hparse Hsame]]]].
    unfold targetForecastFor.
    destruct (find _ _) as [targetForecast|] eqn:Hfind; [eauto|].
    exfalso.
    assert (Hrow : matchesTargetTime rt targetTime
                     (hourlyRecord rt d now
                        (getHourlyPackageFields packageType) (start + k)
                        (nth (start + k) time "")) = false).
    { apply (find_none _ _ Hfind).
      unfold processHourlyForecastForPackage. rewrite Htime. cbv zeta.
      apply in_map_iff. exists k. split; [reflexivity|].
      apply in_seq. fold start. lia. }
    unfold matchesTargetTime in Hrow.
    rewrite hourlyRecord_timestamp, Hparse, Hsame in Hrow. discriminate.
Qed.

Lemma target_found_iff_in_window_witness :
  let start := hourlyStartIndex utc sampleNow midnightSeries in
  (exists hourForecast,
     targetForecastFor utc sampleNow (Some midnightFrame) 9
       (currentHourOf utc sampleNow + 20 * 3600000) samplePosition "basic"
     = Some hourForecast) <->
  (exists k t,
     (Z.of_nat k <
      Z.min (Z.of_nat (List.length midnightSeries) - Z.of_nat start) 9)%Z
     /\ Date_parse utc (nth (start + k) midnightSeries "") = Some t
     /\ sameCalendarHour utc t
          (currentHourOf utc sampleNow + 20 * 3600000) = true).
Proof.
  apply (target_found_iff_in_window utc sampleNow midnightFrame
           midnightSeries 9 (currentHourOf utc sampleNow + 20 * 3600000)
           samplePosition "basic").
  reflexivity.
Defined.

Lemma truthy_number (x : R) :
  js_or (JNum x) (JNum 0) = JNum x.
Proof.
  unfold js_or, truthy. destruct (Req_dec_T x 0) as [->|_]; reflexivity.
Qed.

(** X10: the position published with a record of the moving cycle.  The
    record carries the predicted coordinates, and each coordinate is
    published unless it is exactly 0, in which case the stored position's
    coordinate is published in its place (the [||] of the source takes 0
    for missing): a prediction on the equator or on the Greenwich meridian
    is published with the vessel's own latitude or longitude. *)
Theorem moving_record_position
    (rt : JsRuntime) (now : Z) (data : option Frame)
    (totalHoursNeeded targetTime : Z) (predictedPos cur : Position)
    (packageType : string) (hourForecast : Obj) (st : PluginState)
    (index : nat) :
  targetForecastFor rt now data totalHoursNeeded targetTime predictedPos
    packageType = Some hourForecast ->
  currentPosition st = Some cur ->
  positionOf
    (forecastDelta "hourly" "timestamp" st (getSourceLabel packageType)
       (obj_get "timestamp" hourForecast) index hourForecast)
  = Some
      (JNum (if Req_dec_T (latitude predictedPos) 0
             then latitude cur else latitude predictedPos),
       JNum (if Req_dec_T (longitude predictedPos) 0
             then longitude cur else longitude predictedPos)).
Proof.
  intros Hfound Hcur. apply target_forecast_matches in Hfound.
  destruct Hfound as [targetForecast [_ [_ ->]]].
  unfold forecastDelta, positionOf. cbv zeta. rewrite Hcur.
  rewrite (obj_get_set_other "vesselMoving" "predictedLatitude")
    by discriminate.
  rewrite (obj_get_set_other "predictedLongitude" "predictedLatitude")
    by discriminate.
  rewrite obj_get_set_same.
  rewrite (obj_get_set_other "vesselMoving" "predictedLongitude")
    by discriminate.
  rewrite obj_get_set_same.
  unfold js_or, truthy.
  destruct (Req_dec_T (latitude predictedPos) 0),
    (Req_dec_T (longitude predictedPos) 0);
    cbn [is_undefined negb andb]; unfold List.app at 1;
    rewrite filter_app, filter_position_values; reflexivity.
Qed.

Lemma moving_record_position_witness :
  positionOf
    (forecastDelta "hourly" "timestamp" sampleState (getSourceLabel "basic")
       (obj_get "timestamp" noonForecast) 0 noonForecast)
  = Some
      (JNum (if Req_dec_T (latitude equatorPrediction) 0
             then latitude samplePosition else latitude equatorPrediction),
       JNum (if Req_dec_T (longitude equatorPrediction) 0
             then longitude samplePosition
             else longitude equatorPrediction)).
Proof.
  apply (moving_record_position utc sampleNow (Some midnightFrame) 9
           noonTarget equatorPrediction samplePosition "basic" noonForecast
           sampleState 0).
  - unfold noonForecast.
    destruct (targetForecastFor utc sampleNow (Some midnightFrame) 9
                noonTarget equatorPrediction "basic") eqn:E;
      [reflexivity|].
    vm_compute in E. discriminate.
  - reflexivity.
Defined.

(** ** What a processed record holds *)

Lemma convertField_get_same (rt : JsRuntime) (field : string) (value : R)
    (o : Obj) :
  obj_get field (convertField rt field value o) =
  obj_get field (convertField rt field value []).
Proof.
  unfold convertField.
  repeat match goal with
         | |- context [if ?c then _ else _] =>
             destruct c eqn:?; [now rewrite !obj_get_set_same|]
         end.
  destruct (String.eqb_spec field "douglas_seastate") as [->|_].
  - rewrite !(obj_get_set_other "douglas_seastate_verbose" "douglas_seastate")
      by discriminate.
    rewrite !(obj_get_set_other "douglas_seastate_description"
                "douglas_seastate") by discriminate.
    now rewrite !obj_get_set_same.
  - now rewrite !obj_get_set_same.
Qed.

Lemma extractField_get_other (rt : JsRuntime) (data : Frame) (i : nat)
    (o : Obj) (f field : string) :
  field <> f -> ~ In field seaStateDerived ->
  obj_get field (extractField rt data i o f) = obj_get field o.
Proof.
  intros Hne Hd. unfold extractField.
  destruct (frame_value data f i); [|reflexivity].
  now apply convertField_get_other.
Qed.

(** The value a record ends with for one of the extracted fields: the
    conversion of the frame's value at the row, or what was there before
    when the frame has none. *)
Lemma fold_extract_get_field (rt : JsRuntime) (data : Frame) (i : nat)
    (field : string) (fields : list string) :
  ~ In field seaStateDerived ->
  forall o, In field fields ->
    obj_get field (fold_left (extractField rt data i) fields o) =
    match frame_value data field i with
    | Some value => obj_get field (convertField rt field value [])
    | None => obj_get field o
    end.
Proof.
  intros Hd. induction fields as [|f rest IH]; intros o Hin; [contradiction|].
  cbn [fold_left].
  destruct (in_dec string_dec field rest) as [Hrest|Hrest].
  - rewrite (IH _ Hrest).
    destruct (frame_value data field i) as [value|] eqn:Hv; [reflexivity|].
    destruct (string_dec field f) as [<-|Hne].
    + unfold extractField. now rewrite Hv.
    + now apply extractField_get_other.
  - destruct Hin as [->|Hin]; [|contradiction].
    rewrite fold_extract_get_other by assumption.
    unfold extractField.
    destruct (frame_value data field i) as [value|]; [|reflexivity].
    apply convertField_get_same.
Qed.

Lemma nth_error_map_seq {A : Type} (f : nat -> A) (n i : nat) (x : A) :
  nth_error (map f (seq 0 n)) i = Some x -> x = f i /\ (i < n)%nat.
Proof.
  intros H.
  assert (Hlt : (i < n)%nat).
  { assert (Hl : (i < List.length (map f (seq 0 n)))%nat)
      by (apply nth_error_Some; rewrite H; discriminate).
    now rewrite length_map, length_seq in Hl. }
  split; [|exact Hlt].
  apply (nth_error_nth _ _ x) in H. rewrite <- H at 1.
  now apply nth_map_seq.
Qed.

Lemma hourly_fields_plain (packageType field : string) :
  In field (getHourlyPackageFields packageType) ->
  ~ In field seaStateDerived /\ ~ In field hourlyHeader.
Proof.
  intros Hin.
  assert (H : forallb
                (fun f => negb (existsb (String.eqb f)
                                  (seaStateDerived ++ hourlyHeader)))
                (getHourlyPackageFields packageType) = true).
  { unfold getHourlyPackageFields.
    repeat match goal with
           | |- context [if ?c then _ else _] => destruct c
           end; reflexivity. }
  rewrite forallb_forall in H. specialize (H field Hin).
  apply negb_true_iff, not_In_existsb in H.
  split; intros Hbad; apply H, in_or_app; auto.
Qed.

Lemma daily_fields_plain (packageType field : string) :
  In field (getDailyPackageFields packageType) ->
  ~ In field seaStateDerived /\ ~ In field dailyHeader.
Proof.
  intros Hin.
  assert (H : forallb
                (fun f => negb (existsb (String.eqb f)
                                  (seaStateDerived ++ dailyHeader)))
                (getDailyPackageFields packageType) = true).
  { unfold getDailyPackageFields.
    repeat match goal with
           | |- context [if ?c then _ else _] => destruct c
           end; reflexivity. }
  rewrite forallb_forall in H. specialize (H field Hin).
  apply negb_true_iff, not_In_existsb in H.
  split; intros Hbad; apply H, in_or_app; auto.
Qed.

(** X11: what a record holds for a field its package owns.  In the i-th
    hourly record the field has the conversion of the series value at row
    [start + i], in the i-th daily record that of row [i]; when the series
    has no such column, the column is too short or the value is null, the
    field is left out of the record (absent, not null, 0 or NaN). *)
Theorem record_field_values
    (rt : JsRuntime) (now : Z) (d : Frame) (time : list string)
    (maxHours maxDays : Z) (packageType field : string) (i : nat)
    (forecast : Obj) :
  fr_time d = Some time ->
  (nth_error
     (processHourlyForecastForPackage rt now (Some d) maxHours packageType) i
     = Some forecast ->
   In field (getHourlyPackageFields packageType) ->
   obj_get field forecast =
     match frame_value d field (hourlyStartIndex rt now time + i) with
     | Some value => obj_get field (convertField rt field value [])
     | None => JUndefined
     end) /\
  (nth_error (processDailyForecastForPackage rt (Some d) maxDays packageType) i
     = Some forecast ->
   In field (getDailyPackageFields packageType) ->
   obj_get field forecast =
     match frame_value d field i with
     | Some value => obj_get field (convertField rt field value [])
     | None => JUndefined
     end).
Proof.
  intros Htime. split; intros Hnth Hin.
  - unfold processHourlyForecastForPackage in Hnth. rewrite Htime in Hnth.
    apply nth_error_map_seq in Hnth. destruct Hnth as [-> _].
    destruct (hourly_fields_plain packageType field Hin) as [Hd Hh].
    unfold hourlyRecord.
    rewrite (fold_extract_get_field rt d _ field _ Hd _ Hin).
    destruct (frame_value d field _); [reflexivity|].
    apply obj_get_absent. exact Hh.
  - unfold processDailyForecastForPackage in Hnth. rewrite Htime in Hnth.
    apply nth_error_map_seq in Hnth. destruct Hnth as [-> _].
    destruct (daily_fields_plain packageType field Hin) as [Hd Hh].
    unfold dailyRecord.
    rewrite (fold_extract_get_field rt d _ field _ Hd _ Hin).
    destruct (frame_value d field _); [reflexivity|].
    apply obj_get_absent. exact Hh.
Qed.

Lemma record_field_values_witness :
  let time := ["2024-01-15 10:00"; "2024-01-15 11:00"; "2024-01-15 12:00"]%string in
  let hourly :=
    nth 1 (processHourlyForecastForPackage utc sampleNow (Some mixedFrame) 72
             "basic") [] in
  let day :=
    nth 1 (processDailyForecastForPackage utc (Some mixedFrame) 10 "basic")
        [] in
  obj_get "temperature" hourly =
    match frame_value mixedFrame "temperature"
            (hourlyStartIndex utc sampleNow time + 1) with
    | Some value => obj_get "temperature"
                      (convertField utc "temperature" value [])
    | None => JUndefined
    end /\
  obj_get "uvindex" day =
    match frame_value mixedFrame "uvindex" 1 with
    | Some value => obj_get "uvindex" (convertField utc "uvindex" value [])
    | None => JUndefined
    end.
Proof.
  intros time hourly day. split.
  - apply (proj1 (record_field_values utc sampleNow mixedFrame time 72 10
                    "basic" "temperature" 1 hourly eq_refl)).
    + reflexivity.
    + cbn. auto.
  - apply (proj2 (record_field_values utc sampleNow mixedFrame time 72 10
                    "basic" "uvindex" 1 day eq_refl)).
    + reflexivity.
    + cbn. auto 20.
Defined.

Lemma dayOfWeekOf_midnight (rt : JsRuntime) (stamp : string) (day : Z) :
  Date_parse rt stamp = Some (day * msPerDay)%Z ->
  dayOfWeekOf rt stamp =
    JStr (weekdayOf (day + tzOffset rt / msPerDay)).
Proof.
  intros Hparse. unfold dayOfWeekOf, getDay, localTime, weekdayOf.
  rewrite Hparse.
  assert (Hdiv : ((day * msPerDay + tzOffset rt) / msPerDay
                  = day + tzOffset rt / msPerDay)%Z).
  { rewrite (Z.add_comm (day * msPerDay)), Z.div_add by discriminate.
    apply Z.add_comm. }
  rewrite Hdiv.
  set (n := ((day + tzOffset rt / msPerDay + 4) mod 7)%Z).
  assert (Hn : (0 <= n < 7)%Z) by (apply Z.mod_pos_bound; lia).
  assert (Hcases : n = 0%Z \/ n = 1%Z \/ n = 2%Z \/ n = 3%Z \/ n = 4%Z \/
                   n = 5%Z \/ n = 6%Z) by lia.
  destruct Hcases as [->|[->|[->|[->|[->|[->| ->]]]]]]; reflexivity.
Qed.

(** X12: the daily series.  The daily processor emits the rows of the
    series from the first one on, whatever the clock says (days already
    past are not skipped), at most [maxDays] of them; the i-th record is
    dated with the i-th time stamp as the provider wrote it.  Its day of
    the week is read in local time from the instant the stamp parses to: a
    stamp read as midnight UTC of a day gets the weekday of that day in a
    zone at or east of UTC (less than a day ahead), and the weekday of the
    day before in a zone west of UTC (at most a day behind); a stamp that
    does not parse gets no weekday. *)
Theorem daily_series_from_first_row
    (rt : JsRuntime) (d : Frame) (time : list string) (maxDays : Z)
    (packageType : string) :
  fr_time d = Some time ->
  let out := processDailyForecastForPackage rt (Some d) maxDays packageType in
  List.length out = Z.to_nat (Z.min (Z.of_nat (List.length time)) maxDays) /\
  forall i, (i < List.length out)%nat ->
    obj_get "date" (nth i out []) = JStr (nth i time "") /\
    (forall day,
       Date_parse rt (nth i time "") = Some (day * msPerDay)%Z ->
       ((0 <= tzOffset rt < msPerDay)%Z ->
        obj_get "dayOfWeek" (nth i out []) = JStr (weekdayOf day)) /\
       ((- msPerDay <= tzOffset rt < 0)%Z ->
        obj_get "dayOfWeek" (nth i out []) = JStr (weekdayOf (day - 1)))) /\
    (Date_parse rt (nth i time "") = None ->
     obj_get "dayOfWeek" (nth i out []) = JUndefined).
Proof.
  intros Htime out. unfold out, processDailyForecastForPackage.
  rewrite Htime. cbv zeta. rewrite length_map, length_seq.
  split; [reflexivity|]. intros i Hi.
  rewrite nth_map_seq by exact Hi. unfold dailyRecord.
  assert (Hdate : ~ In "date"%string (getDailyPackageFields packageType)).
  { intros Hin. apply (proj2 (daily_fields_plain _ _ Hin)). simpl. auto. }
  assert (Hday : ~ In "dayOfWeek"%string (getDailyPackageFields packageType)).
  { intros Hin. apply (proj2 (daily_fields_plain _ _ Hin)). simpl. auto. }
  assert (Hweek :
    obj_get "dayOfWeek"
      (fold_left (extractField rt d i) (getDailyPackageFields packageType)
         [("date"%string, JStr (nth i time ""));
          ("dayOfWeek"%string, dayOfWeekOf rt (nth i time ""))])
    = dayOfWeekOf rt (nth i time ""))
    by (rewrite fold_extract_get_other;
        [reflexivity|assumption|apply not_In_existsb; reflexivity]).
  split; [|split].
  - rewrite fold_extract_get_other;
      [reflexivity|assumption|apply not_In_existsb; reflexivity].
  - intros day Hparse. rewrite Hweek.
    rewrite (dayOfWeekOf_midnight rt _ day Hparse). split; intros Htz.
    + replace (tzOffset rt / msPerDay)%Z with 0%Z
        by (symmetry; apply Z.div_small; exact Htz).
      now rewrite Z.add_0_r.
    + replace (tzOffset rt / msPerDay)%Z with (-1)%Z; [reflexivity|].
      unfold msPerDay in *.
      pose proof (Z.div_mod (tzOffset rt) 86400000 ltac:(discriminate)).
      pose proof (Z.mod_pos_bound (tzOffset rt) 86400000 ltac:(lia)).
      nia.
  - intros Hparse. rewrite Hweek. unfold dayOfWeekOf. now rewrite Hparse.
Qed.

Lemma daily_series_from_first_row_witness :
  obj_get "dayOfWeek"
    (nth 0 (processDailyForecastForPackage utc (Some dailyFrame) 10 "basic")
       []) = JStr "Monday" /\
  obj_get "dayOfWeek"
    (nth 0 (processDailyForecastForPackage westRuntime (Some dailyFrame) 10
              "basic") []) = JStr "Sunday".
Proof.
  split.
  - apply (proj1 (proj1 (proj2 (proj2 (daily_series_from_first_row utc
             dailyFrame ["2024-01-15"; "2024-01-16"]%string 10 "basic"
             eq_refl) 0%nat ltac:(simpl; lia))) 19737%Z eq_refl)).
    simpl. unfold msPerDay. lia.
  - apply (proj2 (proj1 (proj2 (proj2 (daily_series_from_first_row
             westRuntime dailyFrame ["2024-01-15"; "2024-01-16"]%string 10
             "basic" eq_refl) 0%nat ltac:(simpl; lia))) 19737%Z eq_refl)).
    simpl. unfold msPerDay. lia.
Defined.

(** ** The hour label of a record *)

(** X13: [relativeHour] is the distance of the row's time from the clock,
    rounded to the nearest hour, not the row's index.  For a row [h] whole
    hours after the hour the clock is in, with the clock [m] milliseconds
    into that hour, the label is [h] during the first half hour and [h - 1]
    after it: from half past on the row of the current hour is labelled
    -1 and no row is labelled with the last hour of the range. *)
Theorem relative_hour_label
    (rt : JsRuntime) (now m h : Z) (stamp : string) :
  (0 <= m < 3600000)%Z ->
  Date_parse rt stamp = Some (now - m + h * 3600000)%Z ->
  relativeHourOf rt now stamp =
    JNum (IZR (if (m <=? 1800000)%Z then h else h - 1)).
Proof.
  intros Hm Hparse. unfold relativeHourOf. rewrite Hparse.
  f_equal. f_equal.
  replace (now - m + h * 3600000 - now)%Z with (h * 3600000 - m)%Z by lia.
  rewrite minus_IZR, mult_IZR.
  assert (H0 : 0 <= IZR m) by (apply IZR_le; lia).
  assert (H1 : IZR m < 3600000) by (apply IZR_lt; lia).
  apply rounds_to.
  destruct (Z.leb_spec m 1800000) as [Hle|Hgt].
  - assert (H2 : IZR m <= 1800000) by (apply IZR_le; lia). lra.
  - assert (H2 : 1800000 < IZR m) by (apply IZR_lt; lia).
    rewrite minus_IZR. lra.
Qed.

Lemma relative_hour_label_witness :
  relativeHourOf utc sampleNow "2024-01-15 10:00" =
    JNum (IZR (if (1800000 <=? 1800000)%Z then 0 else 0 - 1)) /\
  relativeHourOf utc (sampleNow + 1) "2024-01-15 10:00" =
    JNum (IZR (if (1800001 <=? 1800000)%Z then 0 else 0 - 1)).
Proof.
  split.
  - apply (relative_hour_label utc sampleNow 1800000 0 "2024-01-15 10:00").
    + lia.
    + reflexivity.
  - apply (relative_hour_label utc (sampleNow + 1) 1800001 0
             "2024-01-15 10:00").
    + lia.
    + reflexivity.
Defined.

(** ** Derived fields of the reshaped record *)

(** X14: the pressure tendency of numeric trends.  With the two trend
    fields numbers or absent, the tendency is "increasing" for a positive
    trend, "decreasing" for a negative one and absent for a trend of 0 or
    no trend: a 0 is falsy, so the "steady" of the source is never produced
    from numbers. *)
Theorem pressure_tendency_of_numbers
    (rt : JsRuntime) (fd : Obj) (p s : option R) :
  obj_get "pressure_trend" fd = numberOrAbsent p ->
  obj_get "sealevelpressure_trend" fd = numberOrAbsent s ->
  pressureTendencyOf rt fd =
    match effectiveTrend p s with
    | Some x =>
        if Rlt_dec 0 x then JStr "increasing"
        else if Rlt_dec x 0 then JStr "decreasing"
        else JUndefined
    | None => JUndefined
    end /\
  pressureTendencyOf rt fd <> JStr "steady".
Proof.
  intros Hp Hs.
  assert (Heq : pressureTendencyOf rt fd =
    match effectiveTrend p s with
    | Some x =>
        if Rlt_dec 0 x then JStr "increasing"
        else if Rlt_dec x 0 then JStr "decreasing"
        else JUndefined
    | None => JUndefined
    end).
  { unfold pressureTendencyOf, effectiveTrend, js_or. rewrite Hp, Hs.
    assert (Hnum : forall o : option R,
      (if truthy (numberOrAbsent o)
       then if js_gt0 rt (numberOrAbsent o) then JStr "increasing"
            else if js_lt0 rt (numberOrAbsent o) then JStr "decreasing"
                 else JStr "steady"
       else JUndefined) =
      match o with
      | Some x =>
          if Rlt_dec 0 x then JStr "increasing"
          else if Rlt_dec x 0 then JStr "decreasing"
          else JUndefined
      | None => JUndefined
      end).
    { intros [x|]; [|reflexivity].
      unfold numberOrAbsent, truthy, js_gt0, js_lt0, ToNumber.
      destruct (Req_dec_T x 0) as [->|Hx].
      - destruct (Rlt_dec 0 0) as [H|_]; [lra|reflexivity].
      - destruct (Rlt_dec 0 x) as [_|Hn]; [reflexivity|].
        destruct (Rlt_dec x 0) as [_|Hm]; [reflexivity|lra]. }
    destruct p as [x|]; cbn [numberOrAbsent truthy].
    - destruct (Req_dec_T x 0) as [->|Hx].
      + apply Hnum.
      + apply (Hnum (Some x)).
    - apply Hnum. }
  split; [exact Heq|]. rewrite Heq.
  destruct (effectiveTrend p s) as [x|]; [|discriminate].
  destruct (Rlt_dec 0 x); [discriminate|].
  destruct (Rlt_dec x 0); discriminate.
Qed.

Lemma pressure_tendency_of_numbers_witness :
  pressureTendencyOf utc [("pressure_trend", JNum 0)] =
    match effectiveTrend (Some 0) None with
    | Some x =>
        if Rlt_dec 0 x then JStr "increasing"
        else if Rlt_dec x 0 then JStr "decreasing"
        else JUndefined
    | None => JUndefined
    end /\
  pressureTendencyOf utc [("pressure_trend", JNum 0)] <> JStr "steady".
Proof.
  apply (pressure_tendency_of_numbers utc [("pressure_trend", JNum 0)]
           (Some 0) None).
  - reflexivity.
  - reflexivity.
Defined.

(** X15: drift and set of a current given by two numbers.  The speed is the
    length of the vector.  The direction is [atan2 (v, u)], the angle from
    the east axis towards north, and it is absent whenever one of the two
    components is exactly 0, so a current running due north, south, east or
    west has a speed and no direction. *)
Theorem current_of_components
    (rt : JsRuntime) (fd : Obj) (u v : R) :
  obj_get "currentvelocity_u" fd = JNum u ->
  obj_get "currentvelocity_v" fd = JNum v ->
  currentSpeed rt fd = JNum (sqrt (u * u + v * v)) /\
  currentDirection rt fd =
    (if Req_dec_T u 0 then JUndefined
     else if Req_dec_T v 0 then JUndefined
     else JNum (Math_atan2 v u)).
Proof.
  intros Hu Hv. split.
  - unfold currentSpeed. rewrite Hu, Hv, !truthy_number.
    unfold js_square, js_add, js_sqrt; simpl.
    destruct (Rlt_dec (u * u + v * v) 0) as [H|_]; [nra|reflexivity].
  - unfold currentDirection, js_and. rewrite Hu, Hv. unfold truthy at 2.
    destruct (Req_dec_T u 0) as [Hu0|Hu0].
    + unfold truthy. destruct (Req_dec_T u 0); [reflexivity|contradiction].
    + unfold truthy. destruct (Req_dec_T v 0); reflexivity.
Qed.

Lemma current_of_components_witness :
  currentSpeed utc [("currentvelocity_u", JNum 0); ("currentvelocity_v", JNum 1)]
    = JNum (sqrt (0 * 0 + 1 * 1)) /\
  currentDirection utc
    [("currentvelocity_u", JNum 0); ("currentvelocity_v", JNum 1)] =
    (if Req_dec_T 0 0 then JUndefined
     else if Req_dec_T 1 0 then JUndefined
     else JNum (Math_atan2 1 0)).
Proof.
  apply (current_of_components utc
           [("currentvelocity_u", JNum 0); ("currentvelocity_v", JNum 1)]
           0 1).
  - reflexivity.
  - reflexivity.
Defined.

Lemma getWeatherIcon_none (rt : JsRuntime) (pictocode isDaylight : JsValue) :
  getWeatherIcon rt pictocode isDaylight = None <-> pictocode = JNull.
Proof.
  unfold getWeatherIcon. destruct pictocode; simpl; split; intros H;
    try discriminate; try reflexivity.
  all: destruct b; discriminate.
Qed.

Lemma observation_none (rt : JsRuntime) (now : Z) (fd : Obj) :
  convertToWeatherAPIObservation rt now fd = None <->
  obj_get "pictocode" fd = JNull.
Proof.
  rewrite <- (getWeatherIcon_none rt (obj_get "pictocode" fd)
                (obj_get "isdaylight" fd)).
  unfold convertToWeatherAPIObservation.
  destruct (getWeatherIcon rt _ _); split; intros H;
    try discriminate; reflexivity.
Qed.

Lemma forecast_none (rt : JsRuntime) (now : Z) (fd : Obj)
    (type : WeatherForecastType) :
  convertToWeatherAPIForecast rt now fd type = None <->
  obj_get "pictocode" fd = JNull.
Proof.
  destruct type.
  - rewrite <- (getWeatherIcon_none rt (obj_get "pictocode" fd) (JBool true)).
    unfold convertToWeatherAPIForecast.
    destruct (getWeatherIcon rt _ _); split; intros H;
      try discriminate; reflexivity.
  - rewrite <- (observation_none rt now fd).
    unfold convertToWeatherAPIForecast.
    destruct (convertToWeatherAPIObservation rt now fd); simpl; split;
      intros H; try discriminate; reflexivity.
Qed.

(** X16: reshaping a stored record throws exactly when its [pictocode] is
    null (the [toString] of the icon name), for observations and for both
    kinds of forecast; a record without [pictocode] is reshaped, with no
    icon and the fallback descriptions.  The icon of a daily forecast is
    always the day icon. *)
Theorem reshaping_throws_on_null_pictocode
    (rt : JsRuntime) (now : Z) (fd : Obj) (type : WeatherForecastType) :
  (convertToWeatherAPIObservation rt now fd = None <->
   obj_get "pictocode" fd = JNull) /\
  (convertToWeatherAPIForecast rt now fd type = None <->
   obj_get "pictocode" fd = JNull) /\
  (obj_get "pictocode" fd = JUndefined ->
   exists wd,
     convertToWeatherAPIObservation rt now fd = Some wd /\
     wd_icon wd = JUndefined /\
     wd_description wd = "Meteoblue weather"%string /\
     wd_longDescription wd = "Meteoblue weather forecast"%string) /\
  (forall wd,
     convertToWeatherAPIForecast rt now fd daily = Some wd ->
     wd_icon wd = JUndefined \/
     exists code, wd_icon wd = JStr (code ++ "_day.svg")).
Proof.
  split; [apply observation_none|]. split; [apply forecast_none|]. split.
  - intros Hnone. unfold convertToWeatherAPIObservation. rewrite Hnone.
    eexists. split; [reflexivity|]. repeat split.
  - intros wd. unfold convertToWeatherAPIForecast, getWeatherIcon.
    destruct (obj_get "pictocode" fd) as [| |b|x| |text0];
      try (destruct (js_toString rt _) as [text|]; [|discriminate]);
      intros H; try discriminate; injection H as <-;
      try (left; reflexivity);
      right; exists (padStart2 text); reflexivity.
Qed.

Lemma reshaping_throws_on_null_pictocode_witness :
  (exists wd,
     convertToWeatherAPIObservation utc sampleNow temperatureOnly = Some wd /\
     wd_icon wd = JUndefined /\
     wd_description wd = "Meteoblue weather"%string /\
     wd_longDescription wd = "Meteoblue weather forecast"%string) /\
  convertToWeatherAPIForecast utc sampleNow [("pictocode", JNull)] point
    = None.
Proof.
  split.
  - apply (proj1 (proj2 (proj2 (reshaping_throws_on_null_pictocode utc
                                  sampleNow temperatureOnly point)))).
    reflexivity.
  - apply (proj2 (proj1 (proj2 (reshaping_throws_on_null_pictocode utc
                                  sampleNow [("pictocode", JNull)] point)))).
    reflexivity.
Defined.

(** ** Forecasts served from the data store *)

Lemma countForecasts_le (p : nat -> bool) (limit : nat) :
  forall i, (i <= countForecasts p i limit <= i + limit)%nat.
Proof.
  induction limit as [|limit IH]; intros i; simpl; [lia|].
  destruct (p i); [|lia]. specialize (IH (S i)). lia.
Qed.

Lemma countForecasts_data (p : nat -> bool) (limit : nat) :
  forall i j, (i <= j < countForecasts p i limit)%nat -> p j = true.
Proof.
  induction limit as [|limit IH]; intros i j Hj; simpl in Hj; [lia|].
  destruct (p i) eqn:Hp; [|lia].
  destruct (Nat.eq_dec j i) as [->|Hne]; [exact Hp|].
  apply (IH (S i)). lia.
Qed.

Lemma countForecasts_gap (p : nat -> bool) (k : nat) (limit : nat) :
  forall i, (i <= k)%nat -> p k = false ->
    (countForecasts p i limit <= k)%nat.
Proof.
  intros i Hi Hk.
  destruct (Nat.le_gt_cases (countForecasts p i limit) k) as [H|H];
    [exact H|].
  rewrite (countForecasts_data p limit i k) in Hk; [discriminate|lia].
Qed.

Section ReshapeLoop.

Variables (rt : JsRuntime) (store : Store) (granularity : string)
          (fields : list string) (generated : nat -> string)
          (type : WeatherForecastType) (now : Z).

Lemma reshapeStored_length (indices : list nat) :
  forall forecasts,
    (List.length
       (fst (reshapeStored rt store granularity fields generated type now
               indices forecasts))
     <= List.length forecasts + List.length indices)%nat.
Proof.
  induction indices as [|i rest IH]; intros forecasts; simpl; [lia|].
  destruct (obj_keys (readStoredRecord store granularity fields i)).
  - specialize (IH forecasts). lia.
  - destruct (convertToWeatherAPIForecast rt now _ type) as [wd|].
    + specialize (IH (forecasts ++ [wd])%list).
      rewrite length_app in IH. simpl in IH. lia.
    + simpl. lia.
Qed.

Lemma reshapeStored_all (Q : WeatherData -> Prop) (indices : list nat) :
  (forall i weatherData,
     In i indices ->
     obj_keys (readStoredRecord store granularity fields i) <> [] ->
     convertToWeatherAPIForecast rt now
       (withTimestamp (generated i)
          (readStoredRecord store granularity fields i)) type
       = Some weatherData ->
     Q weatherData) ->
  forall forecasts,
    Forall Q forecasts ->
    Forall Q (fst (reshapeStored rt store granularity fields generated type
                     now indices forecasts)).
Proof.
  induction indices as [|i rest IH]; intros Hq forecasts Hall; simpl;
    [exact Hall|].
  assert (Hrest : forall j weatherData,
            In j rest ->
            obj_keys (readStoredRecord store granularity fields j) <> [] ->
            convertToWeatherAPIForecast rt now
              (withTimestamp (generated j)
                 (readStoredRecord store granularity fields j)) type
              = Some weatherData ->
            Q weatherData)
    by (intros j wd Hj; apply Hq; now right).
  destruct (obj_keys (readStoredRecord store granularity fields i)) eqn:Hk.
  - now apply IH.
  - destruct (convertToWeatherAPIForecast rt now _ type) as [wd|] eqn:Hc.
    + apply IH; [exact Hrest|]. apply Forall_app. split; [exact Hall|].
      constructor; [|constructor].
      apply (Hq i wd); [now left|rewrite Hk; discriminate|exact Hc].
    + exact Hall.
Qed.

(** A record that cannot be reshaped ends the loop: nothing from its index
    on is served, and the flag is raised. *)
Lemma reshapeStored_thrown (k : nat) (count : nat) :
  (k < count)%nat ->
  obj_keys (readStoredRecord store granularity fields k) <> [] ->
  convertToWeatherAPIForecast rt now
    (withTimestamp (generated k)
       (readStoredRecord store granularity fields k)) type = None ->
  forall start forecasts,
    (start <= k)%nat -> (k < start + count)%nat ->
    let out := reshapeStored rt store granularity fields generated type now
                 (seq start count) forecasts in
    snd out = true /\
    (List.length (fst out) <= List.length forecasts + (k - start))%nat.
Proof.
  intros _ Hkeys Hnone. induction count as [|count IH];
    intros start forecasts Hs Hk; [lia|].
  cbn [seq reshapeStored]. cbv zeta.
  destruct (Nat.eq_dec start k) as [->|Hne].
  - destruct (obj_keys (readStoredRecord store granularity fields k));
      [contradiction|].
    rewrite Hnone. simpl. split; [reflexivity|lia].
  - destruct (obj_keys (readStoredRecord store granularity fields start)).
    + destruct (IH (S start) forecasts) as [Hflag Hlen]; [lia|lia|].
      split; [exact Hflag|]. lia.
    + destruct (convertToWeatherAPIForecast rt now
                  (withTimestamp (generated start)
                     (readStoredRecord store granularity fields start)) type)
        as [wd|].
      * destruct (IH (S start) (forecasts ++ [wd])%list) as [Hflag Hlen];
          [lia|lia|].
        split; [exact Hflag|]. rewrite length_app in Hlen. simpl in Hlen. lia.
      * simpl. split; [reflexivity|lia].
Qed.

End ReshapeLoop.

Lemma forecastsFromSignalK_bound (rt : JsRuntime) (store : Store)
    (granularity : string) (testFields fields : list string)
    (generated : nat -> string) (type : WeatherForecastType)
    (now maxCount : Z) :
  let out := fst (forecastsFromSignalK rt store granularity testFields fields
                    generated type now maxCount) in
  (List.length out <= Z.to_nat maxCount)%nat /\
  forall k, hasDataForIndex store granularity testFields k = false ->
    (List.length out <= k)%nat.
Proof.
  unfold forecastsFromSignalK.
  destruct (hasDataForIndex store granularity testFields 0) eqn:H0;
    cbn [negb]; cbv iota.
  - set (count := countForecasts _ 0 _).
    pose proof (reshapeStored_length rt store granularity fields generated
                  type now
                  (seq 0 (Z.to_nat (Z.min (Z.of_nat count) maxCount))) [])
      as Hlen.
    rewrite length_seq in Hlen. simpl in Hlen. cbv zeta. split; [lia|].
    intros k Hk.
    pose proof (countForecasts_gap
                  (hasDataForIndex store granularity testFields) k
                  (Z.to_nat (maxCount + 10)) 0 (Nat.le_0_l k) Hk) as Hgap.
    fold count in Hgap. lia.
  - simpl. split; [lia|]. intros k _. lia.
Qed.

(** [getForecasts] in one piece: the scan of the store for the queried
    type, and the error logged when reshaping threw. *)
Lemma getForecasts_run (rt : JsRuntime) (store : Store) (position : Position)
    (type : WeatherForecastType) (optionsMaxCount : option Z)
    (st : PluginState) (w : World) :
  getForecasts rt store position type optionsMaxCount st w =
    match currentConfig st with
    | None => Returned [] st w
    | Some config =>
        if anyPackageOf type config then
          let scan :=
            forecastsFromSignalK rt store (granularityOf type)
              (testFieldsOf type) (enabledFieldsOf type (currentConfig st))
              (generatedStamp rt type (w_clock w)) type (w_clock w)
              (effectiveMaxCount st type optionsMaxCount) in
          Returned (fst scan) st
            (if snd scan then emit (readErrorOf type) w else w)
        else Returned [] st w
    end.
Proof.
  unfold getForecasts. rewrite (bind_returned getState _ st st st w w eq_refl).
  destruct (currentConfig st) as [config|] eqn:Hcfg; [|reflexivity].
  assert (Hmax : forall dflt configured,
            count_or (match optionsMaxCount with Some n => n | None => 0%Z end)
                     (count_or configured dflt) =
            match optionsMaxCount with
            | Some n => if (n =? 0)%Z
                        then (if (configured =? 0)%Z then dflt else configured)
                        else n
            | None => if (configured =? 0)%Z then dflt else configured
            end).
  { intros dflt configured. unfold count_or.
    destruct optionsMaxCount as [n|]; reflexivity. }
  destruct type; cbn [anyPackageOf].
  - destruct (_ || _); cbn [negb]; [|reflexivity].
    unfold getDailyForecastsFromSignalK.
    rewrite (bind_returned getState _ st st st w w eq_refl).
    rewrite (bind_returned getClock _ (w_clock w) st st w w eq_refl).
    rewrite Hmax, Hcfg.
    unfold effectiveMaxCount, granularityOf, testFieldsOf, enabledFieldsOf,
      generatedStamp, readErrorOf. rewrite Hcfg.
    destruct (forecastsFromSignalK rt store "daily" _ _ _ daily _ _)
      as [forecasts thrown].
    destruct thrown; reflexivity.
  - destruct (_ || _); cbn [negb]; [|reflexivity].
    unfold getHourlyForecastsFromSignalK.
    rewrite (bind_returned getState _ st st st w w eq_refl).
    rewrite (bind_returned getClock _ (w_clock w) st st w w eq_refl).
    rewrite Hmax, Hcfg.
    unfold effectiveMaxCount, granularityOf, testFieldsOf, enabledFieldsOf,
      generatedStamp, readErrorOf. rewrite Hcfg.
    destruct (forecastsFromSignalK rt store "hourly" _ _ _ point _ _)
      as [forecasts thrown].
    destruct thrown; reflexivity.
Qed.

(** X17: how many forecasts a query is served.  [getForecasts] always
    returns, sends no request and leaves the session state alone.  It
    serves at most the count asked for (the configured maximum of the type
    when none or 0 is asked for, 10 days or 72 hours when none is
    configured), and never a forecast from or beyond the first index at
    which none of the test fields has a value: a gap in the test fields
    hides everything stored after it. *)
Theorem served_forecasts_bound
    (rt : JsRuntime) (store : Store) (position : Position)
    (type : WeatherForecastType) (optionsMaxCount : option Z)
    (st : PluginState) (w : World) :
  exists forecasts w',
    getForecasts rt store position type optionsMaxCount st w =
      Returned forecasts st w' /\
    (w' = w \/ w' = emit (readErrorOf type) w) /\
    (List.length forecasts
     <= Z.to_nat (effectiveMaxCount st type optionsMaxCount))%nat /\
    forall k,
      hasDataForIndex store (granularityOf type) (testFieldsOf type) k = false
      -> (List.length forecasts <= k)%nat.
Proof.
  rewrite getForecasts_run.
  destruct (currentConfig st) as [config|].
  - destruct (anyPackageOf type config).
    + cbv zeta.
      pose proof (forecastsFromSignalK_bound rt store (granularityOf type)
                    (testFieldsOf type) (enabledFieldsOf type (Some config))
                    (generatedStamp rt type (w_clock w)) type (w_clock w)
                    (effectiveMaxCount st type optionsMaxCount)) as [Hmax Hgap].
      do 2 eexists. split; [reflexivity|]. split; [|split; assumption].
      destruct (snd _); auto.
    + exists [], w. split; [reflexivity|]. split; [now left|].
      split; simpl; [lia|]. intros k _. lia.
  - exists [], w. split; [reflexivity|]. split; [now left|].
    split; simpl; [lia|]. intros k _. lia.
Qed.

Lemma served_forecasts_bound_witness :
  exists forecasts w',
    getForecasts utc (fun _ => JUndefined) samplePosition point (Some 5%Z)
      sampleState (sampleWorld []) = Returned forecasts sampleState w' /\
    (w' = sampleWorld [] \/ w' = emit (readErrorOf point) (sampleWorld [])) /\
    (List.length forecasts
     <= Z.to_nat (effectiveMaxCount sampleState point (Some 5%Z)))%nat /\
    forall k,
      hasDataForIndex (fun _ => JUndefined) (granularityOf point)
        (testFieldsOf point) k = false
      -> (List.length forecasts <= k)%nat.
Proof.
  exact (served_forecasts_bound utc (fun _ => JUndefined) samplePosition point
           (Some 5%Z) sampleState (sampleWorld [])).
Defined.

Lemma test_fields_not_clouds (type : WeatherForecastType) (field : string) :
  In field (testFieldsOf type) -> ~ In field (publishedKeys type "clouds").
Proof.
  intros Hin. apply not_In_existsb.
  destruct type; simpl in Hin; intuition subst; reflexivity.
Qed.

(** X18: the forecasts of the clouds package are never served.  A query
    looks for stored data under a few test fields only (temperature, wind
    speed, sea surface temperature and UV index for the hours; maximum
    temperature, maximum wind speed and UV index for the days), and the
    clouds package publishes none of them: with a store that holds values
    only under the keys this package publishes, every query is answered
    with the empty list, without an error. *)
Theorem clouds_forecasts_never_served
    (rt : JsRuntime) (store : Store) (position : Position)
    (type : WeatherForecastType) (optionsMaxCount : option Z)
    (st : PluginState) (w : World) :
  (forall field i,
     store (storePath (granularityOf type) field i) <> JUndefined ->
     In field (publishedKeys type "clouds")) ->
  getForecasts rt store position type optionsMaxCount st w =
    Returned [] st w.
Proof.
  intros Hstore. rewrite getForecasts_run.
  destruct (currentConfig st) as [config|]; [|reflexivity].
  destruct (anyPackageOf type config); [|reflexivity].
  assert (Hnone : hasDataForIndex store (granularityOf type)
                    (testFieldsOf type) 0 = false).
  { unfold hasDataForIndex.
    destruct (existsb _ (testFieldsOf type)) eqn:He; [|reflexivity].
    apply existsb_exists in He. destruct He as [field [Hin Hval]].
    exfalso. apply (test_fields_not_clouds type field Hin).
    apply (Hstore field 0%nat). unfold hasValue in Hval.
    intros Hu. rewrite Hu in Hval. discriminate. }
  unfold forecastsFromSignalK. rewrite Hnone. reflexivity.
Qed.

Lemma clouds_forecasts_never_served_witness :
  getForecasts utc cloudsStore samplePosition point None sampleState
    (sampleWorld []) = Returned [] sampleState (sampleWorld []).
Proof.
  apply (clouds_forecasts_never_served utc cloudsStore samplePosition point
           None sampleState (sampleWorld [])).
  intros field i. unfold cloudsStore.
  destruct (String.eqb_spec (storePath (granularityOf point) field i)
              (storePath "hourly" "cloudcover" 0)) as [E|_];
    [intros _|intros H; now destruct H].
  assert (Hf : (field ++ "." ++ string_of_nat i)%string = "cloudcover.0"%string)
    by (unfold storePath, granularityOf in E; simpl in E; now injection E).
  clear E. simpl. left. revert Hf. generalize (string_of_nat i). intros digits.
  do 10 (destruct field as [|? field];
         [intros Hf; simpl in Hf; discriminate Hf|];
         intros Hf; simpl in Hf; injection Hf as -> Hf; revert Hf).
  destruct field as [|? field]; [reflexivity|]. intros Hf. simpl in Hf.
  injection Hf as -> Hf. destruct field as [|? field]; [simpl in Hf; discriminate|].
  simpl in Hf. injection Hf as -> Hf. destruct field; simpl in Hf; discriminate.
Defined.

Lemma uniq_In (x : string) (l : list string) : In x (uniq l) <-> In x l.
Proof.
  unfold uniq.
  assert (H : forall seen, In x (fold_left
                (fun seen x => if existsb (String.eqb x) seen then seen
                               else (seen ++ [x])%list) l seen)
              <-> In x seen \/ In x l).
  { induction l as [|y l IH]; intros seen; simpl; [tauto|].
    rewrite IH. destruct (existsb (String.eqb y) seen) eqn:He.
    - apply In_existsb in He. split; [tauto|].
      intros [H|[->|H]]; auto.
    - rewrite in_app_iff. simpl. tauto. }
  rewrite H. simpl. tauto.
Qed.

Lemma readStoredRecord_other (store : Store) (granularity : string)
    (fields : list string) (i : nat) (k : string) :
  ~ In k fields ->
  obj_get k (readStoredRecord store granularity fields i) = JUndefined.
Proof.
  unfold readStoredRecord.
  assert (H : forall acc : Obj,
            ~ In k fields ->
            obj_get k (fold_left
              (fun forecastData field =>
                 let value := store (storePath granularity field i) in
                 if is_undefined value then forecastData
                 else obj_set field value forecastData) fields acc)
            = obj_get k acc).
  { induction fields as [|f rest IH]; intros acc Hk; [reflexivity|].
    cbn [fold_left]. rewrite IH by (intros Hin; apply Hk; now right).
    cbv zeta. destruct (is_undefined _); [reflexivity|].
    apply obj_get_set_other. intros ->. apply Hk. now left. }
  intros Hk. now rewrite H.
Qed.

Lemma readStoredRecord_field (store : Store) (granularity : string)
    (fields : list string) (i : nat) (k : string) :
  In k fields ->
  obj_get k (readStoredRecord store granularity fields i) =
  store (storePath granularity k i).
Proof.
  unfold readStoredRecord.
  assert (Hother : forall (rest : list string) (acc : Obj),
            ~ In k rest ->
            obj_get k (fold_left
              (fun forecastData field =>
                 let value := store (storePath granularity field i) in
                 if is_undefined value then forecastData
                 else obj_set field value forecastData) rest acc)
            = obj_get k acc).
  { induction rest as [|f rest IH]; intros acc Hk; [reflexivity|].
    cbn [fold_left]. rewrite IH by (intros Hin; apply Hk; now right).
    cbv zeta. destruct (is_undefined _); [reflexivity|].
    apply obj_get_set_other. intros ->. apply Hk. now left. }
  assert (H : forall acc : Obj,
            In k fields ->
            obj_get k acc = JUndefined \/
            obj_get k acc = store (storePath granularity k i) ->
            obj_get k (fold_left
              (fun forecastData field =>
                 let value := store (storePath granularity field i) in
                 if is_undefined value then forecastData
                 else obj_set field value forecastData) fields acc)
            = store (storePath granularity k i)).
  { induction fields as [|f rest IH]; intros acc Hin Hacc; [contradiction|].
    cbn [fold_left]. cbv zeta.
    destruct (string_dec f k) as [->|Hne].
    - assert (Hstep :
        obj_get k (if is_undefined (store (storePath granularity k i))
                   then acc
                   else obj_set k (store (storePath granularity k i)) acc)
        = store (storePath granularity k i)).
      { destruct (store (storePath granularity k i)) eqn:Hv; cbn [is_undefined];
          try apply obj_get_set_same.
        destruct Hacc as [Hacc|Hacc]; [exact Hacc|now rewrite Hacc]. }
      destruct (in_dec string_dec k rest) as [Hrest|Hrest].
      + apply IH; [exact Hrest|]. right. exact Hstep.
      + rewrite Hother by exact Hrest. exact Hstep.
    - destruct Hin as [Hin|Hin]; [contradiction|].
      apply IH; [exact Hin|].
      destruct (is_undefined _); [exact Hacc|].
      rewrite obj_get_set_other by exact Hne. exact Hacc. }
  intros Hin. apply H; [exact Hin|]. left. reflexivity.
Qed.

Lemma timestamp_not_daily_field (packageType : string) :
  ~ In "timestamp"%string (getDailyPackageFields packageType).
Proof.
  apply not_In_existsb. unfold getDailyPackageFields.
  repeat match goal with
         | |- context [if ?c then _ else _] => destruct c
         end; reflexivity.
Qed.

Lemma timestamp_not_read (type : WeatherForecastType)
    (config : option PluginConfig) :
  ~ In "timestamp"%string (enabledFieldsOf type config).
Proof.
  assert (Hd : forall (flag : bool) pkg,
            ~ In "timestamp"%string
                (if flag then getDailyPackageFields pkg else [])).
  { intros [] pkg Hin; [now apply timestamp_not_daily_field in Hin|].
    contradiction. }
  assert (Hh : forall (flag : bool) pkg,
            ~ In "timestamp"%string
                (if flag then getHourlyPackageFields pkg else [])).
  { intros [] pkg Hin; [now apply header_not_overwritten in Hin|].
    contradiction. }
  destruct type; unfold enabledFieldsOf, enabledDailyFields,
    enabledHourlyFields; rewrite uniq_In; destruct config as [c|];
    try (intros []); rewrite !in_app_iff.
  - intros [H|[H|[H|[H|H]]]]; exact (Hd _ _ H).
  - intros [H|[H|[H|[H|[H|H]]]]]; exact (Hh _ _ H).
Qed.

Lemma stamped_record_reshaped (rt : JsRuntime) (now : Z)
    (type : WeatherForecastType) (generated : string) (fd : Obj)
    (weatherData : WeatherData) :
  obj_get "timestamp" fd = JUndefined ->
  convertToWeatherAPIForecast rt now (withTimestamp generated fd) type
    = Some weatherData ->
  wd_type weatherData = type_name type /\
  wd_date weatherData =
    js_or (JStr generated) (JStr (Date_toISOString rt now)).
Proof.
  intros Hts. unfold withTimestamp. rewrite Hts. cbn [truthy].
  destruct type; unfold convertToWeatherAPIForecast.
  - destruct (getWeatherIcon rt _ _); [|discriminate].
    intros H. injection H as <-. cbn [wd_type wd_date].
    now rewrite obj_get_set_same.
  - unfold convertToWeatherAPIObservation.
    destruct (getWeatherIcon rt _ _); [|discriminate].
    intros H. injection H as <-. cbn [set_wd_type wd_type wd_date].
    now rewrite obj_get_set_same.
Qed.

(** X19: the dates of the forecasts served.  The time stamps of the records
    are not published, so a query cannot read them back; every forecast
    served is dated with a stamp generated from the time of the query, the
    query time plus [i] hours (or the day of the query plus [i] days) for
    the store index [i], whatever time the stored forecast was made for.
    Its type is the type queried. *)
Theorem served_dates_are_generated
    (rt : JsRuntime) (store : Store) (position : Position)
    (type : WeatherForecastType) (optionsMaxCount : option Z)
    (st : PluginState) (w : World) :
  exists forecasts w',
    getForecasts rt store position type optionsMaxCount st w =
      Returned forecasts st w' /\
    Forall
      (fun weatherData =>
         wd_type weatherData = type_name type /\
         exists i,
           (i < Z.to_nat (effectiveMaxCount st type optionsMaxCount))%nat /\
           wd_date weatherData =
             js_or (JStr (generatedStamp rt type (w_clock w) i))
                   (JStr (Date_toISOString rt (w_clock w))))
      forecasts.
Proof.
  rewrite getForecasts_run.
  destruct (currentConfig st) as [config|] eqn:Hcfg;
    [|exists [], w; split; [reflexivity|constructor]].
  destruct (anyPackageOf type config);
    [|exists [], w; split; [reflexivity|constructor]].
  cbv zeta. do 2 eexists. split; [reflexivity|].
  unfold forecastsFromSignalK.
  destruct (negb _); [constructor|]. cbv zeta.
  apply reshapeStored_all; [|constructor].
  intros i weatherData Hi _ Hconv. apply in_seq in Hi.
  apply stamped_record_reshaped in Hconv.
  - destruct Hconv as [Htype Hdate]. split; [exact Htype|].
    exists i. split; [lia|exact Hdate].
  - apply readStoredRecord_other, timestamp_not_read.
Qed.

Lemma countForecasts_reach (p : nat -> bool) (k limit : nat) :
  forall i, (i <= k)%nat -> (k < i + limit)%nat ->
    (forall j, (i <= j <= k)%nat -> p j = true) ->
    (k < countForecasts p i limit)%nat.
Proof.
  induction limit as [|limit IH]; intros i Hi Hk Hp; [lia|].
  simpl. rewrite (Hp i) by lia.
  destruct (Nat.eq_dec i k) as [->|Hne].
  - pose proof (countForecasts_le p limit (S k)). lia.
  - apply IH; [lia|lia|]. intros j Hj. apply Hp. lia.
Qed.

(** X20: a null weather code cuts the answer short.  With the basic hourly
    package enabled, when the store holds a null [pictocode] at an index
    [k] inside the range served (data at every index up to [k], and [k]
    below the count asked for), reshaping that record throws: the query
    still returns, with an error logged and with forecasts of indices below
    [k] only; everything stored from [k] on is left out. *)
Theorem null_pictocode_cuts_answer
    (rt : JsRuntime) (store : Store) (position : Position)
    (optionsMaxCount : option Z) (st : PluginState) (w : World)
    (config : PluginConfig) (k : nat) :
  currentConfig st = Some config ->
  enableBasic1h config = true ->
  store (storePath "hourly" "pictocode" k) = JNull ->
  (forall j, (j <= k)%nat ->
     hasDataForIndex store "hourly" hourlyTestFields j = true) ->
  (Z.of_nat k < effectiveMaxCount st point optionsMaxCount)%Z ->
  exists forecasts,
    getForecasts rt store position point optionsMaxCount st w =
      Returned forecasts st (emit (readErrorOf point) w) /\
    (List.length forecasts <= k)%nat.
Proof.
  intros Hcfg Hbasic Hnull Hdata Hk. rewrite getForecasts_run, Hcfg.
  assert (Hany : anyPackageOf point config = true)
    by (unfold anyPackageOf; now rewrite Hbasic).
  rewrite Hany. cbv zeta.
  set (maxCount := effectiveMaxCount st point optionsMaxCount) in *.
  set (fields := enabledFieldsOf point (Some config)).
  assert (Hfield : In "pictocode"%string fields).
  { unfold fields, enabledFieldsOf, enabledHourlyFields.
    apply uniq_In. rewrite Hbasic. apply in_or_app. left.
    simpl. auto 10. }
  assert (Hrecord : obj_get "pictocode"
                      (readStoredRecord store "hourly" fields k) = JNull).
  { rewrite readStoredRecord_field by exact Hfield. exact Hnull. }
  assert (Hkeys : obj_keys (readStoredRecord store "hourly" fields k) <> []).
  { intros Hempty.
    destruct (readStoredRecord store "hourly" fields k); [discriminate|].
    discriminate. }
  assert (Hthrow :
    convertToWeatherAPIForecast rt (w_clock w)
      (withTimestamp (generatedStamp rt point (w_clock w) k)
         (readStoredRecord store "hourly" fields k)) point = None).
  { apply forecast_none. unfold withTimestamp.
    destruct (truthy _); [exact Hrecord|].
    rewrite obj_get_set_other by discriminate. exact Hrecord. }
  unfold forecastsFromSignalK, granularityOf, testFieldsOf.
  rewrite (Hdata 0%nat) by lia. cbn [negb]. cbv iota zeta.
  set (count := countForecasts _ 0 _).
  assert (Hcount : (k < count)%nat).
  { apply countForecasts_reach; [lia|lia|]. intros j Hj. apply Hdata. lia. }
  destruct (reshapeStored_thrown rt store "hourly" fields
              (generatedStamp rt point (w_clock w)) point (w_clock w) k
              (Z.to_nat (Z.min (Z.of_nat count) maxCount)))
    with (start := 0%nat) (forecasts := @nil WeatherData) as [Hflag Hlen];
    try lia; try assumption.
  eexists. split.
  - unfold granularityOf in Hflag. fold fields.
    rewrite Hflag. reflexivity.
  - simpl in Hlen. rewrite Nat.sub_0_r in Hlen. exact Hlen.
Qed.

Lemma null_pictocode_cuts_answer_witness :
  exists forecasts,
    getForecasts utc nullCodeStore samplePosition point None sampleState
      (sampleWorld []) =
      Returned forecasts sampleState
        (emit (readErrorOf point) (sampleWorld [])) /\
    (List.length forecasts <= 1)%nat.
Proof.
  apply (null_pictocode_cuts_answer utc nullCodeStore samplePosition None
           sampleState (sampleWorld []) sampleConfig 1).
  - reflexivity.
  - reflexivity.
  - reflexivity.
  - intros j Hj. destruct j as [|[|j]]; [reflexivity|reflexivity|lia].
  - vm_compute. reflexivity.
Defined.

Lemma withTimestamp_other (generated k : string) (fd : Obj) :
  k <> "timestamp"%string ->
  obj_get k (withTimestamp generated fd) = obj_get k fd.
Proof.
  intros Hk. unfold withTimestamp. destruct (truthy _); [reflexivity|].
  apply obj_get_set_other. congruence.
Qed.

Lemma gustdirection_not_read (config : option PluginConfig) :
  ~ In "gustdirection"%string (enabledHourlyFields config).
Proof.
  unfold enabledHourlyFields. rewrite uniq_In.
  destruct config as [c|]; [|intros []]. rewrite !in_app_iff.
  assert (Hh : forall (flag : bool) pkg,
            ~ In "gustdirection"%string
                (if flag then getHourlyPackageFields pkg else [])).
  { intros [] pkg; [|intros []]. apply not_In_existsb.
    unfold getHourlyPackageFields.
    repeat match goal with
           | |- context [if ?c then _ else _] => destruct c
           end; reflexivity. }
  intros [H|[H|[H|[H|[H|H]]]]]; exact (Hh _ _ H).
Qed.

Lemma sea_temperature_mean_not_read (config : option PluginConfig) :
  ~ In "seasurfacetemperature_mean"%string (enabledDailyFields config).
Proof.
  unfold enabledDailyFields. rewrite uniq_In.
  destruct config as [c|]; [|intros []]. rewrite !in_app_iff.
  assert (Hd : forall (flag : bool) pkg,
            ~ In "seasurfacetemperature_mean"%string
                (if flag then getDailyPackageFields pkg else [])).
  { intros [] pkg; [|intros []]. apply not_In_existsb.
    unfold getDailyPackageFields.
    repeat match goal with
           | |- context [if ?c then _ else _] => destruct c
           end; reflexivity. }
  intros [H|[H|[H|[H|H]]]]; exact (Hd _ _ H).
Qed.

(** X24: two fields of the served forecasts that are always absent.  The
    reshaping reads the gust direction of an hour from [gustdirection] and
    the water temperature of a day from [seasurfacetemperature_mean]; no
    package owns either field, so no query reads them from the store: in
    every forecast served, whatever the store and the configuration, the
    wind's [gustDirectionTrue] (hours) and the water's [temperature] (days)
    are undefined. *)
Theorem served_fields_always_absent
    (rt : JsRuntime) (store : Store) (position : Position)
    (type : WeatherForecastType) (optionsMaxCount : option Z)
    (st : PluginState) (w : World) :
  exists forecasts w',
    getForecasts rt store position type optionsMaxCount st w =
      Returned forecasts st w' /\
    Forall
      (fun weatherData =>
         match type with
         | point =>
             assoc "gustDirectionTrue" (wd_wind weatherData) = Some JUndefined
         | daily =>
             assoc "temperature" (wd_water weatherData) = Some JUndefined
         end)
      forecasts.
Proof.
  rewrite getForecasts_run.
  destruct (currentConfig st) as [config|] eqn:Hcfg;
    [|exists [], w; split; [reflexivity|constructor]].
  destruct (anyPackageOf type config);
    [|exists [], w; split; [reflexivity|constructor]].
  cbv zeta. do 2 eexists. split; [reflexivity|].
  unfold forecastsFromSignalK.
  destruct (negb _); [constructor|]. cbv zeta.
  apply reshapeStored_all; [|constructor].
  intros i weatherData _ _ Hconv. destruct type.
  - unfold convertToWeatherAPIForecast in Hconv.
    destruct (getWeatherIcon rt _ _); [|discriminate].
    injection Hconv as <-. cbn [wd_water assoc String.eqb Ascii.eqb Bool.eqb].
    rewrite withTimestamp_other by discriminate.
    unfold enabledFieldsOf.
    now rewrite readStoredRecord_other
      by apply sea_temperature_mean_not_read.
  - unfold convertToWeatherAPIForecast, convertToWeatherAPIObservation
      in Hconv.
    destruct (getWeatherIcon rt _ _); [|discriminate].
    injection Hconv as <-.
    cbn [set_wd_type wd_wind assoc String.eqb Ascii.eqb Bool.eqb].
    rewrite withTimestamp_other by discriminate.
    unfold enabledFieldsOf.
    now rewrite readStoredRecord_other by apply gustdirection_not_read.
Qed.

(** ** The navigation subscription *)

Lemma fetchForecast_returns (rt : JsRuntime) (position : option Position)
    (config : PluginConfig) (st : PluginState) (w : World) :
  exists st' w', fetchForecast rt position config st w = Returned tt st' w'.
Proof.
  unfold fetchForecast. destruct (_ =? _)%string.
  - do 2 eexists. reflexivity.
  - destruct (fetchForecastBody rt position config st w)
      as [[] st1 w1|msg st1 w1]; do 2 eexists; reflexivity.
Qed.

Lemma CycleOnly_refl (st : PluginState) : CycleOnly st st.
Proof. unfold CycleOnly. destruct st; reflexivity. Qed.

Lemma CycleOnly_recorded (st : PluginState) (p : option Position) (t : Z) :
  CycleOnly st (set_currentPosition p (set_lastForecastUpdate t st)).
Proof. unfold CycleOnly. destruct st; reflexivity. Qed.

Lemma CycleOnly_failed (st : PluginState) (t : Z) :
  CycleOnly st (set_lastForecastUpdate t st).
Proof. unfold CycleOnly. destruct st; reflexivity. Qed.

Lemma fetchForecast_CycleOnly (rt : JsRuntime) (pos : Position)
    (config : PluginConfig) (st st' : PluginState) (w w' : World) :
  fetchForecast rt (Some pos) config st w = Returned tt st' w' ->
  CycleOnly st st'.
Proof.
  destruct (String.eqb_spec (meteoblueApiKey config) "") as [E|Hkey].
  - unfold fetchForecast. rewrite E. cbn. intros H. injection H as <- _.
    apply CycleOnly_refl.
  - intros H. apply fetchForecast_state in H; [|exact Hkey].
    destruct H as [-> | ->];
      [apply CycleOnly_recorded|apply CycleOnly_failed].
Qed.

(** The moving cycle writes the two cycle fields only, and the stored
    position it leaves is the one it found. *)
Lemma moving_CycleOnly (rt : JsRuntime) (pos : Position)
    (config : PluginConfig) (st st' : PluginState) (w w' : World) :
  currentPosition st = Some pos ->
  fetchForecastForMovingVessel rt config st w = Returned tt st' w' ->
  CycleOnly st st' /\ currentPosition st' = Some pos.
Proof.
  intros Hpos.
  assert (Hstationary : forall s v,
            fetchForecast rt (Some pos) config st s = Returned tt st' v ->
            CycleOnly st st' /\ currentPosition st' = Some pos).
  { intros s v H. split; [now apply fetchForecast_CycleOnly in H|].
    destruct (String.eqb_spec (meteoblueApiKey config) "") as [E|Hkey].
    - unfold fetchForecast in H. rewrite E in H. cbn in H.
      injection H as <- _. exact Hpos.
    - apply fetchForecast_state in H; [|exact Hkey].
      destruct H as [-> | ->]; [reflexivity|exact Hpos]. }
  unfold fetchForecastForMovingVessel. rewrite Hpos.
  destruct (currentHeading st) as [heading|]; [|apply Hstationary].
  destruct (currentSOG st) as [sog|]; [|apply Hstationary].
  destruct (_ || _); [apply Hstationary|].
  pose proof (RecordsCycle_movingBody rt config pos heading sog st w) as Hbody.
  destruct (movingBody rt config pos heading sog st w)
    as [[] st1 w1|msg st1 w1].
  - intros H. inversion H; subst. split; [apply CycleOnly_recorded|].
    reflexivity.
  - subst st1. unfold bind at 1. unfold tell at 1.
    unfold bind at 1. unfold getState at 1. rewrite Hpos.
    apply Hstationary.
Qed.

Lemma moving_returns (rt : JsRuntime) (config : PluginConfig)
    (st : PluginState) (w : World) :
  exists st' w',
    fetchForecastForMovingVessel rt config st w = Returned tt st' w'.
Proof.
  unfold fetchForecastForMovingVessel.
  destruct (currentPosition st) as [pos|]; [|apply fetchForecast_returns].
  destruct (currentHeading st) as [heading|]; [|apply fetchForecast_returns].
  destruct (currentSOG st) as [sog|]; [|apply fetchForecast_returns].
  destruct (_ || _); [apply fetchForecast_returns|].
  destruct (movingBody rt config pos heading sog st w)
    as [[] st1 w1|msg st1 w1]; [do 2 eexists; reflexivity|].
  unfold bind at 1. unfold tell at 1. unfold bind at 1. unfold getState at 1.
  apply fetchForecast_returns.
Qed.

Lemma NavigationOnly_refl (st : PluginState) : NavigationOnly st st.
Proof. unfold NavigationOnly. auto. Qed.

Lemma NavigationOnly_trans (a b c : PluginState) :
  NavigationOnly a b -> NavigationOnly b c -> NavigationOnly a c.
Proof.
  unfold NavigationOnly. intros [H1 [H2 [H3 H4]]] [K1 [K2 [K3 K4]]].
  repeat split; try congruence. auto.
Qed.

(** One value of the delta: it returns, sends no request, and changes the
    navigation fields only; it raises the engagement only as a speed that
    auto-enables it. *)
Lemma navigationUpdate_step (rt : JsRuntime) (acc : option NavUpdate)
    (update : NavUpdate) (st : PluginState) (w : World) :
  exists acc' st' evs,
    navigationUpdate rt acc update st w = Returned acc' st' (extend w evs) /\
    Forall notFetch evs /\
    NavigationOnly st st' /\
    (movingForecastEngaged st' = true ->
     movingForecastEngaged st = true \/ AutoEnabledBy st [update]) /\
    (acc' = acc /\ nu_path update <> "navigation.position"%string \/
     acc' = Some update /\ nu_path update = "navigation.position"%string).
Proof.
  unfold navigationUpdate.
  destruct (String.eqb_spec (nu_path update) "navigation.position") as [E|E].
  - exists (Some update), st, []. rewrite extend_nil.
    split; [reflexivity|]. split; [constructor|].
    split; [apply NavigationOnly_refl|]. split; [auto|]. right. auto.
  - assert (Hquiet : exists acc' st' evs,
              ret acc st w = Returned acc' st' (extend w evs) /\
              Forall notFetch evs /\ NavigationOnly st st' /\
              (movingForecastEngaged st' = true ->
               movingForecastEngaged st = true \/ AutoEnabledBy st [update]) /\
              (acc' = acc /\ nu_path update <> "navigation.position"%string \/
               acc' = Some update /\
               nu_path update = "navigation.position"%string)).
    { exists acc, st, []. rewrite extend_nil.
      split; [reflexivity|]. split; [constructor|].
      split; [apply NavigationOnly_refl|]. split; [auto|]. left. auto. }
    destruct (String.eqb_spec (nu_path update) "navigation.headingTrue")
      as [Eh|Eh].
    + destruct (nu_value update) as [value| | |] eqn:Hv.
      * exists acc, (set_currentHeading (Some value) st), [].
        rewrite extend_nil. split; [reflexivity|]. split; [constructor|].
        split; [unfold NavigationOnly; simpl; auto|].
        split; [simpl; auto|]. left. auto.
      * destruct (_ =? _)%string; exact Hquiet.
      * destruct (_ =? _)%string; exact Hquiet.
      * destruct (_ =? _)%string; exact Hquiet.
    + destruct (String.eqb_spec (nu_path update) "navigation.speedOverGround")
        as [Es|Es]; [|destruct (nu_value update); exact Hquiet].
      destruct (nu_value update) as [value| | |] eqn:Hv; try exact Hquiet.
      unfold bind at 1. unfold modify at 1.
      unfold bind at 1. unfold getState at 1.
      cbn [currentConfig set_currentSOG movingForecastEngaged].
      destruct (currentConfig st) as [config|] eqn:Hcfg.
      * destruct (enableAutoMovingForecast config) eqn:Hauto;
          cbn [andb].
        -- destruct (isVesselMoving value (movingSpeedThreshold config))
             eqn:Hmove; cbn [andb].
           ++ destruct (movingForecastEngaged st) eqn:Heng; cbn [negb].
              ** exists acc, (set_currentSOG (Some value) st), [].
                 rewrite extend_nil. split; [reflexivity|].
                 split; [constructor|].
                 split; [unfold NavigationOnly; simpl; auto|].
                 split; [simpl; auto|]. left. auto.
              ** exists acc,
                   (set_movingForecastEngaged true
                      (set_currentSOG (Some value) st)),
                   [engagedDelta rt (w_clock w) true].
                 split; [reflexivity|].
                 split; [repeat constructor|].
                 split; [unfold NavigationOnly; simpl; auto|].
                 split; [|left; auto].
                 intros _. right. exists config, value.
                 repeat split; try assumption.
                 left. destruct update as [path v]. simpl in *.
                 now subst.
           ++ exists acc, (set_currentSOG (Some value) st), [].
              rewrite extend_nil. split; [reflexivity|].
              split; [constructor|].
              split; [unfold NavigationOnly; simpl; auto|].
              split; [simpl; auto|]. left. auto.
        -- exists acc, (set_currentSOG (Some value) st), [].
           rewrite extend_nil. split; [reflexivity|].
           split; [constructor|].
           split; [unfold NavigationOnly; simpl; auto|].
           split; [simpl; auto|]. left. auto.
      * exists acc, (set_currentSOG (Some value) st), [].
        rewrite extend_nil. split; [reflexivity|].
        split; [constructor|].
        split; [unfold NavigationOnly; simpl; auto|].
        split; [simpl; auto|]. left. auto.
Qed.

Lemma AutoEnabledBy_incl (st st' : PluginState) (a b : list NavUpdate) :
  currentConfig st' = currentConfig st -> incl a b ->
  AutoEnabledBy st' a -> AutoEnabledBy st b.
Proof.
  intros Hcfg Hincl [config [value [Hc [Hauto [Hin Hmove]]]]].
  exists config, value. rewrite <- Hcfg. auto.
Qed.

Lemma navigation_fold (rt : JsRuntime) (updates : list NavUpdate) :
  forall (acc : option NavUpdate) (st : PluginState) (w : World),
  exists acc' st' evs,
    foldM (navigationUpdate rt) updates acc st w =
      Returned acc' st' (extend w evs) /\
    Forall notFetch evs /\
    NavigationOnly st st' /\
    (movingForecastEngaged st' = true ->
     movingForecastEngaged st = true \/ AutoEnabledBy st updates) /\
    (acc' = acc \/
     exists update, In update updates /\ acc' = Some update /\
                    nu_path update = "navigation.position"%string) /\
    ((forall update, In update updates ->
        nu_path update <> "navigation.position"%string) -> acc' = acc).
Proof.
  induction updates as [|update rest IH]; intros acc st w.
  - exists acc, st, []. rewrite extend_nil. split; [reflexivity|].
    split; [constructor|]. split; [apply NavigationOnly_refl|].
    split; [auto|]. split; auto.
  - destruct (navigationUpdate_step rt acc update st w)
      as [acc1 [st1 [evs1 [Hrun [Hev1 [Hnav1 [Hraise1 Hacc1]]]]]]].
    destruct (IH acc1 st1 (extend w evs1))
      as [acc' [st' [evs2 [Hrest [Hev2 [Hnav2 [Hraise2 [Hacc2 Hnone]]]]]]]].
    exists acc', st', (evs1 ++ evs2)%list.
    cbn [foldM]. rewrite (bind_returned _ _ _ _ _ _ _ Hrun), Hrest.
    rewrite extend_extend. split; [reflexivity|].
    split; [now apply Forall_app|].
    split; [now apply (NavigationOnly_trans st st1 st')|].
    split; [|split].
    + intros Heng. destruct (Hraise2 Heng) as [H1|H1].
      * destruct (Hraise1 H1) as [H0|H0]; [now left|right].
        apply (AutoEnabledBy_incl st st [update]); [reflexivity| |exact H0].
        intros u [<-|[]]. now left.
      * right. apply (AutoEnabledBy_incl st st1 rest);
          [apply Hnav1| |exact H1].
        intros u Hu. now right.
    + destruct Hacc2 as [->|[u [Hin [-> Hpath]]]].
      * destruct Hacc1 as [[-> _]|[-> Hpath]]; [now left|right].
        exists update. split; [now left|]. auto.
      * right. exists u. split; [now right|]. auto.
    + intros Hno. rewrite Hnone by (intros u Hu; apply Hno; now right).
      destruct Hacc1 as [[-> _]|[_ Hpath]]; [reflexivity|].
      exfalso. apply (Hno update); [now left|exact Hpath].
Qed.

Lemma CycleOnly_engaged (st st' : PluginState) :
  CycleOnly st st' ->
  movingForecastEngaged st' = movingForecastEngaged st.
Proof. intros H. rewrite H. reflexivity. Qed.

(** The position of a delta: the callback returns, and the engagement is
    as it was. *)
Lemma positionReceived_runs (rt : JsRuntime) (lat lon : R)
    (st : PluginState) (w : World) :
  exists st' w',
    positionReceived rt lat lon st w = Returned tt st' w' /\
    movingForecastEngaged st' = movingForecastEngaged st.
Proof.
  unfold positionReceived.
  rewrite (bind_returned getClock _ _ _ _ _ _ eq_refl).
  rewrite (bind_returned getState _ _ _ _ _ _ eq_refl).
  set (position := {| latitude := lat; longitude := lon;
                      timestamp := w_clock w |}).
  set (stored := match currentPosition st with
                 | None => set_currentPosition (Some position) st
                 | Some _ => st
                 end).
  assert (Hstore :
    (match currentPosition st with
     | None => modify (set_currentPosition (Some position))
     | Some _ => ret tt
     end) st w = Returned tt stored w)
    by (unfold stored; destruct (currentPosition st); reflexivity).
  rewrite (bind_returned _ _ _ _ _ _ _ Hstore).
  rewrite (bind_returned getState _ _ _ _ _ _ eq_refl).
  assert (Heng : movingForecastEngaged stored = movingForecastEngaged st)
    by (unfold stored; destruct (currentPosition st); reflexivity).
  assert (Hpos : exists p, currentPosition stored = Some p).
  { unfold stored. destruct (currentPosition st) as [p|] eqn:Hp;
      [exists p; exact Hp|exists position; reflexivity]. }
  destruct Hpos as [p Hp].
  destruct (currentConfig stored) as [config|];
    [|exists stored, w; split; [reflexivity|exact Heng]].
  destruct (shouldUpdateForecast stored (w_clock w) position);
    [|exists stored, w; split; [reflexivity|exact Heng]].
  assert (Hstationary : exists st' w',
            fetchForecast rt (Some position) config stored w
            = Returned tt st' w' /\
            movingForecastEngaged st' = movingForecastEngaged st).
  { destruct (fetchForecast_returns rt (Some position) config stored w)
      as [st' [w' Hrun]].
    exists st', w'. split; [exact Hrun|].
    apply fetchForecast_CycleOnly, CycleOnly_engaged in Hrun. congruence. }
  assert (Hmoving : exists st' w',
            fetchForecastForMovingVessel rt config stored w
            = Returned tt st' w' /\
            movingForecastEngaged st' = movingForecastEngaged st).
  { destruct (moving_returns rt config stored w) as [st' [w' Hrun]].
    exists st', w'. split; [exact Hrun|].
    apply (moving_CycleOnly rt p) in Hrun; [|exact Hp].
    destruct Hrun as [Hrun _]. apply CycleOnly_engaged in Hrun. congruence. }
  destruct (currentHeading stored); [|exact Hstationary].
  destruct (currentSOG stored); [|exact Hstationary].
  destruct (_ && _); [exact Hmoving|exact Hstationary].
Qed.

(** X21: the navigation subscription never takes the engagement back.
    The callback always returns; an engaged moving forecast stays engaged
    whatever the delta holds, and a forecast that was not engaged is
    engaged after the delta only if auto-enabling is configured and the
    delta holds a speed over ground above the threshold. *)
Theorem engagement_only_raised
    (rt : JsRuntime) (updates : list NavUpdate) (st : PluginState)
    (w : World) :
  exists st' w',
    navigationDelta rt updates st w = Returned tt st' w' /\
    (movingForecastEngaged st = true -> movingForecastEngaged st' = true) /\
    (movingForecastEngaged st' = true ->
     movingForecastEngaged st = true \/ AutoEnabledBy st updates).
Proof.
  unfold navigationDelta.
  destruct (navigation_fold rt updates None st w)
    as [acc [st1 [evs [Hfold [_ [Hnav [Hraise _]]]]]]].
  rewrite (bind_returned _ _ _ _ _ _ _ Hfold).
  destruct Hnav as [_ [_ [_ Hkeep]]].
  assert (Hquiet : exists st' w',
            Returned tt st1 (extend w evs) = Returned tt st' w' /\
            (movingForecastEngaged st = true ->
             movingForecastEngaged st' = true) /\
            (movingForecastEngaged st' = true ->
             movingForecastEngaged st = true \/ AutoEnabledBy st updates))
    by (exists st1, (extend w evs); auto).
  destruct acc as [update|]; [|exact Hquiet].
  destruct (nu_value update) as [x|lat lon| |]; try exact Hquiet.
  destruct (positionReceived_runs rt lat lon st1 (extend w evs))
    as [st' [w' [Hrun Heng]]].
  rewrite Hrun. exists st', w'. split; [reflexivity|].
  rewrite Heng. auto.
Qed.

Lemma engagement_only_raised_witness :
  exists st' w',
    navigationDelta utc speedDelta idleState (sampleWorld []) =
      Returned tt st' w' /\
    (movingForecastEngaged idleState = true ->
     movingForecastEngaged st' = true) /\
    (movingForecastEngaged st' = true ->
     movingForecastEngaged idleState = true \/
     AutoEnabledBy idleState speedDelta).
Proof.
  exact (engagement_only_raised utc speedDelta idleState (sampleWorld [])).
Defined.

(** X22: a delta without a position starts no cycle.  When none of its
    values is on the path [navigation.position], the callback sends no
    request and leaves the stored position and the time of the last cycle
    as they were, whatever heading and speed it brings: the trigger is
    looked at only when a position arrives. *)
Theorem delta_without_position_starts_no_cycle
    (rt : JsRuntime) (updates : list NavUpdate) (st : PluginState)
    (w : World) :
  (forall update, In update updates ->
     nu_path update <> "navigation.position"%string) ->
  exists st' evs,
    navigationDelta rt updates st w = Returned tt st' (extend w evs) /\
    Forall notFetch evs /\
    currentPosition st' = currentPosition st /\
    lastForecastUpdate st' = lastForecastUpdate st.
Proof.
  intros Hno. unfold navigationDelta.
  destruct (navigation_fold rt updates None st w)
    as [acc [st1 [evs [Hfold [Hev [Hnav [_ [_ Hnone]]]]]]]].
  rewrite (bind_returned _ _ _ _ _ _ _ Hfold), (Hnone Hno).
  destruct Hnav as [_ [Hpos [Hlast _]]].
  exists st1, evs. auto.
Qed.

Lemma delta_without_position_starts_no_cycle_witness :
  exists st' evs,
    navigationDelta utc speedDelta idleState
      (sampleWorld [serverErrorReply]) =
      Returned tt st' (extend (sampleWorld [serverErrorReply]) evs) /\
    Forall notFetch evs /\
    currentPosition st' = currentPosition idleState /\
    lastForecastUpdate st' = lastForecastUpdate idleState.
Proof.
  apply (delta_without_position_starts_no_cycle utc speedDelta idleState
           (sampleWorld [serverErrorReply])).
  intros update [<-|[]]. discriminate.
Defined.

Lemma shouldUpdateForecast_far (st : PluginState) (now : Z)
    (stored laterFix : Position) :
  currentPosition st = Some stored ->
  haversineDistance stored laterFix > 9260 ->
  shouldUpdateForecast st now laterFix = true.
Proof.
  unfold shouldUpdateForecast, haversineDistance. intros -> Hfar.
  destruct (_ =? _)%Z; [reflexivity|].
  destruct (Rle_dec _ _); [reflexivity|]. cbv zeta.
  destruct (Rlt_dec _ _) as [_|Hn]; [reflexivity|]. exfalso. apply Hn. lra.
Qed.

(** X23: while the moving forecast is used the stored position never
    moves.  For a vessel with a heading and a speed above the threshold and
    the moving forecast engaged, a fix more than 9260 m from the stored
    position starts a moving cycle; the cycle is given no position, it
    works from the stored one and stores it again.  So the stored position
    is the same after the cycle, and every later fix that is still more
    than 9260 m from it triggers again, however short the time since the
    last cycle. *)
Theorem moving_cycle_keeps_stored_position
    (rt : JsRuntime) (config : PluginConfig) (st : PluginState) (w : World)
    (stored : Position) (heading sog lat lon : R) :
  currentConfig st = Some config ->
  currentPosition st = Some stored ->
  currentHeading st = Some heading ->
  currentSOG st = Some sog ->
  isVesselMoving sog (movingSpeedThreshold config) = true ->
  movingForecastEngaged st = true ->
  haversineDistance stored
    {| latitude := lat; longitude := lon; timestamp := w_clock w |} > 9260 ->
  exists st' w',
    navigationDelta rt [positionUpdateOf lat lon] st w = Returned tt st' w' /\
    fetchForecastForMovingVessel rt config st w = Returned tt st' w' /\
    currentPosition st' = Some stored /\
    forall now laterFix,
      haversineDistance stored laterFix > 9260 ->
      shouldUpdateForecast st' now laterFix = true.
Proof.
  intros Hcfg Hpos Hhead Hsog Hmove Heng Hfar.
  destruct (moving_returns rt config st w) as [st' [w' Hrun]].
  exists st', w'.
  destruct (moving_CycleOnly rt stored config st st' w w' Hpos Hrun)
    as [_ Hstored].
  split; [|split; [exact Hrun|split; [exact Hstored|]]].
  - unfold navigationDelta.
    assert (Hfold : foldM (navigationUpdate rt) [positionUpdateOf lat lon]
                      None st w =
                    Returned (Some (positionUpdateOf lat lon)) st w)
      by reflexivity.
    rewrite (bind_returned _ _ _ _ _ _ _ Hfold).
    cbn [nu_value positionUpdateOf]. unfold positionReceived.
    rewrite (bind_returned getClock _ _ _ _ _ _ eq_refl).
    rewrite (bind_returned getState _ _ _ _ _ _ eq_refl).
    rewrite Hpos, bind_ret.
    rewrite (bind_returned getState _ _ _ _ _ _ eq_refl).
    rewrite Hcfg, (shouldUpdateForecast_far st (w_clock w) stored _ Hpos Hfar).
    rewrite Hhead, Hsog, Hmove, Heng. cbn [andb]. now rewrite Hrun.
  - intros now laterFix Hfix.
    now apply (shouldUpdateForecast_far st' now stored laterFix).
Qed.

Lemma moving_cycle_keeps_stored_position_witness :
  exists st' w',
    navigationDelta utc [positionUpdateOf 42 (-72)] sampleState
      (sampleWorld []) = Returned tt st' w' /\
    fetchForecastForMovingVessel utc sampleConfig sampleState
      (sampleWorld []) = Returned tt st' w' /\
    currentPosition st' = Some samplePosition /\
    forall now laterFix,
      haversineDistance samplePosition laterFix > 9260 ->
      shouldUpdateForecast st' now laterFix = true.
Proof.
  apply (moving_cycle_keeps_stored_position utc sampleConfig sampleState
           (sampleWorld []) samplePosition 1 5 42 (-72)).
  - reflexivity.
  - reflexivity.
  - reflexivity.
  - reflexivity.
  - unfold isVesselMoving, sampleConfig, movingSpeedThreshold.
    destruct (Rlt_dec _ _) as [_|H]; [reflexivity|]. exfalso. apply H. lra.
  - reflexivity.
  - rewrite haversineDistance_meridian;
      unfold samplePosition; simpl; try lra.
    unfold degToRad. pose proof PI2_1. lra.
Defined.

(** ** The wiring of the packages *)

(** X25: every enabled package is handled by exactly one of the two
    processors.  A package name the configuration enables contains either
    ["-1h"] or ["-day"], never both; with that suffix taken off it is a
    package type for which the processor of its kind has a non-empty list
    of fields, so no enabled package is requested and then dropped. *)
Theorem enabled_packages_are_processed
    (config : PluginConfig) (packageName : string) :
  In packageName (getEnabledPackages config) ->
  (includes "-1h" packageName = true /\
   includes "-day" packageName = false /\
   getHourlyPackageFields (replace "-1h" "" packageName) <> []) \/
  (includes "-day" packageName = true /\
   includes "-1h" packageName = false /\
   getDailyPackageFields (replace "-day" "" packageName) <> []).
Proof.
  unfold getEnabledPackages. rewrite !in_app_iff.
  assert (Hone : forall (flag : bool) (name : string) (P : Prop),
            (flag = true -> packageName = name -> P) ->
            In packageName (if flag then [name] else []) -> P).
  { intros [] name P HP; [|intros []]. intros [<-|[]]. now apply HP. }
  intros H.
  repeat match type of H with
         | _ \/ _ => destruct H as [H|H]
         end;
    revert H; apply Hone; intros _ ->;
    first [ left; split; [reflexivity|]; split; [reflexivity|];
            intros Hx; vm_compute in Hx; discriminate Hx
          | right; split; [reflexivity|]; split; [reflexivity|];
            intros Hx; vm_compute in Hx; discriminate Hx ].
Qed.

Lemma enabled_packages_are_processed_witness :
  (includes "-1h" "sea-day" = true /\
   includes "-day" "sea-day" = false /\
   getHourlyPackageFields (replace "-1h" "" "sea-day") <> []) \/
  (includes "-day" "sea-day" = true /\
   includes "-1h" "sea-day" = false /\
   getDailyPackageFields (replace "-day" "" "sea-day") <> []).
Proof.
  apply (enabled_packages_are_processed
           {| meteoblueApiKey := "key";
              forecastInterval := 120%R;
              altitude := 15%R;
              enablePositionSubscription := true;
              maxForecastHours := 72;
              maxForecastDays := 10;
              enableBasic1h := false;
              enableBasicDay := false;
              enableWind1h := false;
              enableWindDay := false;
              enableSea1h := false;
              enableSeaDay := true;
              enableSolar1h := false;
              enableSolarDay := false;
              enableTrend1h := false;
              enableClouds1h := false;
              enableCloudsDay := false;
              enableAutoMovingForecast := true;
              movingSpeedThreshold := 1%R |} "sea-day").
  simpl. auto.
Defined.

(** ** Account usage and its notifications *)

Lemma Math_round_ge (x : R) (n : Z) :
  (n <= Math_round x)%Z <-> IZR n - / 2 <= x.
Proof.
  pose proof (Math_round_bounds x) as [Hlo Hhi]. split; intros H.
  - apply IZR_le in H. lra.
  - assert (Hlt : IZR n < IZR (Math_round x + 1))
      by (rewrite plus_IZR; lra).
    apply lt_IZR in Hlt. lia.
Qed.

Lemma js_ge_number (rt : JsRuntime) (x c : R) :
  js_ge rt (JNum x) c = if Rle_dec c x then true else false.
Proof. reflexivity. Qed.

(** X26: the usage notification in credits.  When the usage reply is ok,
    the timer callback stores the processed information and then checks
    it.  With 500000 credits taken as the monthly limit and the percentage
    rounded to the nearest integer, it publishes an alert from 447500
    credits used on, a warning from 397500 to below 447500, and nothing
    below 397500, whatever was stored before: the "normal" notification
    that should clear a warning compares the new percentage with the stored
    one, which by then is the new one.  [checkApiLimits] alone does publish
    "normal" when the stored information is an older one at 80 or more. *)
Theorem usage_notification_thresholds
    (rt : JsRuntime) (now : Z) (st : PluginState) (status : nat)
    (statusText : string) (items : list UsageItem) :
  let reply := AccountResponse true status statusText (Some (Some items)) in
  let used := totalCreditsUsed items in
  exists info,
    fetchAccountInfo rt now reply = inl info /\
    accountChecked rt now reply st =
      (set_accountInfo (Some info) st,
       checkApiLimits rt now (set_accountInfo (Some info) st) info, None) /\
    (447500 <= used ->
     option_map n_state
       (checkApiLimits rt now (set_accountInfo (Some info) st) info)
     = Some "alert"%string) /\
    (397500 <= used < 447500 ->
     option_map n_state
       (checkApiLimits rt now (set_accountInfo (Some info) st) info)
     = Some "warn"%string) /\
    (used < 397500 ->
     checkApiLimits rt now (set_accountInfo (Some info) st) info = None) /\
    (forall older percentage,
       accountInfo st = Some older ->
       obj_get "usagePercentage" older = JNum percentage ->
       80 <= percentage -> used < 397500 ->
       option_map n_state (checkApiLimits rt now st info)
       = Some "normal"%string).
Proof.
  intros reply used.
  assert (Hlimit : 0 < estimatedMonthlyLimit)
    by (unfold estimatedMonthlyLimit; lra).
  unfold accountChecked. unfold reply at 1 2. cbn [fetchAccountInfo negb].
  destruct (Rlt_dec 0 estimatedMonthlyLimit) as [_|Hn]; [|contradiction].
  fold used. eexists. split; [reflexivity|]. split; [reflexivity|].
  set (percentage := Math_round (used / estimatedMonthlyLimit * 100)).
  assert (H90 : 447500 <= used <-> 90 <= IZR percentage).
  { unfold percentage. split; intros H.
    - apply IZR_le. apply Math_round_ge. unfold estimatedMonthlyLimit. lra.
    - apply le_IZR in H. apply Math_round_ge in H.
      unfold estimatedMonthlyLimit in H. lra. }
  assert (H80 : 397500 <= used <-> 80 <= IZR percentage).
  { unfold percentage. split; intros H.
    - apply IZR_le. apply Math_round_ge. unfold estimatedMonthlyLimit. lra.
    - apply le_IZR in H. apply Math_round_ge in H.
      unfold estimatedMonthlyLimit in H. lra. }
  unfold checkApiLimits.
  cbn [obj_get String.eqb Ascii.eqb Bool.eqb accountInfo set_accountInfo].
  rewrite !js_ge_number. unfold js_lt. cbn [ToNumber].
  split; [|split; [|split]].
  - intros H. destruct (Rle_dec 90 (IZR percentage)) as [_|Hn];
      [reflexivity|]. exfalso. apply Hn, H90, H.
  - intros [Hlo Hhi].
    destruct (Rle_dec 90 (IZR percentage)) as [Hy|_];
      [apply H90 in Hy; lra|].
    destruct (Rle_dec 80 (IZR percentage)) as [_|Hn]; [reflexivity|].
    exfalso. apply Hn, H80, Hlo.
  - intros H.
    destruct (Rle_dec 90 (IZR percentage)) as [Hy|_];
      [apply H90 in Hy; lra|].
    destruct (Rle_dec 80 (IZR percentage)) as [Hy|_];
      [apply H80 in Hy; lra|].
    now rewrite andb_false_r.
  - intros older q Hold Hq Hge H. rewrite Hold, Hq, js_ge_number.
    destruct (Rle_dec 90 (IZR percentage)) as [Hy|_];
      [apply H90 in Hy; lra|].
    destruct (Rle_dec 80 (IZR percentage)) as [Hy|Hlow];
      [apply H80 in Hy; lra|].
    destruct (Rlt_dec (IZR percentage) 80) as [_|Hn]; [|lra].
    destruct (Rle_dec 80 q) as [_|Hn]; [reflexivity|lra].
Qed.

Lemma usage_notification_thresholds_witness :
  option_map n_state
    (snd (fst (accountChecked utc sampleNow
                 (AccountResponse true 200 "OK" (Some (Some heavyUsage)))
                 sampleState)))
  = Some "alert"%string.
Proof.
  destruct (usage_notification_thresholds utc sampleNow sampleState 200 "OK"
              heavyUsage) as [info [_ [Hchecked [Halert _]]]].
  rewrite Hchecked. cbn [fst snd]. apply Halert.
  unfold totalCreditsUsed, heavyUsage. simpl. lra.
Defined.

Lemma ltb_trans (a b c : string) :
  String.ltb a b = true -> String.ltb b c = true -> String.ltb a c = true.
Proof.
  unfold String.ltb. intros Hab Hbc.
  destruct (a ?= b)%string eqn:Eab; try discriminate.
  destruct (b ?= c)%string eqn:Ebc; try discriminate.
  apply OrderedTypeEx.String_as_OT.cmp_lt in Eab, Ebc.
  pose proof (OrderedTypeEx.String_as_OT.lt_trans _ _ _ Eab Ebc) as Hac.
  apply OrderedTypeEx.String_as_OT.cmp_lt in Hac.
  unfold OrderedTypeEx.String_as_OT.cmp in Hac. now rewrite Hac.
Qed.

Lemma dateLe_trans (a b c : string) : dateLe a b -> dateLe b c -> dateLe a c.
Proof.
  unfold dateLe. intros [->|Hab] [->|Hbc]; auto.
  right. now apply (ltb_trans a b c).
Qed.

Lemma dateLe_total (a b : string) :
  String.ltb a b = false -> dateLe b a.
Proof.
  unfold dateLe, String.ltb. intros H.
  destruct (a ?= b)%string eqn:E; try discriminate.
  - left. symmetry. now apply String.compare_eq_iff.
  - right. rewrite String.compare_antisym, E. reflexivity.
Qed.

Lemma earliestDate_fold (items : list UsageItem) :
  forall start,
    let result :=
      fold_left
        (fun earliest item =>
           match request_date item with
           | Some date =>
               if (date =? "") then earliest
               else if (earliest =? "") || String.ltb date earliest then date
                    else earliest
           | None => earliest
           end) items start in
    (result = start \/ In result (datesOf items)) /\
    (start <> ""%string -> dateLe result start /\ result <> ""%string) /\
    (forall date, In date (datesOf items) ->
                  dateLe result date /\ result <> ""%string).
Proof.
  induction items as [|item rest IH]; intros start; cbn [fold_left].
  - cbv zeta. split; [now left|]. split; [|intros date []].
    intros H. split; [now left|exact H].
  - set (next := match request_date item with
                 | Some date =>
                     if (date =? "") then start
                     else if (start =? "") || String.ltb date start then date
                          else start
                 | None => start
                 end).
    destruct (IH next) as [Hin [Hstart Hall]]. cbv zeta in *.
    unfold datesOf. cbn [flat_map]. fold (datesOf rest).
    destruct (request_date item) as [date|] eqn:Hd;
      [destruct (String.eqb_spec date "") as [->|Hne]|].
    + subst next. simpl. auto.
    + cbn [List.app].
      destruct (String.eqb_spec start "") as [->|Hs]; cbn [orb] in next.
      * subst next. destruct (Hstart Hne) as [Hle Hnon].
        split; [destruct Hin as [->|Hin]; right; [now left|now right]|].
        split; [intros H; now destruct H|].
        intros d [<-|Hd']; [auto|now apply Hall].
      * destruct (String.ltb date start) eqn:Hlt; subst next.
        -- destruct (Hstart Hne) as [Hle Hnon].
           split; [destruct Hin as [->|Hin]; right; [now left|now right]|].
           split; [intros _; split; [|exact Hnon];
                   apply (dateLe_trans _ date); [exact Hle|now right]|].
           intros d [<-|Hd']; [auto|now apply Hall].
        -- destruct (Hstart Hs) as [Hle Hnon].
           split; [destruct Hin as [->|Hin]; [now left|right; now right]|].
           split; [auto|].
           intros d [<-|Hd']; [|now apply Hall].
           split; [|exact Hnon].
           apply (dateLe_trans _ start); [exact Hle|].
           now apply dateLe_total.
    + subst next. simpl. auto.
Qed.

Lemma latestDate_fold (items : list UsageItem) :
  forall start,
    let result :=
      fold_left
        (fun latest item =>
           match request_date item with
           | Some date =>
               if (date =? "") then latest
               else if (latest =? "") || String.ltb latest date then date
                    else latest
           | None => latest
           end) items start in
    (result = start \/ In result (datesOf items)) /\
    (start <> ""%string -> dateLe start result /\ result <> ""%string) /\
    (forall date, In date (datesOf items) ->
                  dateLe date result /\ result <> ""%string).
Proof.
  induction items as [|item rest IH]; intros start; cbn [fold_left].
  - cbv zeta. split; [now left|]. split; [|intros date []].
    intros H. split; [now left|exact H].
  - set (next := match request_date item with
                 | Some date =>
                     if (date =? "") then start
                     else if (start =? "") || String.ltb start date then date
                          else start
                 | None => start
                 end).
    destruct (IH next) as [Hin [Hstart Hall]]. cbv zeta in *.
    unfold datesOf. cbn [flat_map]. fold (datesOf rest).
    destruct (request_date item) as [date|] eqn:Hd;
      [destruct (String.eqb_spec date "") as [->|Hne]|].
    + subst next. simpl. auto.
    + cbn [List.app].
      destruct (String.eqb_spec start "") as [->|Hs]; cbn [orb] in next.
      * subst next. destruct (Hstart Hne) as [Hle Hnon].
        split; [destruct Hin as [->|Hin]; right; [now left|now right]|].
        split; [intros H; now destruct H|].
        intros d [<-|Hd']; [auto|now apply Hall].
      * destruct (String.ltb start date) eqn:Hlt; subst next.
        -- destruct (Hstart Hne) as [Hle Hnon].
           split; [destruct Hin as [->|Hin]; right; [now left|now right]|].
           split; [intros _; split; [|exact Hnon];
                   apply (dateLe_trans _ date); [now right|exact Hle]|].
           intros d [<-|Hd']; [auto|now apply Hall].
        -- destruct (Hstart Hs) as [Hle Hnon].
           split; [destruct Hin as [->|Hin]; [now left|right; now right]|].
           split; [auto|].
           intros d [<-|Hd']; [|now apply Hall].
           split; [|exact Hnon].
           apply (dateLe_trans _ start); [|exact Hle].
           now apply dateLe_total.
    + subst next. simpl. auto.
Qed.

(** X27: the period of the account information.  [periodStart] and
    [periodEnd] are the least and the greatest of the dates the usage items
    carry, as strings: each is the date of an item, every item's date lies
    between them, and both are empty exactly when no item has a date.  The
    [totalRequests] reported is the assumed limit of 500000, not the number
    of requests, and [remainingRequests] is 0 exactly when the status is
    [limit_exceeded]. *)
Theorem account_period_and_totals
    (rt : JsRuntime) (now : Z) (status : nat) (statusText : string)
    (items : list UsageItem) :
  exists info,
    fetchAccountInfo rt now
      (AccountResponse true status statusText (Some (Some items))) = inl info /\
    obj_get "periodStart" info = JStr (earliestDate items) /\
    obj_get "periodEnd" info = JStr (latestDate items) /\
    (datesOf items = [] ->
     earliestDate items = ""%string /\ latestDate items = ""%string) /\
    (forall date, In date (datesOf items) ->
       In (earliestDate items) (datesOf items) /\
       In (latestDate items) (datesOf items) /\
       dateLe (earliestDate items) date /\ dateLe date (latestDate items)) /\
    obj_get "totalRequests" info = JNum 500000 /\
    (obj_get "remainingRequests" info = JNum 0 <->
     obj_get "status" info = JStr "limit_exceeded").
Proof.
  cbn [fetchAccountInfo negb]. eexists. split; [reflexivity|].
  cbn [obj_get String.eqb Ascii.eqb Bool.eqb].
  split; [reflexivity|]. split; [reflexivity|].
  pose proof (earliestDate_fold items "") as [Hein [_ Heall]].
  pose proof (latestDate_fold items "") as [Hlin [_ Hlall]].
  cbv zeta in *. fold (earliestDate items) in *. fold (latestDate items) in *.
  split; [|split; [|split]].
  - intros Hnone. rewrite Hnone in *.
    destruct Hein as [He|[]]. destruct Hlin as [Hl|[]]. auto.
  - intros date Hdate.
    destruct (Heall date Hdate) as [Hle Hne].
    destruct (Hlall date Hdate) as [Hge Hnl].
    destruct Hein as [He|He]; [contradiction|].
    destruct Hlin as [Hl|Hl]; [contradiction|]. auto.
  - reflexivity.
  - set (used := totalCreditsUsed items). unfold estimatedMonthlyLimit.
    destruct (Rlt_dec used 500000) as [Hlt|Hge]; split; intros H.
    + injection H as H. unfold Rmax in H.
      destruct (Rle_dec 0 (500000 - used)); lra.
    + discriminate.
    + reflexivity.
    + f_equal. unfold Rmax. destruct (Rle_dec 0 (500000 - used)); lra.
Qed.

Lemma account_period_and_totals_witness :
  dateLe (earliestDate heavyUsage) "2024-01-15" /\
  dateLe "2024-01-15" (latestDate heavyUsage).
Proof.
  destruct (account_period_and_totals utc sampleNow 200 "OK" heavyUsage)
    as [info [_ [_ [_ [_ [Hdates _]]]]]].
  destruct (Hdates "2024-01-15"%string) as [_ [_ [Hlo Hhi]]].
  - simpl. auto.
  - split; [exact Hlo|exact Hhi].
Defined.

(** ** Unit labels and unit conversions *)

Lemma convertField_conversion (rt : JsRuntime) (field : string) (value : R)
    (o : Obj) :
  obj_get field (convertField rt field value o) =
  JNum (applyConversion (conversionOf field) value).
Proof.
  unfold convertField, conversionOf.
  repeat match goal with
         | |- context [if ?c then _ else _] =>
             destruct c eqn:?; [now rewrite obj_get_set_same|]
         end.
  destruct (String.eqb_spec field "douglas_seastate") as [->|_].
  - rewrite (obj_get_set_other "douglas_seastate_verbose" "douglas_seastate")
      by discriminate.
    rewrite (obj_get_set_other "douglas_seastate_description"
               "douglas_seastate") by discriminate.
    now rewrite obj_get_set_same.
  - now rewrite obj_get_set_same.
Qed.

Lemma option_string_eqb_eq (a b : option string) :
  option_string_eqb a b = true -> a = b.
Proof.
  destruct a as [x|], b as [y|]; simpl; intros H; try discriminate;
    [|reflexivity].
  apply String.eqb_eq in H. now subst.
Qed.

Lemma owned_labels_agree (packageType : string) :
  forallb labelAgrees
    (getHourlyPackageFields packageType ++ getDailyPackageFields packageType)
  = true.
Proof.
  unfold getHourlyPackageFields, getDailyPackageFields.
  repeat match goal with
         | |- context [if ?c then _ else _] => destruct c
         end; vm_compute; reflexivity.
Qed.

(** X28: unit labels against unit conversions.  The value a record holds
    for a field is the series value under the conversion chosen by the
    field's name; and for every field a package owns, hourly or daily, that
    is converted, the unit label published with the field names the unit it
    was converted to (K, rad, m, Pa, ratio), with one exception: the cloud
    cover fields ([cloudcover] and its daily maximum, minimum and mean) are
    converted from percent to a ratio and labelled with the empty unit. *)
Theorem labels_agree_with_conversions
    (rt : JsRuntime) (packageType field : string) :
  (forall value o,
     obj_get field (convertField rt field value o) =
     JNum (applyConversion (conversionOf field) value)) /\
  (In field (getHourlyPackageFields packageType ++
             getDailyPackageFields packageType) ->
   conversionOf field <> Unconverted ->
   pm_units (getParameterMetadata field) = unitOf (conversionOf field) \/
   (includes "cloudcover" field = true /\
    conversionOf field = ToRatio /\
    pm_units (getParameterMetadata field) = Some ""%string)).
Proof.
  split; [intros value o; apply convertField_conversion|].
  intros Hin Hconv.
  pose proof (owned_labels_agree packageType) as Hall.
  rewrite forallb_forall in Hall. specialize (Hall field Hin).
  unfold labelAgrees in Hall.
  assert (Hcase :
    option_string_eqb (pm_units (getParameterMetadata field))
      (unitOf (conversionOf field)) ||
    (includes "cloudcover" field && isRatio (conversionOf field) &&
     option_string_eqb (pm_units (getParameterMetadata field)) (Some ""))
    = true)
    by (destruct (conversionOf field); try exact Hall; contradiction).
  apply orb_true_iff in Hcase. destruct Hcase as [H|H].
  - left. now apply option_string_eqb_eq.
  - right. apply andb_true_iff in H. destruct H as [H Hunit].
    apply andb_true_iff in H. destruct H as [Hcloud Hratio].
    split; [exact Hcloud|]. split; [|now apply option_string_eqb_eq].
    destruct (conversionOf field); try discriminate. reflexivity.
Qed.

Lemma labels_agree_with_conversions_witness :
  pm_units (getParameterMetadata "cloudcover_mean") =
    unitOf (conversionOf "cloudcover_mean") \/
  (includes "cloudcover" "cloudcover_mean" = true /\
   conversionOf "cloudcover_mean" = ToRatio /\
   pm_units (getParameterMetadata "cloudcover_mean") = Some ""%string).
Proof.
  apply (proj2 (labels_agree_with_conversions utc "clouds" "cloudcover_mean")).
  - apply In_existsb. reflexivity.
  - vm_compute. discriminate.
Defined.
(** ** Failed cycles and the update trigger (C3) *)





